(** * Node usage-reset scheduling: a shallow embedding

    The development follows [app/db/crud/node.py] (candidate selection,
    the per-strategy due-ness evaluation, the two reset entry points) and
    [app/models/node.py] (the validator of [reset_time] against the reset
    strategy).  Integers are [Z]; Python's [//] and [%] by a positive
    divisor are [Z.div] and [Z.modulo]; the nodes table is a finite map
    from primary key to row; a database session is a committed database
    together with the working copy of the open transaction. *)

From Stdlib Require Import ZArith Lia.
From stdpp Require Import gmap list strings.

Local Open Scope Z_scope.

(** ** Python's [datetime], as far as the code reads it *)

(** [datetime.date]: the value of [now.date()]. *)
Module date.

Record t : Type := make { year : Z; month : Z; day : Z }.

(** [_is_leap(year)] *)
Definition _is_leap (y : Z) : bool :=
  (y mod 4 =? 0) && (negb (y mod 100 =? 0) || (y mod 400 =? 0)).

(** [_days_before_year(year)]: days before January 1st of [year]. *)
Definition _days_before_year (year : Z) : Z :=
  let y := year - 1 in
  y * 365 + y / 4 - y / 100 + y / 400.

(** [_DAYS_IN_MONTH], with the placeholder at index 0. *)
Definition _DAYS_IN_MONTH : list Z :=
  [-1; 31; 28; 31; 30; 31; 30; 31; 31; 30; 31; 30; 31].

(** [_DAYS_BEFORE_MONTH], with the placeholder at index 0. *)
Definition _DAYS_BEFORE_MONTH : list Z :=
  [-1; 0; 31; 59; 90; 120; 151; 181; 212; 243; 273; 304; 334].

(** [_days_in_month(year, month)] *)
Definition _days_in_month (year month : Z) : Z :=
  if (month =? 2) && _is_leap year then 29
  else nth (Z.to_nat month) _DAYS_IN_MONTH 0.

(** [_days_before_month(year, month)] *)
Definition _days_before_month (year month : Z) : Z :=
  nth (Z.to_nat month) _DAYS_BEFORE_MONTH 0
  + (if (2 <? month) && _is_leap year then 1 else 0).

(** [_ymd2ord(year, month, day)], the value of [toordinal()]. *)
Definition toordinal (d : t) : Z :=
  _days_before_year (year d) + _days_before_month (year d) (month d) + day d.

(** [weekday()]: Monday is 0, Sunday is 6. *)
Definition weekday (d : t) : Z := (toordinal d + 6) mod 7.

(** [timetuple().tm_yday]: January 1st is day 1. *)
Definition tm_yday (d : t) : Z := _days_before_month (year d) (month d) + day d.

(** [a > b]: dates compare as the tuples (year, month, day). *)
Definition gt (a b : t) : bool :=
  (year b <? year a)
  || ((year a =? year b)
      && ((month b <? month a)
          || ((month a =? month b) && (day b <? day a)))).

(** [(a - b).days] *)
Definition sub_days (a b : t) : Z := toordinal a - toordinal b.

(** The dates the constructor accepts. *)
Definition valid (d : t) : Prop :=
  1 <= year d <= 9999 /\ 1 <= month d <= 12
  /\ 1 <= day d <= _days_in_month (year d) (month d).

End date.

(** [datetime.datetime], always in UTC here. *)
Module datetime.

Record t : Type := make {
  year : Z; month : Z; day : Z;
  hour : Z; minute : Z; second : Z; microsecond : Z
}.

Definition date (d : t) : date.t := date.make (year d) (month d) (day d).

Definition weekday (d : t) : Z := date.weekday (date d).

Definition tm_yday (d : t) : Z := date.tm_yday (date d).

(** [a > b]: lexicographic on (year, ..., microsecond). *)
Definition gt (a b : t) : bool :=
  date.gt (date a) (date b)
  || ((year a =? year b) && (month a =? month b) && (day a =? day b)
      && ((hour b <? hour a)
          || ((hour a =? hour b)
              && ((minute b <? minute a)
                  || ((minute a =? minute b)
                      && ((second b <? second a)
                          || ((second a =? second b)
                              && (microsecond b <? microsecond a)))))))).

(** [max(...)] over a non-empty iterable keeps the first greatest item. *)
Definition max_of (first : t) (others : list t) : t :=
  fold_left (fun best item => if gt item best then item else best) others first.

(** The datetimes the constructor accepts. *)
Definition valid (d : t) : Prop :=
  date.valid (date d)
  /\ 0 <= hour d < 24 /\ 0 <= minute d < 60 /\ 0 <= second d < 60
  /\ 0 <= microsecond d < 1000000.

(** The expression [d.hour * 3600 + d.minute * 60 + d.second], which the
    evaluator writes out at every use. *)
Definition seconds_of_day (d : t) : Z :=
  hour d * 3600 + minute d * 60 + second d.

(** [(a - b) // timedelta(microseconds=1)]: the elapsed time from [b] to
    [a], used to phrase statements such as "23 hours before now". *)
Definition elapsed_microseconds (a b : t) : Z :=
  ((date.sub_days (date a) (date b)) * 86400
   + (seconds_of_day a - seconds_of_day b)) * 1000000
  + (microsecond a - microsecond b).

End datetime.

(** ** Enumerations and rows *)

(** Modelled from the spec: the enumeration [NodeStatus] of [app.db.models],
    which is not among the sources; the spec lists its five members. *)
Module NodeStatus.
Inductive t : Type := connecting | connected | error | disabled | limited.
End NodeStatus.

(** Modelled from the spec: the enumeration [DataLimitResetStrategy] of
    [app.db.models], which is not among the sources. *)
Module DataLimitResetStrategy.
Inductive t : Type := no_reset | day | week | month | year.
End DataLimitResetStrategy.

#[global] Instance NodeStatus_eq_dec : EqDecision NodeStatus.t.
Proof. solve_decision. Defined.

#[global] Instance DataLimitResetStrategy_eq_dec : EqDecision DataLimitResetStrategy.t.
Proof. solve_decision. Defined.

(** ** [app/models/node.py]: the reset_time validator *)

Definition SECONDS_IN_DAY : Z := 86400.
Definition SECONDS_IN_WEEK : Z := 604800.
Definition SECONDS_IN_MONTH : Z := 2678400.
Definition SECONDS_IN_YEAR : Z := 31536000.

(** The dictionary [max_values] with its [.get]. *)
Definition max_values (s : DataLimitResetStrategy.t) : option Z :=
  match s with
  | DataLimitResetStrategy.day => Some SECONDS_IN_DAY
  | DataLimitResetStrategy.week => Some SECONDS_IN_WEEK
  | DataLimitResetStrategy.month => Some SECONDS_IN_MONTH
  | DataLimitResetStrategy.year => Some SECONDS_IN_YEAR
  | DataLimitResetStrategy.no_reset => None
  end.

(** What a pydantic validator does: hand the model back, or raise. *)
Inductive validation (A : Type) : Type :=
| Accepted (model : A)
| ValueError (max_value : Z) (strategy : DataLimitResetStrategy.t) (got : Z).
Arguments Accepted {A} model.
Arguments ValueError {A} max_value strategy got.

(** The two fields of [NodeCreate] the validator reads.  The strategy is
    optional because the validator tests it against [None]. *)
Record NodeCreate : Type := {
  nc_data_limit_reset_strategy : option DataLimitResetStrategy.t;
  nc_reset_time : Z
}.

(** [NodeCreate.validate_reset_time_for_strategy] *)
Definition validate_reset_time_for_strategy (self : NodeCreate) : validation NodeCreate :=
  match nc_data_limit_reset_strategy self with
  | None => Accepted self
  | Some strategy =>
      if bool_decide (strategy = DataLimitResetStrategy.no_reset)
         || (nc_reset_time self =? -1)
      then Accepted self
      else
        match max_values strategy with
        | Some max_value =>
            if negb (max_value =? 0) && (max_value <=? nc_reset_time self)
            then ValueError max_value strategy (nc_reset_time self)
            else Accepted self
        | None => Accepted self
        end
  end.

(** ** The tables *)

(** Modelled from the spec: the ORM class [Node] of [app.db.models], which
    is not among the sources.  The primary key [id] is the key of the row
    in the nodes table below; the record holds the other columns that the
    functions of [crud/node.py] read or write. *)
Module Node.

Record t : Type := make {
  name : string;
  address : string;
  port : Z;
  status : NodeStatus.t;
  message : option string;
  xray_version : option string;
  node_version : option string;
  uplink : Z;
  downlink : Z;
  data_limit : Z;
  data_limit_reset_strategy : DataLimitResetStrategy.t;
  reset_time : Z;
  created_at : datetime.t
}.

(** [node.uplink = v] *)
Definition set_uplink (v : Z) (n : t) : t :=
  make (name n) (address n) (port n) (status n) (message n) (xray_version n)
       (node_version n) v (downlink n) (data_limit n)
       (data_limit_reset_strategy n) (reset_time n) (created_at n).

(** [node.downlink = v] *)
Definition set_downlink (v : Z) (n : t) : t :=
  make (name n) (address n) (port n) (status n) (message n) (xray_version n)
       (node_version n) (uplink n) v (data_limit n)
       (data_limit_reset_strategy n) (reset_time n) (created_at n).

(** [node.status = v] *)
Definition set_status (v : NodeStatus.t) (n : t) : t :=
  make (name n) (address n) (port n) v (message n) (xray_version n)
       (node_version n) (uplink n) (downlink n) (data_limit n)
       (data_limit_reset_strategy n) (reset_time n) (created_at n).

End Node.

(** Modelled from the spec: the ORM class [NodeUsageResetLogs] of
    [app.db.models], which is not among the sources: node id, the counters
    captured at the reset, and the creation timestamp, which the column
    default fills in when the constructor is not given one. *)
Module NodeUsageResetLogs.

Record t : Type := make {
  node_id : Z;
  uplink : Z;
  downlink : Z;
  created_at : datetime.t
}.

End NodeUsageResetLogs.

(** The two tables the reset pipeline touches. *)
Record Database : Type := {
  nodes : gmap Z Node.t;
  node_usage_reset_logs : list NodeUsageResetLogs.t
}.

(** ** The session: a unit of work over the database

    [committed] is what the store holds; [working] is the view of the open
    transaction, where attribute assignments on ORM objects and [db.add]
    land until [commit].  An ORM object is referred to by its primary key:
    two references with the same key are the same object. *)
Record AsyncSession : Type := {
  committed : Database;
  working : Database
}.

Inductive exn : Type :=
| OperationalError      (* the store refused the commit *)
| InvalidRequestError.  (* the instance is not persistent in this session *)

Inductive outcome (A : Type) : Type :=
| Return (a : A) (db : AsyncSession)
| Raise (e : exn) (db : AsyncSession).
Arguments Return {A} a db.
Arguments Raise {A} e db.

(** Session computations: state passing with exceptions. *)
Definition io (A : Type) : Type := AsyncSession -> outcome A.

#[global] Instance io_ret : MRet io := fun A a db => Return a db.

#[global] Instance io_bind : MBind io := fun A B k m db =>
  match m db with
  | Return a db' => k a db'
  | Raise e db' => Raise e db'
  end.

(** Reading an attribute of the object behind [db_node]. *)
Definition getattr {A : Type} (db_node : Z) (field : Node.t -> A) : io A :=
  fun db =>
    match nodes (working db) !! db_node with
    | Some n => Return (field n) db
    | None => Raise InvalidRequestError db
    end.

(** Assigning an attribute of the object behind [db_node]. *)
Definition setattr (db_node : Z) (assign : Node.t -> Node.t) : io unit :=
  fun db =>
    match nodes (working db) !! db_node with
    | Some n =>
        Return tt
          {| committed := committed db;
             working := {| nodes := <[db_node := assign n]> (nodes (working db));
                           node_usage_reset_logs := node_usage_reset_logs (working db) |} |}
    | None => Raise InvalidRequestError db
    end.

(** [db.add(usage_log)] *)
Definition add (usage_log : NodeUsageResetLogs.t) : io unit :=
  fun db =>
    Return tt
      {| committed := committed db;
         working := {| nodes := nodes (working db);
                       node_usage_reset_logs :=
                         node_usage_reset_logs (working db) ++ [usage_log] |} |}.

(** [await db.commit()]: the store either takes the whole working copy or
    refuses; [store_accepts] is the store's answer. *)
Definition commit (store_accepts : bool) : io unit :=
  fun db =>
    if store_accepts
    then Return tt {| committed := working db; working := working db |}
    else Raise OperationalError db.

(** [await db.refresh(db_node)]: reload the object from its row. *)
Definition refresh (db_node : Z) : io unit :=
  fun db =>
    match nodes (working db) !! db_node with
    | Some _ => Return tt db
    | None => Raise InvalidRequestError db
    end.

(** [load_node_attrs]: awaits [usage_logs] and swallows [AttributeError]. *)
Definition load_node_attrs (node : Z) : io unit := mret tt.

(** A [for] loop over a list, run for its effects. *)
Fixpoint for_each {A : Type} (items : list A) (body : A -> io unit) : io unit :=
  match items with
  | [] => mret tt
  | item :: rest => body item ;; for_each rest body
  end.

(** ** The Reset Executor *)

(** [reset_node_usage].  [now] is the instant the column default stamps on
    the new log row. *)
Definition reset_node_usage (store_accepts : bool) (now : datetime.t)
    (db_node : Z) : io Z :=
  uplink ← getattr db_node Node.uplink;
  downlink ← getattr db_node Node.downlink;
  let usage_log := NodeUsageResetLogs.make db_node uplink downlink now in
  add usage_log ;;
  setattr db_node (Node.set_uplink 0) ;;
  setattr db_node (Node.set_downlink 0) ;;
  status ← getattr db_node Node.status;
  (if bool_decide (status = NodeStatus.limited)
   then setattr db_node (Node.set_status NodeStatus.connecting)
   else mret tt) ;;
  commit store_accepts ;;
  refresh db_node ;;
  load_node_attrs db_node ;;
  mret db_node.

(** The body of the first loop of [bulk_reset_node_usage]. *)
Definition bulk_reset_step (now : datetime.t) (db_node : Z) : io unit :=
  uplink ← getattr db_node Node.uplink;
  downlink ← getattr db_node Node.downlink;
  let usage_log := NodeUsageResetLogs.make db_node uplink downlink now in
  add usage_log ;;
  setattr db_node (Node.set_uplink 0) ;;
  setattr db_node (Node.set_downlink 0) ;;
  status ← getattr db_node Node.status;
  if bool_decide (status = NodeStatus.limited)
  then setattr db_node (Node.set_status NodeStatus.connecting)
  else mret tt.

(** [bulk_reset_node_usage] *)
Definition bulk_reset_node_usage (store_accepts : bool) (now : datetime.t)
    (nodes : list Z) : io (list Z) :=
  for_each nodes (bulk_reset_step now) ;;
  commit store_accepts ;;
  for_each nodes (fun node => refresh node ;; load_node_attrs node) ;;
  mret nodes.

(** ** The Candidate Selector and the Reset Policy Evaluator *)

(** [node.usage_logs]: the log rows of the node. *)
Definition usage_logs (d : Database) (node_id : Z) : list NodeUsageResetLogs.t :=
  filter (fun log => NodeUsageResetLogs.node_id log = node_id)
         (node_usage_reset_logs d).

(** [last_reset_subq]: [max(created_at)] per node id; no row for a node
    without logs, hence NULL after the outer join. *)
Definition last_reset_subq (d : Database) (node_id : Z) : option datetime.t :=
  match NodeUsageResetLogs.created_at <$> usage_logs d node_id with
  | [] => None
  | first :: others => Some (datetime.max_of first others)
  end.

(** [coalesce(last_reset_subq.c.last_reset_at, Node.created_at)] *)
Definition last_reset_time (d : Database) (node_id : Z) (n : Node.t) : datetime.t :=
  match last_reset_subq d node_id with
  | Some last_reset_at => last_reset_at
  | None => Node.created_at n
  end.

(** [reset_strategy_to_days] as the SQL [CASE ... ELSE NULL]. *)
Definition num_days_to_reset_case (s : DataLimitResetStrategy.t) : option Z :=
  match s with
  | DataLimitResetStrategy.day => Some 1
  | DataLimitResetStrategy.week => Some 7
  | DataLimitResetStrategy.month => Some 30
  | DataLimitResetStrategy.year => Some 365
  | DataLimitResetStrategy.no_reset => None
  end.

(** Modelled from the spec: [DateDiff] of [app.db.compiles_types], which is
    not among the sources.  The spec has an interval-mode node due "once at
    least N calendar days have elapsed since the last reset", counted in
    whole days ("not fractional hours") and "exactly at the boundary (e.g.,
    6 days 23:59:59 elapsed is NOT due for week; 7 days 0:00:00 elapsed IS
    due)": the number of whole days elapsed from [b] to [a]. *)
Definition DateDiff (a b : datetime.t) : Z :=
  datetime.elapsed_microseconds a b / 86400000000.

(** The third condition of the [where]: the [CASE] on [reset_time == -1].
    A comparison with NULL does not select the row. *)
Definition interval_case (sql_now : datetime.t) (d : Database)
    (node_id : Z) (n : Node.t) : bool :=
  if Node.reset_time n =? -1
  then match num_days_to_reset_case (Node.data_limit_reset_strategy n) with
       | Some days => days <=? DateDiff sql_now (last_reset_time d node_id n)
       | None => false
       end
  else true.

(** The [where] of the statement. *)
Definition stmt_where (sql_now : datetime.t) (d : Database)
    (node_id : Z) (n : Node.t) : bool :=
  bool_decide (Node.status n ∈ [NodeStatus.connected; NodeStatus.limited;
                                NodeStatus.error; NodeStatus.connecting])
  && bool_decide (Node.data_limit_reset_strategy n ≠ DataLimitResetStrategy.no_reset)
  && interval_case sql_now d node_id n.

(** [list((await db.execute(stmt)).unique().scalars().all())] *)
Definition execute_stmt (sql_now : datetime.t) (d : Database) : list (Z * Node.t) :=
  filter (fun row => stmt_where sql_now d row.1 row.2 = true)
         (map_to_list (nodes d)).

(** The Python-side last reset: the greatest [created_at] of the node's
    logs, or the node's creation time. *)
Definition last_reset_of (d : Database) (node_id : Z) (n : Node.t) : datetime.t :=
  match NodeUsageResetLogs.created_at <$> usage_logs d node_id with
  | first :: others => datetime.max_of first others
  | [] => Node.created_at n
  end.

(** Day strategy, lines 498-507. *)
Definition should_reset_day (reset_time : Z) (now last_reset : datetime.t) : bool :=
  let current_seconds :=
    datetime.hour now * 3600 + datetime.minute now * 60 + datetime.second now in
  let last_reset_seconds :=
    datetime.hour last_reset * 3600 + datetime.minute last_reset * 60
    + datetime.second last_reset in
  (reset_time <=? current_seconds)
  && (date.gt (datetime.date now) (datetime.date last_reset)
      || (last_reset_seconds <? reset_time)).

(** Week strategy, lines 509-529. *)
Definition should_reset_week (reset_time : Z) (now last_reset : datetime.t) : bool :=
  let current_day := datetime.weekday now in
  let current_seconds :=
    datetime.hour now * 3600 + datetime.minute now * 60 + datetime.second now in
  let current_week_seconds := current_day * 86400 + current_seconds in
  let last_reset_day := datetime.weekday last_reset in
  let last_reset_seconds :=
    datetime.hour last_reset * 3600 + datetime.minute last_reset * 60
    + datetime.second last_reset in
  let last_reset_week_seconds := last_reset_day * 86400 + last_reset_seconds in
  let days_diff := date.sub_days (datetime.date now) (datetime.date last_reset) in
  (7 <=? days_diff)
  && (reset_time <=? current_week_seconds)
  && ((last_reset_week_seconds <? reset_time) || (7 <? days_diff)).

(** Month strategy, lines 531-558. *)
Definition should_reset_month (reset_time : Z) (now last_reset : datetime.t) : bool :=
  let target_day := Z.min (reset_time / 86400) 28 in
  let target_seconds := reset_time mod 86400 in
  let current_day := datetime.day now in
  let current_seconds :=
    datetime.hour now * 3600 + datetime.minute now * 60 + datetime.second now in
  ((target_day <? current_day)
   || ((current_day =? target_day) && (target_seconds <=? current_seconds)))
  && ((datetime.year last_reset <? datetime.year now)
      || (datetime.month last_reset <? datetime.month now)
      || ((datetime.month now =? datetime.month last_reset)
          && ((datetime.day last_reset <? target_day)
              || ((datetime.day last_reset =? target_day)
                  && (datetime.hour last_reset * 3600
                      + datetime.minute last_reset * 60
                      + datetime.second last_reset <? target_seconds))))).

(** Year strategy, lines 560-578. *)
Definition should_reset_year (reset_time : Z) (now last_reset : datetime.t) : bool :=
  let target_day_of_year := reset_time / 86400 in
  let target_seconds := reset_time mod 86400 in
  let current_day_of_year := datetime.tm_yday now in
  let current_seconds :=
    datetime.hour now * 3600 + datetime.minute now * 60 + datetime.second now in
  let last_reset_day_of_year := datetime.tm_yday last_reset in
  ((target_day_of_year <? current_day_of_year)
   || ((current_day_of_year =? target_day_of_year)
       && (target_seconds <=? current_seconds)))
  && ((datetime.year last_reset <? datetime.year now)
      || ((datetime.year now =? datetime.year last_reset)
          && (last_reset_day_of_year <? target_day_of_year))).

(** The [if]/[elif] chain on the strategy that sets [should_reset]. *)
Definition should_reset (strategy : DataLimitResetStrategy.t) (reset_time : Z)
    (now last_reset : datetime.t) : bool :=
  match strategy with
  | DataLimitResetStrategy.day => should_reset_day reset_time now last_reset
  | DataLimitResetStrategy.week => should_reset_week reset_time now last_reset
  | DataLimitResetStrategy.month => should_reset_month reset_time now last_reset
  | DataLimitResetStrategy.year => should_reset_year reset_time now last_reset
  | DataLimitResetStrategy.no_reset => false
  end.

(** The filtering loop.  [clock k] is the [k]-th reading of
    [datetime.now(timezone.utc)]; the loop reads it once per node whose
    [reset_time] is not -1. *)
Fixpoint filter_nodes (clock : nat -> datetime.t) (k : nat) (d : Database)
    (rows : list (Z * Node.t)) : list Z :=
  match rows with
  | [] => []
  | (node_id, node) :: rest =>
      if Node.reset_time node =? -1
      then node_id :: filter_nodes clock k d rest
      else
        let now := clock k in
        let last_reset := last_reset_of d node_id node in
        if should_reset (Node.data_limit_reset_strategy node)
                        (Node.reset_time node) now last_reset
        then node_id :: filter_nodes clock (S k) d rest
        else filter_nodes clock (S k) d rest
  end.

(** [get_nodes_to_reset_usage]: [sql_now] is the store's [now()], [clock]
    the successive readings of the process clock.  The result lists the
    selected objects by primary key. *)
Definition get_nodes_to_reset_usage (sql_now : datetime.t)
    (clock : nat -> datetime.t) (db : AsyncSession) : list Z :=
  filter_nodes clock 0%nat (working db) (execute_stmt sql_now (working db)).

(** The year rule as the specification words it (not taken from the code):
    the month rule with day-of-year for day-of-month and no cap.  It is
    compared with [should_reset_year] below. *)
Definition year_rule_of_spec (reset_time : Z) (now last_reset : datetime.t) : bool :=
  let target_day := reset_time / 86400 in
  let target_seconds := reset_time mod 86400 in
  let current_day_of_year := datetime.tm_yday now in
  let current_seconds := datetime.seconds_of_day now in
  let last_day_of_year := datetime.tm_yday last_reset in
  let last_seconds := datetime.seconds_of_day last_reset in
  ((target_day <? current_day_of_year)
   || ((current_day_of_year =? target_day) && (target_seconds <=? current_seconds)))
  && ((datetime.year last_reset <? datetime.year now)
      || ((datetime.year now =? datetime.year last_reset)
          && ((last_day_of_year <? target_day)
              || ((last_day_of_year =? target_day)
                  && (last_seconds <? target_seconds))))).

(** What a reset may change on a node: every column but the two counters
    is kept, and so is the status unless it was [limited]. *)
Definition only_usage_and_status_changed (before after : Node.t) : Prop :=
  Node.name after = Node.name before
  /\ Node.address after = Node.address before
  /\ Node.port after = Node.port before
  /\ Node.message after = Node.message before
  /\ Node.xray_version after = Node.xray_version before
  /\ Node.node_version after = Node.node_version before
  /\ Node.data_limit after = Node.data_limit before
  /\ Node.data_limit_reset_strategy after = Node.data_limit_reset_strategy before
  /\ Node.reset_time after = Node.reset_time before
  /\ Node.created_at after = Node.created_at before
  /\ (Node.status before <> NodeStatus.limited ->
      Node.status after = Node.status before).

(** The node as [reset_node_usage] leaves it. *)
Definition reset_fields (n : Node.t) : Node.t :=
  let zeroed := Node.set_downlink 0 (Node.set_uplink 0 n) in
  if bool_decide (Node.status n = NodeStatus.limited)
  then Node.set_status NodeStatus.connecting zeroed
  else zeroed.

(** ** [subscription/links.py]: the list of links of [StandardLinks]

    The four protocol builders produce their text with [base64], [json]
    and [urllib] and with helpers of the base class, which is not among
    the sources; they are taken as given, and so are the inbound and
    settings types and the constant [EXTERNAL_CONFIG] of [config]. *)
Module StandardLinks.
Section WithBuilders.

Variables SubscriptionInboundData Settings : Type.
Variable protocol : SubscriptionInboundData -> string.
Variables _build_vmess _build_vless _build_trojan _build_shadowsocks :
  string -> string -> SubscriptionInboundData -> Settings -> string.
Variable EXTERNAL_CONFIG : string.

(** The line feed of ["\n".join(...)]. *)
Definition line_feed : string := String (Ascii.ascii_of_nat 10) EmptyString.

(** [self.protocol_handlers] *)
Definition protocol_handlers
    : gmap string (string -> string -> SubscriptionInboundData -> Settings -> string) :=
  list_to_map [("vmess"%string, _build_vmess); ("vless"%string, _build_vless);
               ("trojan"%string, _build_trojan);
               ("shadowsocks"%string, _build_shadowsocks)].

(** [add_link]: [self.links.append(link)] *)
Definition add_link (links : list string) (link : string) : list string :=
  links ++ [link].

(** [render]: the text returned, and [self.links] as the call leaves it. *)
Definition render (reverse : bool) (links : list string) : string * list string :=
  let links :=
    if bool_decide (EXTERNAL_CONFIG <> EmptyString)
    then links ++ [EXTERNAL_CONFIG] else links in
  let links := if reverse then rev links else links in
  (String.concat line_feed links, links).

(** [add]: [self.links] after the call. *)
Definition add (remark address : string) (inbound : SubscriptionInboundData)
    (settings : Settings) (links : list string) : list string :=
  match protocol_handlers !! protocol inbound with
  | None => links
  | Some handler =>
      let link := handler remark address inbound settings in
      if bool_decide (link <> EmptyString) then add_link links link else links
  end.

End WithBuilders.
End StandardLinks.

(** ** Concrete inputs used by the examples below *)

(** A UTC instant with whole seconds. *)
Definition utc (y m d h mi s : Z) : datetime.t := datetime.make y m d h mi s 0.

(** A node with counters 1000/2000 and the given policy. *)
Definition example_node (status : NodeStatus.t)
    (strategy : DataLimitResetStrategy.t) (reset_time : Z)
    (created_at : datetime.t) : Node.t :=
  Node.make "node" "node.example.com" 62050 status None (Some "1.8.0")
            (Some "0.1.0") 1000 2000 0 strategy reset_time created_at.

(** A session with nothing pending over the given rows and logs. *)
Definition example_session (rows : list (Z * Node.t))
    (logs : list NodeUsageResetLogs.t) : AsyncSession :=
  let d := {| nodes := list_to_map rows; node_usage_reset_logs := logs |} in
  {| committed := d; working := d |}.

(** Node 1 is limited, node 2 connected, node 3 disabled. *)
Definition example_fleet : AsyncSession :=
  example_session
    [(1, example_node NodeStatus.limited DataLimitResetStrategy.day 3600
           (utc 2024 1 1 0 0 0));
     (2, example_node NodeStatus.connected DataLimitResetStrategy.week 262800
           (utc 2024 1 1 0 0 0));
     (3, example_node NodeStatus.disabled DataLimitResetStrategy.day (-1)
           (utc 2024 1 1 0 0 0))]
    [].

(** One connected node, number 1, with the given policy and creation time
    and no reset log yet. *)
Definition example_single (strategy : DataLimitResetStrategy.t)
    (reset_time : Z) (created_at : datetime.t) : AsyncSession :=
  example_session
    [(1, example_node NodeStatus.connected strategy reset_time created_at)] [].

(** ** The rest of [crud/node.py]: status updates, removal, modification *)

(** [.values(status=..., message=..., xray_version=..., node_version=...)]
    of the two status updates.  The statements also set
    [last_status_change], a column that no function of the sources reads
    and that the row record leaves out. *)
Definition status_values (status : NodeStatus.t)
    (message xray_version node_version : string) (n : Node.t) : Node.t :=
  Node.make (Node.name n) (Node.address n) (Node.port n) status (Some message)
            (Some xray_version) (Some node_version) (Node.uplink n)
            (Node.downlink n) (Node.data_limit n)
            (Node.data_limit_reset_strategy n) (Node.reset_time n)
            (Node.created_at n).

(** [await db.execute(stmt)] for a statement that writes: it acts on the
    working copy of the open transaction. *)
Definition execute (stmt : Database -> Database) : io unit :=
  fun db => Return tt {| committed := committed db; working := stmt (working db) |}.

(** [update(Node).where(Node.id == node_id).values(...)] *)
Definition update_node_where_id (node_id : Z) (values : Node.t -> Node.t)
    (d : Database) : Database :=
  {| nodes := alter values node_id (nodes d);
     node_usage_reset_logs := node_usage_reset_logs d |}.

(** [delete(NodeUsageResetLogs).where(NodeUsageResetLogs.node_id == node_id)] *)
Definition delete_logs_where_node_id (node_id : Z) (d : Database) : Database :=
  {| nodes := nodes d;
     node_usage_reset_logs :=
       filter (fun log => NodeUsageResetLogs.node_id log <> node_id)
              (node_usage_reset_logs d) |}.

(** [delete(Node).where(Node.id == node_id)] *)
Definition delete_node_where_id (node_id : Z) (d : Database) : Database :=
  {| nodes := delete node_id (nodes d);
     node_usage_reset_logs := node_usage_reset_logs d |}.

(** [update_node_status] *)
Definition update_node_status (store_accepts : bool) (db_node : Z)
    (status : NodeStatus.t) (message xray_version node_version : string) : io Z :=
  execute (update_node_where_id db_node
             (status_values status message xray_version node_version)) ;;
  commit store_accepts ;;
  refresh db_node ;;
  load_node_attrs db_node ;;
  mret db_node.

(** One dictionary of the [updates] list of [bulk_update_node_status]. *)
Record StatusUpdate : Type := {
  su_node_id : Z;
  su_status : NodeStatus.t;
  su_message : string;
  su_xray_version : string;
  su_node_version : string
}.

(** [bulk_update_node_status]: nothing at all for an empty list, otherwise
    the statement once per dictionary, then one commit. *)
Definition bulk_update_node_status (store_accepts : bool)
    (updates : list StatusUpdate) : io unit :=
  match updates with
  | [] => mret tt
  | _ :: _ =>
      for_each updates
        (fun upd =>
           execute (update_node_where_id (su_node_id upd)
                      (status_values (su_status upd) (su_message upd)
                         (su_xray_version upd) (su_node_version upd)))) ;;
      commit store_accepts
  end.

(** [remove_node].  The deletes on [NodeUserUsage], [NodeUsage] and
    [NodeStat] act on tables that are not part of [Database]. *)
Definition remove_node (store_accepts : bool) (db_node : Z) : io unit :=
  let node_id := db_node in
  execute (delete_logs_where_node_id node_id) ;;
  execute (delete_node_where_id node_id) ;;
  commit store_accepts.

(** The outcomes of [.scalar_one_or_none()]: the row, [None], or the
    exception for more than one row. *)
Inductive scalar (A : Type) : Type :=
| One (a : A)
| NoResult
| MultipleResultsFound.
Arguments One {A} a.
Arguments NoResult {A}.
Arguments MultipleResultsFound {A}.

Definition scalar_one_or_none {A : Type} (rows : list A) : scalar A :=
  match rows with
  | [] => NoResult
  | [a] => One a
  | _ :: _ :: _ => MultipleResultsFound
  end.

(** [get_node]: [select(Node).where(Node.name == name)] *)
Definition get_node (name : string) (db : AsyncSession) : scalar Z :=
  scalar_one_or_none
    ((filter (fun row : Z * Node.t => Node.name row.2 = name)
             (map_to_list (nodes (working db)))).*1).

(** [get_node_by_id]: [select(Node).where(Node.id == node_id)] *)
Definition get_node_by_id (node_id : Z) (db : AsyncSession) : scalar Z :=
  scalar_one_or_none
    ((filter (fun row : Z * Node.t => row.1 = node_id)
             (map_to_list (nodes (working db)))).*1).

(** The fields of [NodeModify] that are columns of the row record; [None]
    is a field that [model_dump(exclude_none=True)] leaves out. *)
Record NodeModify : Type := {
  nm_name : option string;
  nm_address : option string;
  nm_port : option Z;
  nm_status : option NodeStatus.t;
  nm_data_limit : option Z;
  nm_data_limit_reset_strategy : option DataLimitResetStrategy.t;
  nm_reset_time : option Z
}.

Definition set_name (v : string) (n : Node.t) : Node.t :=
  Node.make v (Node.address n) (Node.port n) (Node.status n) (Node.message n)
            (Node.xray_version n) (Node.node_version n) (Node.uplink n)
            (Node.downlink n) (Node.data_limit n)
            (Node.data_limit_reset_strategy n) (Node.reset_time n)
            (Node.created_at n).

Definition set_address (v : string) (n : Node.t) : Node.t :=
  Node.make (Node.name n) v (Node.port n) (Node.status n) (Node.message n)
            (Node.xray_version n) (Node.node_version n) (Node.uplink n)
            (Node.downlink n) (Node.data_limit n)
            (Node.data_limit_reset_strategy n) (Node.reset_time n)
            (Node.created_at n).

Definition set_port (v : Z) (n : Node.t) : Node.t :=
  Node.make (Node.name n) (Node.address n) v (Node.status n) (Node.message n)
            (Node.xray_version n) (Node.node_version n) (Node.uplink n)
            (Node.downlink n) (Node.data_limit n)
            (Node.data_limit_reset_strategy n) (Node.reset_time n)
            (Node.created_at n).

Definition set_data_limit (v : Z) (n : Node.t) : Node.t :=
  Node.make (Node.name n) (Node.address n) (Node.port n) (Node.status n)
            (Node.message n) (Node.xray_version n) (Node.node_version n)
            (Node.uplink n) (Node.downlink n) v
            (Node.data_limit_reset_strategy n) (Node.reset_time n)
            (Node.created_at n).

Definition set_data_limit_reset_strategy (v : DataLimitResetStrategy.t)
    (n : Node.t) : Node.t :=
  Node.make (Node.name n) (Node.address n) (Node.port n) (Node.status n)
            (Node.message n) (Node.xray_version n) (Node.node_version n)
            (Node.uplink n) (Node.downlink n) (Node.data_limit n) v
            (Node.reset_time n) (Node.created_at n).

Definition set_reset_time (v : Z) (n : Node.t) : Node.t :=
  Node.make (Node.name n) (Node.address n) (Node.port n) (Node.status n)
            (Node.message n) (Node.xray_version n) (Node.node_version n)
            (Node.uplink n) (Node.downlink n) (Node.data_limit n)
            (Node.data_limit_reset_strategy n) v (Node.created_at n).

Definition set_message (v : option string) (n : Node.t) : Node.t :=
  Node.make (Node.name n) (Node.address n) (Node.port n) (Node.status n) v
            (Node.xray_version n) (Node.node_version n) (Node.uplink n)
            (Node.downlink n) (Node.data_limit n)
            (Node.data_limit_reset_strategy n) (Node.reset_time n)
            (Node.created_at n).

Definition set_xray_version (v : option string) (n : Node.t) : Node.t :=
  Node.make (Node.name n) (Node.address n) (Node.port n) (Node.status n)
            (Node.message n) v (Node.node_version n) (Node.uplink n)
            (Node.downlink n) (Node.data_limit n)
            (Node.data_limit_reset_strategy n) (Node.reset_time n)
            (Node.created_at n).

Definition set_node_version (v : option string) (n : Node.t) : Node.t :=
  Node.make (Node.name n) (Node.address n) (Node.port n) (Node.status n)
            (Node.message n) (Node.xray_version n) v (Node.uplink n)
            (Node.downlink n) (Node.data_limit n)
            (Node.data_limit_reset_strategy n) (Node.reset_time n)
            (Node.created_at n).

(** One turn of [for key, value in node_data.items(): setattr(...)]: a
    field that the dump leaves out assigns nothing. *)
Definition setattr_dumped {A : Type} (db_node : Z) (value : option A)
    (assign : A -> Node.t -> Node.t) : io unit :=
  match value with
  | Some v => setattr db_node (assign v)
  | None => mret tt
  end.

(** [modify_node].  [used_traffic] is the property of that name of the
    ORM class, which is not among the sources: it is taken as given. *)
Definition modify_node (used_traffic : Node.t -> Z) (store_accepts : bool)
    (db_node : Z) (modify : NodeModify) : io Z :=
  setattr_dumped db_node (nm_name modify) set_name ;;
  setattr_dumped db_node (nm_address modify) set_address ;;
  setattr_dumped db_node (nm_port modify) set_port ;;
  setattr_dumped db_node (nm_data_limit modify) set_data_limit ;;
  setattr_dumped db_node (nm_data_limit_reset_strategy modify)
                 set_data_limit_reset_strategy ;;
  setattr_dumped db_node (nm_reset_time modify) set_reset_time ;;
  setattr_dumped db_node (nm_status modify) Node.set_status ;;
  setattr db_node (set_xray_version None) ;;
  setattr db_node (set_message None) ;;
  setattr db_node (set_node_version None) ;;
  status ← getattr db_node Node.status;
  data_limit ← getattr db_node Node.data_limit;
  used ← getattr db_node used_traffic;
  (if bool_decide (status = NodeStatus.limited) && (used <? data_limit)
   then setattr db_node (Node.set_status NodeStatus.connecting)
   else if negb (bool_decide (status ∈ [NodeStatus.disabled; NodeStatus.limited]))
        then setattr db_node (Node.set_status NodeStatus.connecting)
        else mret tt) ;;
  commit store_accepts ;;
  refresh db_node ;;
  load_node_attrs db_node ;;
  mret db_node.

(** ** The rest of [models/node.py] *)

(** A field validator hands the value back or raises [ValueError]. *)
Inductive checked (A : Type) : Type :=
| Valid (v : A)
| Invalid (message : string).
Arguments Valid {A} v.
Arguments Invalid {A} message.

(** [NodeCreate.validate_port] *)
Definition validate_port (v : Z) : checked Z :=
  if v =? 0 then Valid v
  else if negb ((1 <=? v) && (v <=? 65535))
       then Invalid "Port must be between 1 and 65535"
       else Valid v.

(** What [validate_reset_time_for_strategy] does on a [NodeModify], where
    [reset_time] may be [None]: [None == -1] is false and [None >= n]
    raises [TypeError]. *)
Inductive modify_validation : Type :=
| ModifyAccepted
| ModifyValueError (max_value : Z) (strategy : DataLimitResetStrategy.t) (got : Z)
| ModifyTypeError.

(** [validate_reset_time_for_strategy], inherited by [NodeModify]. *)
Definition validate_reset_time_for_strategy_modify (self : NodeModify)
    : modify_validation :=
  match nm_data_limit_reset_strategy self with
  | None => ModifyAccepted
  | Some strategy =>
      if bool_decide (strategy = DataLimitResetStrategy.no_reset)
         || (match nm_reset_time self with
             | Some reset_time => reset_time =? -1
             | None => false
             end)
      then ModifyAccepted
      else
        match max_values strategy with
        | Some max_value =>
            if negb (max_value =? 0)
            then match nm_reset_time self with
                 | Some reset_time =>
                     if max_value <=? reset_time
                     then ModifyValueError max_value strategy reset_time
                     else ModifyAccepted
                 | None => ModifyTypeError
                 end
            else ModifyAccepted
        | None => ModifyAccepted
        end
  end.

(** The working copy after one turn of the first loop of
    [bulk_reset_node_usage], as a function of the working copy before. *)
Definition reset_in (now : datetime.t) (d : Database) (node_id : Z) : Database :=
  match nodes d !! node_id with
  | Some n =>
      {| nodes := <[node_id := reset_fields n]> (nodes d);
         node_usage_reset_logs :=
           node_usage_reset_logs d
           ++ [NodeUsageResetLogs.make node_id (Node.uplink n) (Node.downlink n) now] |}
  | None => d
  end.

(** The log row that a reset of [node_id] writes, from the counters that
    the working copy [d] holds for it. *)
Definition pre_reset_log (now : datetime.t) (d : Database) (node_id : Z)
    : option NodeUsageResetLogs.t :=
  (fun n => NodeUsageResetLogs.make node_id (Node.uplink n) (Node.downlink n) now)
  <$> nodes d !! node_id.

(** The row after [setattr_dumped]. *)
Definition dumped {A : Type} (value : option A) (assign : A -> Node.t -> Node.t)
    (n : Node.t) : Node.t :=
  match value with
  | Some v => assign v n
  | None => n
  end.

(** The row of [modify_node] after the [setattr] loop and the clearing of
    the message and the versions, before the status is looked at. *)
Definition assigned_fields (modify : NodeModify) (n : Node.t) : Node.t :=
  let n := dumped (nm_name modify) set_name n in
  let n := dumped (nm_address modify) set_address n in
  let n := dumped (nm_port modify) set_port n in
  let n := dumped (nm_data_limit modify) set_data_limit n in
  let n := dumped (nm_data_limit_reset_strategy modify)
                  set_data_limit_reset_strategy n in
  let n := dumped (nm_reset_time modify) set_reset_time n in
  let n := dumped (nm_status modify) Node.set_status n in
  set_node_version None (set_message None (set_xray_version None n)).

(** The row as the assignments of [modify_node] leave it. *)
Definition modify_fields (used_traffic : Node.t -> Z) (modify : NodeModify)
    (n : Node.t) : Node.t :=
  let n := assigned_fields modify n in
  if bool_decide (Node.status n = NodeStatus.limited)
     && (used_traffic n <? Node.data_limit n)
  then Node.set_status NodeStatus.connecting n
  else if negb (bool_decide (Node.status n ∈ [NodeStatus.disabled; NodeStatus.limited]))
       then Node.set_status NodeStatus.connecting n
       else n.

(** Columns that a status update does not touch: the counters, the data
    limit, the reset policy, name, address, port and creation time. *)
Definition only_status_report_changed (before after : Node.t) : Prop :=
  Node.name after = Node.name before
  /\ Node.address after = Node.address before
  /\ Node.port after = Node.port before
  /\ Node.uplink after = Node.uplink before
  /\ Node.downlink after = Node.downlink before
  /\ Node.data_limit after = Node.data_limit before
  /\ Node.data_limit_reset_strategy after = Node.data_limit_reset_strategy before
  /\ Node.reset_time after = Node.reset_time before
  /\ Node.created_at after = Node.created_at before.

(** The later of the updates of a list that address [node_id], if any. *)
Definition last_update_for (node_id : Z) (updates : list StatusUpdate)
    : option StatusUpdate :=
  last (filter (fun upd => su_node_id upd = node_id) updates).

(** ** The session operations, step by step *)

Ltac io_unfold :=
  unfold getattr, setattr, add, commit, refresh, load_node_attrs,
         mbind, io_bind, mret, io_ret.

Lemma io_bind_run {A B : Type} (m : io A) (k : A -> io B) (db : AsyncSession) :
  (m ≫= k) db =
  match m db with
  | Return a db' => k a db'
  | Raise e db' => Raise e db'
  end.
Proof. reflexivity. Qed.

Lemma bulk_reset_step_run (now : datetime.t) (db_node : Z) (db : AsyncSession)
    (n : Node.t) :
  nodes (working db) !! db_node = Some n ->
  bulk_reset_step now db_node db =
  Return tt
    {| committed := committed db;
       working :=
         {| nodes := <[db_node := reset_fields n]> (nodes (working db));
            node_usage_reset_logs :=
              node_usage_reset_logs (working db)
              ++ [NodeUsageResetLogs.make db_node (Node.uplink n) (Node.downlink n) now] |} |}.
Proof.
  intros Hn. unfold bulk_reset_step, reset_fields. io_unfold. simpl.
  repeat first [rewrite Hn | rewrite lookup_insert_eq | progress simpl].
  destruct (bool_decide (Node.status n = NodeStatus.limited)); simpl.
  - rewrite lookup_insert_eq. simpl. by rewrite !insert_insert_eq.
  - by rewrite !insert_insert_eq.
Qed.

Lemma bulk_reset_step_detached (now : datetime.t) (db_node : Z) (db : AsyncSession) :
  nodes (working db) !! db_node = None ->
  bulk_reset_step now db_node db = Raise InvalidRequestError db.
Proof.
  intros Hn. unfold bulk_reset_step. io_unfold. by rewrite Hn.
Qed.

Lemma reset_fields_frame (n : Node.t) :
  only_usage_and_status_changed n (reset_fields n).
Proof.
  unfold only_usage_and_status_changed, reset_fields.
  case_bool_decide as Hs; simpl; repeat split; try reflexivity.
  intros Hne. by destruct Hne.
Qed.

Lemma only_usage_and_status_changed_refl (n : Node.t) :
  only_usage_and_status_changed n n.
Proof. unfold only_usage_and_status_changed. repeat split; reflexivity. Qed.

Lemma only_usage_and_status_changed_trans (a b c : Node.t) :
  only_usage_and_status_changed a b ->
  only_usage_and_status_changed b c ->
  only_usage_and_status_changed a c.
Proof.
  unfold only_usage_and_status_changed.
  intros (?&?&?&?&?&?&?&?&?&?&Hab) (?&?&?&?&?&?&?&?&?&?&Hbc).
  repeat split; try congruence.
  intros Ha. rewrite <- (Hab Ha). apply Hbc. rewrite (Hab Ha). exact Ha.
Qed.

Lemma reset_node_usage_run (store_accepts : bool) (now : datetime.t)
    (db_node : Z) (db : AsyncSession) (n : Node.t) :
  nodes (working db) !! db_node = Some n ->
  reset_node_usage store_accepts now db_node db =
  let after :=
    {| nodes := <[db_node := reset_fields n]> (nodes (working db));
       node_usage_reset_logs :=
         node_usage_reset_logs (working db)
         ++ [NodeUsageResetLogs.make db_node (Node.uplink n) (Node.downlink n) now] |} in
  if store_accepts
  then Return db_node {| committed := after; working := after |}
  else Raise OperationalError {| committed := committed db; working := after |}.
Proof.
  intros Hn. unfold reset_node_usage, reset_fields. io_unfold. simpl.
  repeat first [rewrite Hn | rewrite lookup_insert_eq | progress simpl].
  destruct (bool_decide (Node.status n = NodeStatus.limited)); simpl;
    repeat first [rewrite lookup_insert_eq | rewrite insert_insert_eq | progress simpl];
    destruct store_accepts; simpl;
    repeat first [rewrite lookup_insert_eq | progress simpl]; reflexivity.
Qed.

Lemma bulk_reset_step_committed (now : datetime.t) (db_node : Z) (db : AsyncSession) :
  match bulk_reset_step now db_node db with
  | Return _ db' | Raise _ db' => committed db' = committed db
  end.
Proof.
  destruct (nodes (working db) !! db_node) as [n|] eqn:Hn.
  - by rewrite (bulk_reset_step_run now db_node db n Hn).
  - by rewrite (bulk_reset_step_detached now db_node db Hn).
Qed.

Lemma for_each_bulk_reset_step_committed (now : datetime.t) (l : list Z) :
  forall db : AsyncSession,
    match for_each l (bulk_reset_step now) db with
    | Return _ db' | Raise _ db' => committed db' = committed db
    end.
Proof.
  induction l as [|i l IH]; intros db; simpl.
  - reflexivity.
  - unfold mbind, io_bind.
    pose proof (bulk_reset_step_committed now i db) as Hstep.
    destruct (bulk_reset_step now i db) as [[] db1|e db1]; [|exact Hstep].
    specialize (IH db1).
    destruct (for_each l (bulk_reset_step now) db1); congruence.
Qed.

Lemma for_each_bulk_reset_step_run (now : datetime.t) (l : list Z) :
  forall db : AsyncSession,
    (forall i, i ∈ l -> is_Some (nodes (working db) !! i)) ->
    exists db',
      for_each l (bulk_reset_step now) db = Return tt db'
      /\ committed db' = committed db
      /\ forall j n, nodes (working db) !! j = Some n ->
           exists n', nodes (working db') !! j = Some n'
                      /\ only_usage_and_status_changed n n'
                      /\ (j ∉ l -> n' = n).
Proof.
  induction l as [|i l IH]; intros db Hattached; simpl.
  - exists db. split; [reflexivity|]. split; [reflexivity|].
    intros j n Hj. exists n. split; [exact Hj|].
    split; [apply only_usage_and_status_changed_refl|reflexivity].
  - destruct (Hattached i) as [n0 Hi]; [left|].
    unfold mbind, io_bind. rewrite (bulk_reset_step_run now i db n0 Hi).
    set (db1 := {| committed := committed db; working := _ |}).
    destruct (IH db1) as (db' & Hrun & Hcommitted & Hframe).
    { intros i' Hi'. subst db1; simpl.
      destruct (decide (i = i')) as [->|Hne].
      - rewrite lookup_insert_eq. by eexists.
      - rewrite lookup_insert_ne by done. apply Hattached. by right. }
    exists db'. split; [exact Hrun|]. split; [exact Hcommitted|].
    intros j n Hj.
    destruct (decide (i = j)) as [->|Hne].
    + assert (n = n0) as -> by congruence.
      destruct (Hframe j (reset_fields n0)) as (n' & Hn' & Hfr & _).
      { subst db1; simpl. by rewrite lookup_insert_eq. }
      exists n'. split; [exact Hn'|]. split.
      * eapply only_usage_and_status_changed_trans; [apply reset_fields_frame|exact Hfr].
      * intros Hnot. exfalso. apply Hnot. left.
    + destruct (Hframe j n) as (n' & Hn' & Hfr & Hsame).
      { subst db1; simpl. by rewrite lookup_insert_ne. }
      exists n'. split; [exact Hn'|]. split; [exact Hfr|].
      intros Hnot. apply Hsame. intros Hin. apply Hnot. by right.
Qed.

Lemma for_each_refresh_run (l : list Z) (db : AsyncSession) :
  (forall i, i ∈ l -> is_Some (nodes (working db) !! i)) ->
  for_each l (fun node => refresh node ;; load_node_attrs node) db = Return tt db.
Proof.
  induction l as [|i l IH]; intros Hattached; simpl; [reflexivity|].
  destruct (Hattached i) as [n Hi]; [left|].
  unfold mbind, io_bind at 1. unfold mbind, io_bind at 1. unfold refresh at 1.
  rewrite Hi. simpl. apply IH. intros i' Hi'. apply Hattached. by right.
Qed.

(** ** The Reset Executor: claims C1, C2 and C10 *)

(** C1. For a node of the session, [reset_node_usage] with a commit that
    goes through returns that node; the committed log table is the
    session's log table followed by exactly one new row, which carries the
    node's id and its uplink and downlink from before the call; the node,
    in the store and as returned, has uplink and downlink 0; its status is
    [connecting] if it was [limited] and is the old status otherwise. *)
Theorem reset_node_usage_logs_then_zeroes (now : datetime.t) (db_node : Z)
    (db : AsyncSession) (n : Node.t) :
  nodes (working db) !! db_node = Some n ->
  exists db' n',
    reset_node_usage true now db_node db = Return db_node db'
    /\ node_usage_reset_logs (committed db') =
       node_usage_reset_logs (working db)
       ++ [NodeUsageResetLogs.make db_node (Node.uplink n) (Node.downlink n) now]
    /\ (committed db = working db ->
        node_usage_reset_logs (committed db') =
        node_usage_reset_logs (committed db)
        ++ [NodeUsageResetLogs.make db_node (Node.uplink n) (Node.downlink n) now])
    /\ nodes (committed db') !! db_node = Some n'
    /\ nodes (working db') !! db_node = Some n'
    /\ Node.uplink n' = 0
    /\ Node.downlink n' = 0
    /\ (Node.status n = NodeStatus.limited -> Node.status n' = NodeStatus.connecting)
    /\ (Node.status n <> NodeStatus.limited -> Node.status n' = Node.status n).
Proof.
  intros Hn.
  rewrite (reset_node_usage_run true now db_node db n Hn). cbv zeta.
  eexists _, (reset_fields n). split; [reflexivity|]. simpl.
  split; [reflexivity|]. split; [by intros ->|].
  rewrite lookup_insert_eq. split; [reflexivity|]. split; [reflexivity|].
  unfold reset_fields. case_bool_decide as Hs; simpl; repeat split; try done.
Qed.

Lemma reset_node_usage_logs_then_zeroes_witness :
  exists db' n',
    reset_node_usage true (utc 2024 1 2 1 0 5) 1 example_fleet = Return 1 db'
    /\ node_usage_reset_logs (committed db') =
       [] ++ [NodeUsageResetLogs.make 1 1000 2000 (utc 2024 1 2 1 0 5)]
    /\ (committed example_fleet = working example_fleet ->
        node_usage_reset_logs (committed db') =
        [] ++ [NodeUsageResetLogs.make 1 1000 2000 (utc 2024 1 2 1 0 5)])
    /\ nodes (committed db') !! 1 = Some n'
    /\ nodes (working db') !! 1 = Some n'
    /\ Node.uplink n' = 0
    /\ Node.downlink n' = 0
    /\ (NodeStatus.limited = NodeStatus.limited ->
        Node.status n' = NodeStatus.connecting)
    /\ (NodeStatus.limited <> NodeStatus.limited ->
        Node.status n' = NodeStatus.limited).
Proof.
  apply (reset_node_usage_logs_then_zeroes (utc 2024 1 2 1 0 5) 1 example_fleet
           (example_node NodeStatus.limited DataLimitResetStrategy.day 3600
              (utc 2024 1 1 0 0 0))).
  reflexivity.
Defined.

(** C2. When the store refuses the single commit of
    [bulk_reset_node_usage], the call raises and the committed database is
    the one from before the call: no node row has its counters or its
    status changed and no log row is added, whatever the list of nodes. *)
Theorem bulk_reset_node_usage_all_or_nothing (now : datetime.t)
    (l : list Z) (db : AsyncSession) :
  exists e db',
    bulk_reset_node_usage false now l db = Raise e db'
    /\ committed db' = committed db
    /\ node_usage_reset_logs (committed db') = node_usage_reset_logs (committed db)
    /\ forall node_id,
         nodes (committed db') !! node_id = nodes (committed db) !! node_id.
Proof.
  unfold bulk_reset_node_usage, mbind, io_bind.
  pose proof (for_each_bulk_reset_step_committed now l db) as Hloop.
  destruct (for_each l (bulk_reset_step now) db) as [[] db1|e db1].
  - exists OperationalError, db1. unfold commit.
    split; [reflexivity|]. rewrite Hloop. by repeat split.
  - exists e, db1. split; [reflexivity|]. rewrite Hloop. by repeat split.
Qed.

(** C10. On the node it is given, [reset_node_usage] changes nothing but
    uplink, downlink and status, and leaves every other node as it was;
    [bulk_reset_node_usage] does the same for the nodes of its list.  In
    both, the name, address, port, data limit, reset strategy, reset time,
    creation time, message and version columns are kept, the row stays
    under its primary key, and the status is kept unless it was
    [limited]. *)
Theorem reset_changes_only_usage_and_status (now : datetime.t)
    (db : AsyncSession) (db_node : Z) (n : Node.t) (l : list Z) :
  nodes (working db) !! db_node = Some n ->
  (forall i, i ∈ l -> is_Some (nodes (working db) !! i)) ->
  (exists db' n',
     reset_node_usage true now db_node db = Return db_node db'
     /\ committed db' = working db'
     /\ nodes (working db') !! db_node = Some n'
     /\ only_usage_and_status_changed n n'
     /\ forall j, j <> db_node ->
          nodes (working db') !! j = nodes (working db) !! j)
  /\ (exists db',
       bulk_reset_node_usage true now l db = Return l db'
       /\ committed db' = working db'
       /\ forall j m, nodes (working db) !! j = Some m ->
            exists m', nodes (working db') !! j = Some m'
                       /\ only_usage_and_status_changed m m'
                       /\ (j ∉ l -> m' = m)).
Proof.
  intros Hn Hattached. split.
  - rewrite (reset_node_usage_run true now db_node db n Hn). cbv zeta.
    eexists _, (reset_fields n). split; [reflexivity|]. simpl.
    split; [reflexivity|]. rewrite lookup_insert_eq. split; [reflexivity|].
    split; [apply reset_fields_frame|].
    intros j Hj. by rewrite lookup_insert_ne.
  - destruct (for_each_bulk_reset_step_run now l db Hattached)
      as (db1 & Hrun & _ & Hframe).
    unfold bulk_reset_node_usage.
    rewrite io_bind_run, Hrun, io_bind_run. unfold commit at 1.
    set (db2 := {| committed := working db1; working := working db1 |}).
    rewrite io_bind_run, (for_each_refresh_run l db2).
    + exists db2. split; [reflexivity|]. split; [reflexivity|]. exact Hframe.
    + intros i Hi. destruct (Hattached i Hi) as [m Hm].
      destruct (Hframe i m Hm) as (m' & Hm' & _). by exists m'.
Qed.

Lemma reset_changes_only_usage_and_status_witness :
  (exists db' n',
     reset_node_usage true (utc 2024 1 2 1 0 5) 1 example_fleet = Return 1 db'
     /\ committed db' = working db'
     /\ nodes (working db') !! 1 = Some n'
     /\ only_usage_and_status_changed
          (example_node NodeStatus.limited DataLimitResetStrategy.day 3600
             (utc 2024 1 1 0 0 0)) n'
     /\ forall j, j <> 1 ->
          nodes (working db') !! j = nodes (working example_fleet) !! j)
  /\ (exists db',
       bulk_reset_node_usage true (utc 2024 1 2 1 0 5) [1; 2; 1] example_fleet
       = Return [1; 2; 1] db'
       /\ committed db' = working db'
       /\ forall j m, nodes (working example_fleet) !! j = Some m ->
            exists m', nodes (working db') !! j = Some m'
                       /\ only_usage_and_status_changed m m'
                       /\ (j ∉ [1; 2; 1] -> m' = m)).
Proof.
  apply (reset_changes_only_usage_and_status (utc 2024 1 2 1 0 5) example_fleet 1
           (example_node NodeStatus.limited DataLimitResetStrategy.day 3600
              (utc 2024 1 1 0 0 0)) [1; 2; 1]).
  - reflexivity.
  - intros i Hi.
    apply elem_of_cons in Hi as [->|Hi]; [by eexists|].
    apply elem_of_cons in Hi as [->|Hi]; [by eexists|].
    apply elem_of_cons in Hi as [->|Hi]; [by eexists|].
    by apply elem_of_nil in Hi.
Defined.

(** ** The Candidate Selector, row by row *)

Lemma elem_of_execute_stmt (sql_now : datetime.t) (d : Database)
    (node_id : Z) (n : Node.t) :
  (node_id, n) ∈ execute_stmt sql_now d <->
  nodes d !! node_id = Some n /\ stmt_where sql_now d node_id n = true.
Proof.
  unfold execute_stmt. rewrite list_elem_of_filter, elem_of_map_to_list. simpl.
  tauto.
Qed.

(** Whatever the clock reads, the loop only keeps nodes it was given. *)
Lemma elem_of_filter_nodes_row (clock : nat -> datetime.t) (d : Database)
    (rows : list (Z * Node.t)) (node_id : Z) :
  forall k, node_id ∈ filter_nodes clock k d rows ->
            exists n, (node_id, n) ∈ rows.
Proof.
  induction rows as [|[i m] rows IH]; intros k Hin; simpl in Hin.
  - by apply elem_of_nil in Hin.
  - assert (node_id = i \/ exists k', node_id ∈ filter_nodes clock k' d rows)
      as [->|[k' Hk']].
    { destruct (Node.reset_time m =? -1).
      - apply elem_of_cons in Hin as [->|Hin]; [by left|right; eauto].
      - destruct (should_reset _ _ _ _).
        + apply elem_of_cons in Hin as [->|Hin]; [by left|right; eauto].
        + right; eauto. }
    + exists m. left.
    + destruct (IH k' Hk') as [n Hn]. exists n. by right.
Qed.

(** An interval-mode row passes the loop without a clock reading. *)
Lemma elem_of_filter_nodes_interval (clock : nat -> datetime.t) (d : Database)
    (rows : list (Z * Node.t)) (node_id : Z) (n : Node.t) :
  Node.reset_time n = -1 ->
  (node_id, n) ∈ rows ->
  forall k, node_id ∈ filter_nodes clock k d rows.
Proof.
  intros Hrt. induction rows as [|[i m] rows IH]; intros Hin k.
  - by apply elem_of_nil in Hin.
  - simpl. apply elem_of_cons in Hin as [Heq|Hin].
    + inversion Heq; subst i m. rewrite Hrt. simpl. left.
    + destruct (Node.reset_time m =? -1); [right; by apply IH|].
      destruct (should_reset _ _ _ _); [right|]; by apply IH.
Qed.

(** With the clock standing still at [now], the loop is a filter. *)
Lemma elem_of_filter_nodes_const (now : datetime.t) (d : Database)
    (rows : list (Z * Node.t)) (node_id : Z) :
  forall k,
    node_id ∈ filter_nodes (fun _ => now) k d rows <->
    exists n, (node_id, n) ∈ rows
              /\ (Node.reset_time n = -1
                  \/ should_reset (Node.data_limit_reset_strategy n)
                       (Node.reset_time n) now (last_reset_of d node_id n) = true).
Proof.
  induction rows as [|[i m] rows IH]; intros k; simpl.
  - split; [intros Hin; by apply elem_of_nil in Hin|].
    intros (n & Hin & _). by apply elem_of_nil in Hin.
  - destruct (Node.reset_time m =? -1) eqn:Hrt.
    + apply Z.eqb_eq in Hrt. rewrite elem_of_cons, IH. split.
      * intros [->|(n & Hin & Hkeep)].
        -- exists m. split; [left|by left].
        -- exists n. split; [by right|exact Hkeep].
      * intros (n & Hin & Hkeep). apply elem_of_cons in Hin as [Heq|Hin].
        -- inversion Heq. by left.
        -- right. by exists n.
    + apply Z.eqb_neq in Hrt.
      destruct (should_reset _ _ now (last_reset_of d i m)) eqn:Hdue.
      * rewrite elem_of_cons, IH. split.
        -- intros [->|(n & Hin & Hkeep)].
           ++ exists m. split; [left|by right].
           ++ exists n. split; [by right|exact Hkeep].
        -- intros (n & Hin & Hkeep). apply elem_of_cons in Hin as [Heq|Hin].
           ++ inversion Heq. by left.
           ++ right. by exists n.
      * rewrite IH. split.
        -- intros (n & Hin & Hkeep). exists n. split; [by right|exact Hkeep].
        -- intros (n & Hin & Hkeep). apply elem_of_cons in Hin as [Heq|Hin].
           ++ inversion Heq; subst i m. destruct Hkeep; congruence.
           ++ by exists n.
Qed.

(** Selection of a node in absolute mode, the clock standing at [now]. *)
Lemma selected_absolute (sql_now now : datetime.t) (db : AsyncSession)
    (node_id : Z) (n : Node.t) :
  nodes (working db) !! node_id = Some n ->
  Node.status n ∈ [NodeStatus.connected; NodeStatus.limited;
                   NodeStatus.error; NodeStatus.connecting] ->
  Node.data_limit_reset_strategy n <> DataLimitResetStrategy.no_reset ->
  Node.reset_time n <> -1 ->
  node_id ∈ get_nodes_to_reset_usage sql_now (fun _ => now) db <->
  should_reset (Node.data_limit_reset_strategy n) (Node.reset_time n) now
    (last_reset_of (working db) node_id n) = true.
Proof.
  intros Hn Hstatus Hstrategy Hrt. unfold get_nodes_to_reset_usage.
  rewrite elem_of_filter_nodes_const.
  assert (stmt_where sql_now (working db) node_id n = true) as Hwhere.
  { unfold stmt_where, interval_case.
    rewrite (bool_decide_eq_true_2 _ Hstatus), (bool_decide_eq_true_2 _ Hstrategy).
    apply Z.eqb_neq in Hrt. by rewrite Hrt. }
  split.
  - intros (n' & Hin & Hkeep). apply elem_of_execute_stmt in Hin as [Hn' _].
    assert (n' = n) as -> by congruence. destruct Hkeep; [done|assumption].
  - intros Hdue. exists n. split; [by apply elem_of_execute_stmt|by right].
Qed.

(** Selection of a node in interval mode, whatever the clock reads. *)
Lemma selected_interval (sql_now : datetime.t) (clock : nat -> datetime.t)
    (db : AsyncSession) (node_id : Z) (n : Node.t) :
  nodes (working db) !! node_id = Some n ->
  Node.reset_time n = -1 ->
  node_id ∈ get_nodes_to_reset_usage sql_now clock db <->
  stmt_where sql_now (working db) node_id n = true.
Proof.
  intros Hn Hrt. unfold get_nodes_to_reset_usage. split.
  - intros Hin. apply elem_of_filter_nodes_row in Hin as [n' Hin].
    apply elem_of_execute_stmt in Hin as [Hn' Hwhere].
    by assert (n' = n) as -> by congruence.
  - intros Hwhere. apply (elem_of_filter_nodes_interval _ _ _ _ n Hrt).
    by apply elem_of_execute_stmt.
Qed.

(** The two last-reset computations, in SQL and in Python, agree. *)
Lemma last_reset_time_of (d : Database) (node_id : Z) (n : Node.t) :
  last_reset_time d node_id n = last_reset_of d node_id n.
Proof.
  unfold last_reset_time, last_reset_subq, last_reset_of.
  by destruct (NodeUsageResetLogs.created_at <$> usage_logs d node_id).
Qed.

Lemma seconds_of_day_bounds (d : datetime.t) :
  datetime.valid d -> 0 <= datetime.seconds_of_day d < 86400.
Proof.
  unfold datetime.valid, datetime.seconds_of_day. lia.
Qed.

(** ** The calendar: dates compare as their ordinals *)

Lemma days_before_year_succ (y : Z) :
  date._days_before_year (y + 1)
  = date._days_before_year y + 365 + (if date._is_leap y then 1 else 0).
Proof.
  unfold date._days_before_year, date._is_leap. cbv zeta.
  replace (y + 1 - 1) with y by lia.
  destruct (Z.eqb_spec (y mod 4) 0), (Z.eqb_spec (y mod 100) 0),
    (Z.eqb_spec (y mod 400) 0); cbn [negb andb orb];
    Z.to_euclidean_division_equations; lia.
Qed.

Lemma days_before_year_mono (y y' : Z) :
  y <= y' -> date._days_before_year y <= date._days_before_year y'.
Proof.
  unfold date._days_before_year. cbv zeta. intros Hle.
  Z.to_euclidean_division_equations; lia.
Qed.

Lemma month_cases (m : Z) :
  1 <= m <= 12 ->
  m = 1 \/ m = 2 \/ m = 3 \/ m = 4 \/ m = 5 \/ m = 6
  \/ m = 7 \/ m = 8 \/ m = 9 \/ m = 10 \/ m = 11 \/ m = 12.
Proof. lia. Qed.

Ltac each_month H :=
  destruct (month_cases _ H) as [?|[?|[?|[?|[?|[?|[?|[?|[?|[?|[?|?]]]]]]]]]]].

Lemma tm_yday_bounds (d : date.t) :
  date.valid d ->
  1 <= date.tm_yday d <= 365 + (if date._is_leap (date.year d) then 1 else 0).
Proof.
  unfold date.valid, date.tm_yday, date._days_before_month, date._days_in_month.
  intros (_ & Hm & Hd).
  destruct (date._is_leap (date.year d)); each_month Hm;
    match goal with E : date.month d = _ |- _ => rewrite E in * end;
    simpl in *; lia.
Qed.

Lemma tm_yday_lexicographic (y m1 d1 m2 d2 : Z) :
  date.valid (date.make y m1 d1) -> date.valid (date.make y m2 d2) ->
  date._days_before_month y m1 + d1 < date._days_before_month y m2 + d2
  <-> m1 < m2 \/ (m1 = m2 /\ d1 < d2).
Proof.
  unfold date.valid, date._days_before_month, date._days_in_month. simpl.
  intros (_ & Hm1 & Hd1) (_ & Hm2 & Hd2).
  destruct (date._is_leap y); each_month Hm1; each_month Hm2;
    subst m1 m2; simpl in *; lia.
Qed.

(** [a > b] on valid dates is the order of [toordinal()]. *)
Lemma date_gt_iff_toordinal (a b : date.t) :
  date.valid a -> date.valid b ->
  date.gt a b = true <-> date.toordinal b < date.toordinal a.
Proof.
  intros Ha Hb. unfold date.gt, date.toordinal.
  rewrite !orb_true_iff, !andb_true_iff, !Z.ltb_lt, !Z.eqb_eq.
  pose proof (tm_yday_bounds a Ha) as Hya.
  pose proof (tm_yday_bounds b Hb) as Hyb.
  unfold date.tm_yday in *.
  destruct (Z.lt_trichotomy (date.year a) (date.year b)) as [Hlt|[Heq|Hgt]].
  - pose proof (days_before_year_succ (date.year a)).
    pose proof (days_before_year_mono (date.year a + 1) (date.year b)).
    lia.
  - destruct a as [ya ma da], b as [yb mb db]. simpl in *. subst yb.
    pose proof (tm_yday_lexicographic ya mb db ma da Hb Ha). lia.
  - pose proof (days_before_year_succ (date.year b)).
    pose proof (days_before_year_mono (date.year b + 1) (date.year a)).
    lia.
Qed.

(** ** The Reset Policy Evaluator: claims C3 to C7 *)

Ltac bool_to_prop :=
  repeat first [ rewrite andb_true_iff | rewrite orb_true_iff
               | rewrite Z.leb_le | rewrite Z.ltb_lt | rewrite Z.eqb_eq ].

(** Between an instant and itself no whole day has elapsed. *)
Lemma DateDiff_same (a : datetime.t) : DateDiff a a = 0.
Proof.
  unfold DateDiff, datetime.elapsed_microseconds, date.sub_days.
  by rewrite !Z.sub_diag.
Qed.

(** C3. An interval-mode node (reset_time = -1) with a selectable status
    and a strategy other than no_reset is due exactly when the time
    elapsed since its last reset has reached the strategy's interval of
    1 (day), 7 (week), 30 (month) or 365 (year) days.  At the boundary:
    with strategy day a last reset 23 hours before now is not due and one
    25 hours before now is due; with strategy week an elapsed time of
    6 days 23:59:59 is not due and one of exactly 7 days is due. *)
Theorem interval_due_iff_elapsed_days (sql_now : datetime.t)
    (clock : nat -> datetime.t) (db : AsyncSession) (node_id : Z) (n : Node.t) :
  nodes (working db) !! node_id = Some n ->
  Node.status n ∈ [NodeStatus.connected; NodeStatus.limited;
                   NodeStatus.error; NodeStatus.connecting] ->
  Node.data_limit_reset_strategy n <> DataLimitResetStrategy.no_reset ->
  Node.reset_time n = -1 ->
  let last_reset := last_reset_of (working db) node_id n in
  let elapsed := datetime.elapsed_microseconds sql_now last_reset in
  let interval_days :=
    match Node.data_limit_reset_strategy n with
    | DataLimitResetStrategy.day => 1
    | DataLimitResetStrategy.week => 7
    | DataLimitResetStrategy.month => 30
    | DataLimitResetStrategy.year => 365
    | DataLimitResetStrategy.no_reset => 0
    end in
  (node_id ∈ get_nodes_to_reset_usage sql_now clock db <->
   interval_days * 86400 * 1000000 <= elapsed)
  /\ (Node.data_limit_reset_strategy n = DataLimitResetStrategy.day ->
      elapsed = 23 * 3600 * 1000000 ->
      node_id ∉ get_nodes_to_reset_usage sql_now clock db)
  /\ (Node.data_limit_reset_strategy n = DataLimitResetStrategy.day ->
      elapsed = 25 * 3600 * 1000000 ->
      node_id ∈ get_nodes_to_reset_usage sql_now clock db)
  /\ (Node.data_limit_reset_strategy n = DataLimitResetStrategy.week ->
      elapsed = (6 * 86400 + 23 * 3600 + 59 * 60 + 59) * 1000000 ->
      node_id ∉ get_nodes_to_reset_usage sql_now clock db)
  /\ (Node.data_limit_reset_strategy n = DataLimitResetStrategy.week ->
      elapsed = 7 * 86400 * 1000000 ->
      node_id ∈ get_nodes_to_reset_usage sql_now clock db).
Proof.
  intros Hn Hstatus Hstrategy Hrt last_reset elapsed interval_days.
  assert (node_id ∈ get_nodes_to_reset_usage sql_now clock db <->
          interval_days * 86400 * 1000000 <= elapsed) as Hiff.
  { rewrite (selected_interval sql_now clock db node_id n Hn Hrt).
    unfold stmt_where, interval_case.
    rewrite (bool_decide_eq_true_2 _ Hstatus), (bool_decide_eq_true_2 _ Hstrategy).
    rewrite Hrt, last_reset_time_of. fold last_reset. simpl.
    subst interval_days. unfold DateDiff. fold elapsed.
    destruct (Node.data_limit_reset_strategy n); simpl;
      [by destruct Hstrategy|..];
      rewrite Z.leb_le; split; intros Hle;
      Z.to_euclidean_division_equations; lia. }
  split; [exact Hiff|].
  subst interval_days.
  repeat split; intros Hs He; rewrite Hiff, Hs, He; lia.
Qed.

Lemma interval_due_iff_elapsed_days_witness :
  (1 ∈ get_nodes_to_reset_usage (utc 2024 1 2 22 0 0)
         (fun _ => utc 2024 1 2 22 0 5)
         (example_single DataLimitResetStrategy.day (-1) (utc 2024 1 1 23 0 0)) <->
   1 * 86400 * 1000000
   <= datetime.elapsed_microseconds (utc 2024 1 2 22 0 0) (utc 2024 1 1 23 0 0))
  /\ (DataLimitResetStrategy.day = DataLimitResetStrategy.day ->
      datetime.elapsed_microseconds (utc 2024 1 2 22 0 0) (utc 2024 1 1 23 0 0)
      = 23 * 3600 * 1000000 ->
      1 ∉ get_nodes_to_reset_usage (utc 2024 1 2 22 0 0)
            (fun _ => utc 2024 1 2 22 0 5)
            (example_single DataLimitResetStrategy.day (-1) (utc 2024 1 1 23 0 0)))
  /\ (DataLimitResetStrategy.day = DataLimitResetStrategy.day ->
      datetime.elapsed_microseconds (utc 2024 1 2 22 0 0) (utc 2024 1 1 23 0 0)
      = 25 * 3600 * 1000000 ->
      1 ∈ get_nodes_to_reset_usage (utc 2024 1 2 22 0 0)
            (fun _ => utc 2024 1 2 22 0 5)
            (example_single DataLimitResetStrategy.day (-1) (utc 2024 1 1 23 0 0)))
  /\ (DataLimitResetStrategy.day = DataLimitResetStrategy.week ->
      datetime.elapsed_microseconds (utc 2024 1 2 22 0 0) (utc 2024 1 1 23 0 0)
      = (6 * 86400 + 23 * 3600 + 59 * 60 + 59) * 1000000 ->
      1 ∉ get_nodes_to_reset_usage (utc 2024 1 2 22 0 0)
            (fun _ => utc 2024 1 2 22 0 5)
            (example_single DataLimitResetStrategy.day (-1) (utc 2024 1 1 23 0 0)))
  /\ (DataLimitResetStrategy.day = DataLimitResetStrategy.week ->
      datetime.elapsed_microseconds (utc 2024 1 2 22 0 0) (utc 2024 1 1 23 0 0)
      = 7 * 86400 * 1000000 ->
      1 ∈ get_nodes_to_reset_usage (utc 2024 1 2 22 0 0)
            (fun _ => utc 2024 1 2 22 0 5)
            (example_single DataLimitResetStrategy.day (-1) (utc 2024 1 1 23 0 0))).
Proof.
  apply (interval_due_iff_elapsed_days (utc 2024 1 2 22 0 0)
           (fun _ => utc 2024 1 2 22 0 5)
           (example_single DataLimitResetStrategy.day (-1) (utc 2024 1 1 23 0 0))
           1
           (example_node NodeStatus.connected DataLimitResetStrategy.day (-1)
              (utc 2024 1 1 23 0 0))).
  - reflexivity.
  - simpl. left.
  - discriminate.
  - reflexivity.
Defined.

(** C4. The code departs from the claim's rule.  A year-strategy node whose
    target is day 10 at 01:00:00, created on day 10 at 00:30:00 of 2024
    and never reset, is due at 02:00:00 of that day by the rule of the
    claim (same year, last reset on the target day before the target
    time), but the code does not select it, neither then nor on the next
    day. *)
Theorem year_reset_missed_on_target_day :
  nodes (working (example_single DataLimitResetStrategy.year 867600
                    (utc 2024 1 10 0 30 0))) !! 1
  = Some (example_node NodeStatus.connected DataLimitResetStrategy.year 867600
            (utc 2024 1 10 0 30 0))
  /\ last_reset_of
       (working (example_single DataLimitResetStrategy.year 867600
                   (utc 2024 1 10 0 30 0))) 1
       (example_node NodeStatus.connected DataLimitResetStrategy.year 867600
          (utc 2024 1 10 0 30 0))
     = utc 2024 1 10 0 30 0
  /\ year_rule_of_spec 867600 (utc 2024 1 10 2 0 0) (utc 2024 1 10 0 30 0) = true
  /\ should_reset DataLimitResetStrategy.year 867600
       (utc 2024 1 10 2 0 0) (utc 2024 1 10 0 30 0) = false
  /\ get_nodes_to_reset_usage (utc 2024 1 10 2 0 0) (fun _ => utc 2024 1 10 2 0 0)
       (example_single DataLimitResetStrategy.year 867600 (utc 2024 1 10 0 30 0))
     = []
  /\ year_rule_of_spec 867600 (utc 2024 1 11 2 0 0) (utc 2024 1 10 0 30 0) = true
  /\ get_nodes_to_reset_usage (utc 2024 1 11 2 0 0) (fun _ => utc 2024 1 11 2 0 0)
       (example_single DataLimitResetStrategy.year 867600 (utc 2024 1 10 0 30 0))
     = [].
Proof. vm_compute. repeat split; reflexivity. Qed.

(** Where the code's year rule fires, the rule of the claim fires too; the
    two differ only on a last reset made on the target day of the same
    year before the target time. *)
Lemma should_reset_year_vs_spec (reset_time : Z) (now last_reset : datetime.t) :
  year_rule_of_spec reset_time now last_reset
  = should_reset_year reset_time now last_reset
    || (((reset_time / 86400 <? datetime.tm_yday now)
         || ((datetime.tm_yday now =? reset_time / 86400)
             && (reset_time mod 86400 <=? datetime.seconds_of_day now)))
        && (datetime.year now =? datetime.year last_reset)
        && (datetime.tm_yday last_reset =? reset_time / 86400)
        && (datetime.seconds_of_day last_reset <? reset_time mod 86400)).
Proof.
  unfold year_rule_of_spec, should_reset_year, datetime.seconds_of_day.
  cbv zeta.
  destruct ((reset_time / 86400 <? datetime.tm_yday now)
            || ((datetime.tm_yday now =? reset_time / 86400)
                && (reset_time mod 86400
                    <=? datetime.hour now * 3600 + datetime.minute now * 60
                        + datetime.second now))); simpl; [|reflexivity].
  destruct (datetime.year last_reset <? datetime.year now) eqn:Hy; simpl.
  - reflexivity.
  - destruct (datetime.year now =? datetime.year last_reset); simpl; [|reflexivity].
    destruct (datetime.tm_yday last_reset <? reset_time / 86400) eqn:Hlt; simpl;
      [reflexivity|].
    reflexivity.
Qed.

(** C5. For a month-strategy node in absolute mode, evaluated at the
    instant now, the due-ness decision uses the target day
    min(reset_time // 86400, 28), which is at most 28:
    the node is due exactly when the month rule holds for that capped
    target day, and an encoding of day 28 or later (29, 30, 31, ...)
    decides exactly as the encoding of day 28 with the same seconds. *)
Theorem month_target_day_capped (sql_now now : datetime.t) (db : AsyncSession)
    (node_id : Z) (n : Node.t) :
  nodes (working db) !! node_id = Some n ->
  Node.status n ∈ [NodeStatus.connected; NodeStatus.limited;
                   NodeStatus.error; NodeStatus.connecting] ->
  Node.data_limit_reset_strategy n = DataLimitResetStrategy.month ->
  0 <= Node.reset_time n ->
  let last := last_reset_of (working db) node_id n in
  let target_day := Z.min (Node.reset_time n / 86400) 28 in
  let target_seconds := Node.reset_time n mod 86400 in
  target_day <= 28
  /\ (node_id ∈ get_nodes_to_reset_usage sql_now (fun _ => now) db <->
      (target_day < datetime.day now
       \/ (datetime.day now = target_day
           /\ target_seconds <= datetime.seconds_of_day now))
      /\ (datetime.year last < datetime.year now
          \/ datetime.month last < datetime.month now
          \/ (datetime.month now = datetime.month last
              /\ (datetime.day last < target_day
                  \/ (datetime.day last = target_day
                      /\ datetime.seconds_of_day last < target_seconds)))))
  /\ (28 <= Node.reset_time n / 86400 ->
      forall now' last' : datetime.t,
        should_reset DataLimitResetStrategy.month (Node.reset_time n) now' last'
        = should_reset DataLimitResetStrategy.month
            (28 * 86400 + Node.reset_time n mod 86400) now' last').
Proof.
  intros Hn Hstatus Hstrategy Hrt last target_day target_seconds.
  split; [subst target_day; lia|]. split.
  - rewrite (selected_absolute sql_now now db node_id n Hn Hstatus);
      [|by rewrite Hstrategy|lia].
    rewrite Hstrategy. unfold should_reset, should_reset_month.
    fold last target_day target_seconds. unfold datetime.seconds_of_day.
    bool_to_prop. tauto.
  - intros Hday now' last'. unfold should_reset, should_reset_month.
    assert (0 <= Node.reset_time n mod 86400 < 86400) as Hmod
      by (apply Z.mod_pos_bound; lia).
    replace ((28 * 86400 + Node.reset_time n mod 86400) / 86400) with 28
      by (apply Z.div_unique with (r := Node.reset_time n mod 86400); lia).
    replace ((28 * 86400 + Node.reset_time n mod 86400) mod 86400)
      with (Node.reset_time n mod 86400)
      by (apply Z.mod_unique with (q := 28); lia).
    replace (Z.min (Node.reset_time n / 86400) 28) with 28 by lia.
    reflexivity.
Qed.

Lemma month_target_day_capped_witness :
  Z.min (2595600 / 86400) 28 <= 28
  /\ (1 ∈ get_nodes_to_reset_usage (utc 2024 2 28 1 0 0)
            (fun _ => utc 2024 2 28 1 0 0)
            (example_single DataLimitResetStrategy.month 2595600
               (utc 2024 1 15 0 0 0)) <->
      (Z.min (2595600 / 86400) 28 < 28
       \/ (28 = Z.min (2595600 / 86400) 28
           /\ 2595600 mod 86400 <= datetime.seconds_of_day (utc 2024 2 28 1 0 0)))
      /\ (2024 < 2024
          \/ 1 < 2
          \/ (2 = 1
              /\ (15 < Z.min (2595600 / 86400) 28
                  \/ (15 = Z.min (2595600 / 86400) 28
                      /\ datetime.seconds_of_day (utc 2024 1 15 0 0 0)
                         < 2595600 mod 86400)))))
  /\ (28 <= 2595600 / 86400 ->
      forall now' last' : datetime.t,
        should_reset DataLimitResetStrategy.month 2595600 now' last'
        = should_reset DataLimitResetStrategy.month
            (28 * 86400 + 2595600 mod 86400) now' last').
Proof.
  apply (month_target_day_capped (utc 2024 2 28 1 0 0) (utc 2024 2 28 1 0 0)
           (example_single DataLimitResetStrategy.month 2595600 (utc 2024 1 15 0 0 0))
           1
           (example_node NodeStatus.connected DataLimitResetStrategy.month 2595600
              (utc 2024 1 15 0 0 0))).
  - reflexivity.
  - simpl. left.
  - reflexivity.
  - simpl. lia.
Defined.

(** C6. A day-strategy node in absolute mode (0 <= reset_time < 86400) with
    a selectable status, evaluated at the instant now, is due exactly when
    the seconds of day of now have reached reset_time and either the date
    of now is later than the date of the last reset or the last reset's
    seconds of day lie before reset_time.  With reset_time = 0 it is due
    exactly when the date of now is later than the date of the last reset,
    that is, as soon as a midnight lies between the two. *)
Theorem day_due_iff (sql_now now : datetime.t) (db : AsyncSession)
    (node_id : Z) (n : Node.t) :
  nodes (working db) !! node_id = Some n ->
  Node.status n ∈ [NodeStatus.connected; NodeStatus.limited;
                   NodeStatus.error; NodeStatus.connecting] ->
  Node.data_limit_reset_strategy n = DataLimitResetStrategy.day ->
  0 <= Node.reset_time n < 86400 ->
  datetime.valid now ->
  datetime.valid (last_reset_of (working db) node_id n) ->
  let last_reset := last_reset_of (working db) node_id n in
  (node_id ∈ get_nodes_to_reset_usage sql_now (fun _ => now) db <->
   Node.reset_time n <= datetime.seconds_of_day now
   /\ (date.gt (datetime.date now) (datetime.date last_reset) = true
       \/ datetime.seconds_of_day last_reset < Node.reset_time n))
  /\ (Node.reset_time n = 0 ->
      (node_id ∈ get_nodes_to_reset_usage sql_now (fun _ => now) db <->
       date.gt (datetime.date now) (datetime.date last_reset) = true)
      /\ (node_id ∈ get_nodes_to_reset_usage sql_now (fun _ => now) db <->
          0 < date.sub_days (datetime.date now) (datetime.date last_reset))).
Proof.
  intros Hn Hstatus Hstrategy Hrt Hnow Hlast last_reset.
  assert (node_id ∈ get_nodes_to_reset_usage sql_now (fun _ => now) db <->
          Node.reset_time n <= datetime.seconds_of_day now
          /\ (date.gt (datetime.date now) (datetime.date last_reset) = true
              \/ datetime.seconds_of_day last_reset < Node.reset_time n)) as Hiff.
  { rewrite (selected_absolute sql_now now db node_id n Hn Hstatus);
      [|by rewrite Hstrategy|lia].
    rewrite Hstrategy. unfold should_reset, should_reset_day.
    fold last_reset. unfold datetime.seconds_of_day. bool_to_prop. tauto. }
  split; [exact Hiff|].
  intros Hzero. rewrite Hiff, Hzero.
  pose proof (seconds_of_day_bounds _ Hnow) as Hsec.
  pose proof (seconds_of_day_bounds _ Hlast) as Hsec'. fold last_reset in Hsec'.
  assert (0 <= datetime.seconds_of_day now
          /\ (date.gt (datetime.date now) (datetime.date last_reset) = true
              \/ datetime.seconds_of_day last_reset < 0)
          <-> date.gt (datetime.date now) (datetime.date last_reset) = true)
    as Hmidnight.
  { split; [intros [_ [Hgt|Hlt]]; [exact Hgt|lia]|].
    intros Hgt. split; [lia|by left]. }
  split; [exact Hmidnight|].
  rewrite Hmidnight.
  pose proof (date_gt_iff_toordinal _ _ (proj1 Hnow) (proj1 Hlast)) as Hord.
  fold last_reset in Hord. rewrite Hord. unfold date.sub_days. lia.
Qed.

Lemma day_due_iff_witness :
  (1 ∈ get_nodes_to_reset_usage (utc 2024 1 2 1 0 5)
         (fun _ => utc 2024 1 2 1 0 5) example_fleet <->
   3600 <= datetime.seconds_of_day (utc 2024 1 2 1 0 5)
   /\ (date.gt (datetime.date (utc 2024 1 2 1 0 5))
               (datetime.date (utc 2024 1 1 0 0 0)) = true
       \/ datetime.seconds_of_day (utc 2024 1 1 0 0 0) < 3600))
  /\ (3600 = 0 ->
      (1 ∈ get_nodes_to_reset_usage (utc 2024 1 2 1 0 5)
             (fun _ => utc 2024 1 2 1 0 5) example_fleet <->
       date.gt (datetime.date (utc 2024 1 2 1 0 5))
               (datetime.date (utc 2024 1 1 0 0 0)) = true)
      /\ (1 ∈ get_nodes_to_reset_usage (utc 2024 1 2 1 0 5)
                (fun _ => utc 2024 1 2 1 0 5) example_fleet <->
          0 < date.sub_days (datetime.date (utc 2024 1 2 1 0 5))
                (datetime.date (utc 2024 1 1 0 0 0)))).
Proof.
  apply (day_due_iff (utc 2024 1 2 1 0 5) (utc 2024 1 2 1 0 5) example_fleet 1
           (example_node NodeStatus.limited DataLimitResetStrategy.day 3600
              (utc 2024 1 1 0 0 0))).
  - reflexivity.
  - simpl. right. left.
  - reflexivity.
  - simpl. lia.
  - repeat split; vm_compute; first [reflexivity | discriminate].
  - repeat split; vm_compute; first [reflexivity | discriminate].
Defined.


(** C7. A week-strategy node in absolute mode (0 <= reset_time < 604800)
    with a selectable status, evaluated at the instant now, is due exactly
    when the calendar-day difference days_diff is at least 7, the
    current week seconds have reached reset_time, and either the last
    reset's week seconds lie before reset_time or days_diff > 7; so it is
    never due while fewer than 7 calendar days have passed since the last
    reset. *)
Theorem week_due_iff (sql_now now : datetime.t) (db : AsyncSession)
    (node_id : Z) (n : Node.t) :
  nodes (working db) !! node_id = Some n ->
  Node.status n ∈ [NodeStatus.connected; NodeStatus.limited;
                   NodeStatus.error; NodeStatus.connecting] ->
  Node.data_limit_reset_strategy n = DataLimitResetStrategy.week ->
  0 <= Node.reset_time n < 604800 ->
  let last_reset := last_reset_of (working db) node_id n in
  let current_week_seconds :=
    datetime.weekday now * 86400 + datetime.seconds_of_day now in
  let last_week_seconds :=
    datetime.weekday last_reset * 86400 + datetime.seconds_of_day last_reset in
  let days_diff := date.sub_days (datetime.date now) (datetime.date last_reset) in
  (node_id ∈ get_nodes_to_reset_usage sql_now (fun _ => now) db <->
   7 <= days_diff
   /\ Node.reset_time n <= current_week_seconds
   /\ (last_week_seconds < Node.reset_time n \/ 7 < days_diff))
  /\ (days_diff < 7 ->
      node_id ∉ get_nodes_to_reset_usage sql_now (fun _ => now) db).
Proof.
  intros Hn Hstatus Hstrategy Hrt last_reset cws lws days_diff.
  assert (node_id ∈ get_nodes_to_reset_usage sql_now (fun _ => now) db <->
          7 <= days_diff
          /\ Node.reset_time n <= cws
          /\ (lws < Node.reset_time n \/ 7 < days_diff)) as Hiff.
  { rewrite (selected_absolute sql_now now db node_id n Hn Hstatus);
      [|by rewrite Hstrategy|lia].
    rewrite Hstrategy. unfold should_reset, should_reset_week.
    fold last_reset. subst cws lws days_diff. unfold datetime.seconds_of_day.
    bool_to_prop. rewrite <- !Z.add_assoc. tauto. }
  split; [exact Hiff|].
  intros Hfew Hin. apply Hiff in Hin. lia.
Qed.

Lemma week_due_iff_witness :
  (2 ∈ get_nodes_to_reset_usage (utc 2024 1 11 2 0 0)
         (fun _ => utc 2024 1 11 2 0 0) example_fleet <->
   7 <= date.sub_days (datetime.date (utc 2024 1 11 2 0 0))
          (datetime.date (utc 2024 1 1 0 0 0))
   /\ 262800 <= datetime.weekday (utc 2024 1 11 2 0 0) * 86400
                + datetime.seconds_of_day (utc 2024 1 11 2 0 0)
   /\ (datetime.weekday (utc 2024 1 1 0 0 0) * 86400
       + datetime.seconds_of_day (utc 2024 1 1 0 0 0) < 262800
       \/ 7 < date.sub_days (datetime.date (utc 2024 1 11 2 0 0))
                (datetime.date (utc 2024 1 1 0 0 0))))
  /\ (date.sub_days (datetime.date (utc 2024 1 11 2 0 0))
        (datetime.date (utc 2024 1 1 0 0 0)) < 7 ->
      2 ∉ get_nodes_to_reset_usage (utc 2024 1 11 2 0 0)
            (fun _ => utc 2024 1 11 2 0 0) example_fleet).
Proof.
  apply (week_due_iff (utc 2024 1 11 2 0 0) (utc 2024 1 11 2 0 0) example_fleet 2
           (example_node NodeStatus.connected DataLimitResetStrategy.week 262800
              (utc 2024 1 1 0 0 0))).
  - reflexivity.
  - simpl. left.
  - reflexivity.
  - simpl. lia.
Defined.


(** ** The validator: claim C9 *)

(** C9. [validate_reset_time_for_strategy] raises exactly when the strategy
    is one of day, week, month and year, reset_time is not -1, and
    reset_time is at least the strategy's maximum (day 86400, week 604800,
    month 2678400, year 31536000); in every other case it accepts and
    hands the model back. *)
Theorem validate_reset_time_raises_iff (self : NodeCreate) :
  let rejected :=
    exists strategy max_value,
      nc_data_limit_reset_strategy self = Some strategy
      /\ match strategy with
         | DataLimitResetStrategy.day => max_value = 86400
         | DataLimitResetStrategy.week => max_value = 604800
         | DataLimitResetStrategy.month => max_value = 2678400
         | DataLimitResetStrategy.year => max_value = 31536000
         | DataLimitResetStrategy.no_reset => False
         end
      /\ nc_reset_time self <> -1
      /\ max_value <= nc_reset_time self in
  ((exists max_value strategy got,
      validate_reset_time_for_strategy self = ValueError max_value strategy got)
   <-> rejected)
  /\ (validate_reset_time_for_strategy self = Accepted self <-> ~ rejected).
Proof.
  cbv zeta. unfold validate_reset_time_for_strategy, max_values,
    SECONDS_IN_DAY, SECONDS_IN_WEEK, SECONDS_IN_MONTH, SECONDS_IN_YEAR.
  destruct self as [[strategy|] rt]; cbn [nc_data_limit_reset_strategy nc_reset_time].
  - destruct strategy; cbn [bool_decide decide_rel orb negb andb];
      repeat match goal with
             | |- context [Z.eqb ?a ?b] => destruct (Z.eqb_spec a b)
             | |- context [Z.leb ?a ?b] => destruct (Z.leb_spec a b)
             | |- context [bool_decide ?P] => destruct (bool_decide_reflect P)
             end;
      cbn [orb negb andb]; try discriminate; try lia;
      (split; split;
       [ first [ intros _; eexists _, _; split; [reflexivity|]; split; [reflexivity|]; split; lia
               | intros (? & ? & ? & ?); discriminate ]
       | first [ intros _; eexists _, _, _; reflexivity
               | intros (s & m & Hs & Hm & Hne & Hle); inversion Hs; subst s;
                 first [ destruct Hm; fail | lia ] ]
       | first [ discriminate
               | intros _ (s & m & Hs & Hm & Hne & Hle); inversion Hs; subst s;
                 first [ destruct Hm; fail | lia ] ]
       | first [ reflexivity
               | intros Hno; exfalso; apply Hno; eexists _, _;
                 split; [reflexivity|]; split; [reflexivity|]; split; lia ] ]).
  - split; split.
    + intros (? & ? & ? & ?). discriminate.
    + intros (s & m & Hs & _). discriminate.
    + intros _ (s & m & Hs & _). discriminate.
    + reflexivity.
Qed.

(** * Beyond the claims: the executor *)

Lemma reset_fields_idempotent (n : Node.t) :
  reset_fields (reset_fields n) = reset_fields n.
Proof.
  unfold reset_fields. destruct n as [? ? ? st ? ? ? ? ? ? ? ? ?]. simpl.
  destruct st; reflexivity.
Qed.

Lemma reset_fields_zeroed (n : Node.t) :
  Node.uplink (reset_fields n) = 0
  /\ Node.downlink (reset_fields n) = 0
  /\ Node.status (reset_fields n) <> NodeStatus.limited.
Proof.
  unfold reset_fields. case_bool_decide as Hs; simpl; repeat split; try done.
Qed.

Lemma reset_node_usage_reset_in (now : datetime.t) (db_node : Z)
    (db : AsyncSession) :
  is_Some (nodes (working db) !! db_node) ->
  reset_node_usage true now db_node db =
  Return db_node {| committed := reset_in now (working db) db_node;
                    working := reset_in now (working db) db_node |}.
Proof.
  intros [n Hn]. rewrite (reset_node_usage_run true now db_node db n Hn).
  unfold reset_in. by rewrite Hn.
Qed.

Lemma reset_in_lookup (now : datetime.t) (d : Database) (i j : Z) :
  nodes (reset_in now d i) !! j
  = if decide (i = j) then reset_fields <$> nodes d !! j else nodes d !! j.
Proof.
  unfold reset_in. destruct (decide (i = j)) as [->|Hne].
  - destruct (nodes d !! j) as [n|] eqn:Hj; simpl.
    + by rewrite lookup_insert_eq.
    + by rewrite Hj.
  - destruct (nodes d !! i); simpl; [by rewrite lookup_insert_ne|done].
Qed.

Lemma reset_in_is_Some (now : datetime.t) (d : Database) (i j : Z) :
  is_Some (nodes (reset_in now d i) !! j) <-> is_Some (nodes d !! j).
Proof.
  rewrite reset_in_lookup. destruct (decide (i = j)); [|done].
  by rewrite fmap_is_Some.
Qed.

Lemma foldl_reset_in_is_Some (now : datetime.t) (l : list Z) :
  forall (d : Database) (j : Z),
    is_Some (nodes (foldl (reset_in now) d l) !! j) <-> is_Some (nodes d !! j).
Proof.
  induction l as [|i l IH]; intros d j; simpl; [done|].
  by rewrite IH, reset_in_is_Some.
Qed.

(** The first loop of the bulk reset is the fold of [reset_in]. *)
Lemma for_each_bulk_reset_step_fold (now : datetime.t) (l : list Z) :
  forall db : AsyncSession,
    (forall i, i ∈ l -> is_Some (nodes (working db) !! i)) ->
    for_each l (bulk_reset_step now) db
    = Return tt {| committed := committed db;
                   working := foldl (reset_in now) (working db) l |}.
Proof.
  induction l as [|i l IH]; intros db Hattached; simpl.
  - by destruct db.
  - destruct (Hattached i) as [n Hi]; [left|].
    rewrite io_bind_run, (bulk_reset_step_run now i db n Hi).
    rewrite IH; simpl.
    + cut (reset_in now (working db) i
           = {| nodes := <[i := reset_fields n]> (nodes (working db));
                node_usage_reset_logs :=
                  node_usage_reset_logs (working db)
                  ++ [NodeUsageResetLogs.make i (Node.uplink n) (Node.downlink n) now] |});
        [by intros ->|unfold reset_in; by rewrite Hi].
    + intros j Hj. destruct (decide (i = j)) as [->|Hne].
      * rewrite lookup_insert_eq. by eexists.
      * rewrite lookup_insert_ne by done. apply Hattached. by right.
Qed.

Lemma bulk_reset_node_usage_fold (now : datetime.t) (l : list Z)
    (db : AsyncSession) :
  (forall i, i ∈ l -> is_Some (nodes (working db) !! i)) ->
  bulk_reset_node_usage true now l db
  = Return l {| committed := foldl (reset_in now) (working db) l;
                working := foldl (reset_in now) (working db) l |}.
Proof.
  intros Hattached. unfold bulk_reset_node_usage.
  rewrite io_bind_run, (for_each_bulk_reset_step_fold now l db Hattached).
  rewrite io_bind_run. unfold commit at 1. simpl.
  rewrite io_bind_run, for_each_refresh_run; [reflexivity|].
  intros i Hi. simpl. apply foldl_reset_in_is_Some. by apply Hattached.
Qed.

Lemma foldl_reset_in_lookup_notin (now : datetime.t) (l : list Z) :
  forall (d : Database) (j : Z),
    j ∉ l -> nodes (foldl (reset_in now) d l) !! j = nodes d !! j.
Proof.
  induction l as [|i l IH]; intros d j Hj; simpl; [done|].
  apply not_elem_of_cons in Hj as [Hne Hj].
  rewrite IH by done. rewrite reset_in_lookup. by rewrite decide_False.
Qed.

Lemma foldl_reset_in_lookup_in (now : datetime.t) (l : list Z) :
  forall (d : Database) (j : Z),
    j ∈ l -> nodes (foldl (reset_in now) d l) !! j = reset_fields <$> nodes d !! j.
Proof.
  induction l as [|i l IH]; intros d j Hj; simpl.
  - by apply elem_of_nil in Hj.
  - destruct (decide (j ∈ l)) as [Hin|Hnotin].
    + rewrite IH by done. rewrite reset_in_lookup.
      destruct (decide (i = j)); [|done].
      destruct (nodes d !! j); simpl; [|done]. by rewrite reset_fields_idempotent.
    + apply elem_of_cons in Hj as [->|Hj]; [|done].
      rewrite foldl_reset_in_lookup_notin by done.
      rewrite reset_in_lookup. by rewrite decide_True.
Qed.

Lemma foldl_reset_in_logs_length (now : datetime.t) (l : list Z) :
  forall d : Database,
    (forall i, i ∈ l -> is_Some (nodes d !! i)) ->
    length (node_usage_reset_logs (foldl (reset_in now) d l))
    = (length (node_usage_reset_logs d) + length l)%nat.
Proof.
  induction l as [|i l IH]; intros d Hattached; simpl; [lia|].
  rewrite IH.
  - destruct (Hattached i) as [n Hi]; [left|].
    unfold reset_in. rewrite Hi. simpl. rewrite length_app. simpl. lia.
  - intros j Hj. apply reset_in_is_Some. apply Hattached. by right.
Qed.

Lemma pre_reset_log_reset_in_ne (now : datetime.t) (d : Database) (i j : Z) :
  i <> j -> pre_reset_log now (reset_in now d i) j = pre_reset_log now d j.
Proof.
  intros Hne. unfold pre_reset_log. by rewrite reset_in_lookup, decide_False.
Qed.

Lemma foldl_reset_in_logs_NoDup (now : datetime.t) (l : list Z) :
  forall d : Database,
    NoDup l ->
    node_usage_reset_logs (foldl (reset_in now) d l)
    = node_usage_reset_logs d ++ omap (pre_reset_log now d) l.
Proof.
  induction l as [|i l IH]; intros d Hnodup.
  - simpl. by rewrite app_nil_r.
  - apply NoDup_cons in Hnodup as [Hi Hnodup].
    cbn [foldl omap list_omap]. rewrite IH by done.
    assert (omap (pre_reset_log now (reset_in now d i)) l
            = omap (pre_reset_log now d) l) as ->.
    { clear IH Hnodup. revert Hi. induction l as [|j l IHl]; intros Hi; [done|].
      apply not_elem_of_cons in Hi as [Hne Hi].
      cbn [omap list_omap]. rewrite pre_reset_log_reset_in_ne by done.
      by rewrite IHl. }
    unfold pre_reset_log at 2, reset_in.
    destruct (nodes d !! i) as [n|]; simpl; [|done].
    by rewrite <- app_assoc.
Qed.

Lemma for_each_reset_node_usage_fold (now : datetime.t) (l : list Z) :
  forall db : AsyncSession,
    (forall i, i ∈ l -> is_Some (nodes (working db) !! i)) ->
    for_each l (fun db_node => reset_node_usage true now db_node ;; mret tt) db
    = Return tt
        match l with
        | [] => db
        | _ :: _ => {| committed := foldl (reset_in now) (working db) l;
                       working := foldl (reset_in now) (working db) l |}
        end.
Proof.
  induction l as [|i l IH]; intros db Hattached; [reflexivity|].
  cbn [for_each]. rewrite io_bind_run, io_bind_run.
  rewrite reset_node_usage_reset_in by (apply Hattached; left).
  unfold mret at 1, io_ret at 1. rewrite IH.
  - by destruct l.
  - intros j Hj. simpl. apply reset_in_is_Some. apply Hattached. by right.
Qed.

(** X1. Two resets of the same node in a row, both committed, add two log
    rows: the first carries the counters from before, the second carries
    0 and 0.  The node is left as the first reset left it. *)
Theorem reset_node_usage_twice_logs_zero (now1 now2 : datetime.t) (db_node : Z)
    (db : AsyncSession) (n : Node.t) :
  nodes (working db) !! db_node = Some n ->
  exists db1 db2,
    reset_node_usage true now1 db_node db = Return db_node db1
    /\ reset_node_usage true now2 db_node db1 = Return db_node db2
    /\ node_usage_reset_logs (committed db2)
       = node_usage_reset_logs (working db)
         ++ [NodeUsageResetLogs.make db_node (Node.uplink n) (Node.downlink n) now1;
             NodeUsageResetLogs.make db_node 0 0 now2]
    /\ nodes (committed db2) !! db_node = nodes (committed db1) !! db_node.
Proof.
  intros Hn.
  rewrite (reset_node_usage_run true now1 db_node db n Hn). cbv zeta.
  eexists. eexists. split; [reflexivity|].
  rewrite (reset_node_usage_run true now2 db_node _ (reset_fields n))
    by (simpl; apply lookup_insert_eq).
  cbv zeta. split; [reflexivity|]. simpl.
  destruct (reset_fields_zeroed n) as (-> & -> & _).
  rewrite <- app_assoc. split; [reflexivity|].
  by rewrite !lookup_insert_eq, reset_fields_idempotent.
Qed.

Lemma reset_node_usage_twice_logs_zero_witness :
  exists db1 db2,
    reset_node_usage true (utc 2024 1 2 1 0 5) 1 example_fleet = Return 1 db1
    /\ reset_node_usage true (utc 2024 1 2 1 0 6) 1 db1 = Return 1 db2
    /\ node_usage_reset_logs (committed db2)
       = [] ++ [NodeUsageResetLogs.make 1 1000 2000 (utc 2024 1 2 1 0 5);
                NodeUsageResetLogs.make 1 0 0 (utc 2024 1 2 1 0 6)]
    /\ nodes (committed db2) !! 1 = nodes (committed db1) !! 1.
Proof.
  apply (reset_node_usage_twice_logs_zero (utc 2024 1 2 1 0 5) (utc 2024 1 2 1 0 6)
           1 example_fleet
           (example_node NodeStatus.limited DataLimitResetStrategy.day 3600
              (utc 2024 1 1 0 0 0))).
  reflexivity.
Defined.

(** X2. A bulk reset of nodes of the session, with the commit going
    through, returns its list and adds one log row per element of the list;
    when no node is listed twice, the rows are, in list order, the
    counters the nodes had before the call.  Every listed node ends with
    uplink and downlink 0 and a status other than limited. *)
Theorem bulk_reset_node_usage_one_row_per_node (now : datetime.t) (l : list Z)
    (db : AsyncSession) :
  (forall i, i ∈ l -> is_Some (nodes (working db) !! i)) ->
  exists db',
    bulk_reset_node_usage true now l db = Return l db'
    /\ committed db' = working db'
    /\ length (node_usage_reset_logs (committed db'))
       = (length (node_usage_reset_logs (working db)) + length l)%nat
    /\ (NoDup l ->
        node_usage_reset_logs (committed db')
        = node_usage_reset_logs (working db)
          ++ omap (pre_reset_log now (working db)) l)
    /\ forall i, i ∈ l ->
         exists n', nodes (committed db') !! i = Some n'
                    /\ Node.uplink n' = 0 /\ Node.downlink n' = 0
                    /\ Node.status n' <> NodeStatus.limited.
Proof.
  intros Hattached. rewrite (bulk_reset_node_usage_fold now l db Hattached).
  eexists. split; [reflexivity|]. simpl. split; [reflexivity|].
  split; [by apply foldl_reset_in_logs_length|].
  split; [by apply foldl_reset_in_logs_NoDup|].
  intros i Hi. rewrite foldl_reset_in_lookup_in by done.
  destruct (Hattached i Hi) as [n Hn]. rewrite Hn. simpl.
  exists (reset_fields n). split; [reflexivity|]. apply reset_fields_zeroed.
Qed.

Lemma bulk_reset_node_usage_one_row_per_node_witness :
  exists db',
    bulk_reset_node_usage true (utc 2024 1 2 1 0 5) [2; 1] example_fleet
    = Return [2; 1] db'
    /\ committed db' = working db'
    /\ length (node_usage_reset_logs (committed db')) = (0 + 2)%nat
    /\ (NoDup [2; 1] ->
        node_usage_reset_logs (committed db')
        = [] ++ omap (pre_reset_log (utc 2024 1 2 1 0 5) (working example_fleet))
                     [2; 1])
    /\ forall i, i ∈ [2; 1] ->
         exists n', nodes (committed db') !! i = Some n'
                    /\ Node.uplink n' = 0 /\ Node.downlink n' = 0
                    /\ Node.status n' <> NodeStatus.limited.
Proof.
  apply (bulk_reset_node_usage_one_row_per_node (utc 2024 1 2 1 0 5) [2; 1]
           example_fleet).
  intros i Hi.
  apply elem_of_cons in Hi as [->|Hi]; [by eexists|].
  apply elem_of_cons in Hi as [->|Hi]; [by eexists|].
  by apply elem_of_nil in Hi.
Defined.

(** X3. On a non-empty list of nodes of the session, the bulk reset with
    its single commit ends in the same session as resetting the nodes one
    by one, each with its own commit, all commits going through. *)
Theorem bulk_reset_node_usage_as_single_resets (now : datetime.t) (l : list Z)
    (db : AsyncSession) :
  l <> [] ->
  (forall i, i ∈ l -> is_Some (nodes (working db) !! i)) ->
  exists db',
    bulk_reset_node_usage true now l db = Return l db'
    /\ for_each l (fun db_node => reset_node_usage true now db_node ;; mret tt) db
       = Return tt db'.
Proof.
  intros Hne Hattached.
  rewrite (bulk_reset_node_usage_fold now l db Hattached).
  rewrite (for_each_reset_node_usage_fold now l db Hattached).
  eexists. split; [reflexivity|]. by destruct l.
Qed.

Lemma bulk_reset_node_usage_as_single_resets_witness :
  exists db',
    bulk_reset_node_usage true (utc 2024 1 2 1 0 5) [2; 1; 2] example_fleet
    = Return [2; 1; 2] db'
    /\ for_each [2; 1; 2]
         (fun db_node => reset_node_usage true (utc 2024 1 2 1 0 5) db_node ;; mret tt)
         example_fleet
       = Return tt db'.
Proof.
  apply (bulk_reset_node_usage_as_single_resets (utc 2024 1 2 1 0 5) [2; 1; 2]
           example_fleet).
  - discriminate.
  - intros i Hi.
    apply elem_of_cons in Hi as [->|Hi]; [by eexists|].
    apply elem_of_cons in Hi as [->|Hi]; [by eexists|].
    apply elem_of_cons in Hi as [->|Hi]; [by eexists|].
    by apply elem_of_nil in Hi.
Defined.

(** X4. On an empty list the two bulk operations differ:
    [bulk_reset_node_usage] still commits, so it makes the pending work of
    the session durable and raises when the store refuses, whereas
    [bulk_update_node_status] returns at once and leaves the session,
    pending work included, as it was. *)
Theorem empty_batch_commits_only_for_reset (store_accepts : bool)
    (now : datetime.t) (db : AsyncSession) :
  bulk_reset_node_usage store_accepts now [] db
  = (if store_accepts
     then Return [] {| committed := working db; working := working db |}
     else Raise OperationalError db)
  /\ bulk_update_node_status store_accepts [] db = Return tt db.
Proof.
  split; [|reflexivity]. by destruct store_accepts.
Qed.

(** * Beyond the claims: status updates, removal, modification *)

Lemma update_node_status_run (store_accepts : bool) (db_node : Z)
    (status : NodeStatus.t) (message xray_version node_version : string)
    (db : AsyncSession) :
  is_Some (nodes (working db) !! db_node) ->
  update_node_status store_accepts db_node status message xray_version
                     node_version db
  = let after :=
      update_node_where_id db_node
        (status_values status message xray_version node_version) (working db) in
    if store_accepts
    then Return db_node {| committed := after; working := after |}
    else Raise OperationalError {| committed := committed db; working := after |}.
Proof.
  intros [n Hn]. unfold update_node_status.
  rewrite io_bind_run. unfold execute at 1. rewrite io_bind_run.
  destruct store_accepts; simpl; [|reflexivity].
  rewrite io_bind_run. unfold refresh. simpl.
  rewrite lookup_alter, decide_True, Hn by done. reflexivity.
Qed.

Lemma status_values_frame (status : NodeStatus.t)
    (message xray_version node_version : string) (n : Node.t) :
  only_status_report_changed n
    (status_values status message xray_version node_version n).
Proof. unfold only_status_report_changed. by repeat split. Qed.

(** X5. [update_node_status] on a node of the session, the commit going
    through, returns the node with the given status, message and versions
    and does not touch its counters, data limit, reset strategy, reset
    time, name, address, port or creation time, nor any other node, nor
    the log table.  (The statement also stamps [last_status_change], a
    column outside the row record, of which nothing is said here.) *)
Theorem update_node_status_changes_only_the_report (db_node : Z)
    (status : NodeStatus.t) (message xray_version node_version : string)
    (db : AsyncSession) (n : Node.t) :
  nodes (working db) !! db_node = Some n ->
  exists db' n',
    update_node_status true db_node status message xray_version node_version db
    = Return db_node db'
    /\ committed db' = working db'
    /\ nodes (working db') !! db_node = Some n'
    /\ Node.status n' = status
    /\ Node.message n' = Some message
    /\ Node.xray_version n' = Some xray_version
    /\ Node.node_version n' = Some node_version
    /\ only_status_report_changed n n'
    /\ (forall j, j <> db_node ->
          nodes (working db') !! j = nodes (working db) !! j)
    /\ node_usage_reset_logs (working db') = node_usage_reset_logs (working db).
Proof.
  intros Hn. rewrite update_node_status_run by (by eexists). cbv zeta.
  eexists _, (status_values status message xray_version node_version n).
  split; [reflexivity|]. simpl. split; [reflexivity|].
  rewrite lookup_alter, decide_True, Hn by done.
  repeat split; try reflexivity.
  intros j Hj. by rewrite lookup_alter, decide_False.
Qed.

Lemma update_node_status_changes_only_the_report_witness :
  exists db' n',
    update_node_status true 2 NodeStatus.error "timeout" "1.8.0" "0.1.0" example_fleet
    = Return 2 db'
    /\ committed db' = working db'
    /\ nodes (working db') !! 2 = Some n'
    /\ Node.status n' = NodeStatus.error
    /\ Node.message n' = Some "timeout"%string
    /\ Node.xray_version n' = Some "1.8.0"%string
    /\ Node.node_version n' = Some "0.1.0"%string
    /\ only_status_report_changed
         (example_node NodeStatus.connected DataLimitResetStrategy.week 262800
            (utc 2024 1 1 0 0 0)) n'
    /\ (forall j, j <> 2 ->
          nodes (working db') !! j = nodes (working example_fleet) !! j)
    /\ node_usage_reset_logs (working db') = [].
Proof.
  apply (update_node_status_changes_only_the_report 2 NodeStatus.error
           "timeout" "1.8.0" "0.1.0" example_fleet
           (example_node NodeStatus.connected DataLimitResetStrategy.week 262800
              (utc 2024 1 1 0 0 0))).
  reflexivity.
Defined.

(** X6. The reset and the status update compose on the status column by
    the later write: a status update after a reset leaves the counters at
    0 and sets the reported status; a reset after a status update to
    limited ends in connecting, with the log row carrying the counters that
    the status update left untouched. *)
Theorem reset_and_status_update_compose (now : datetime.t) (db_node : Z)
    (status : NodeStatus.t) (message xray_version node_version : string)
    (db : AsyncSession) (n : Node.t) :
  nodes (working db) !! db_node = Some n ->
  (exists db1 db2 n2,
     reset_node_usage true now db_node db = Return db_node db1
     /\ update_node_status true db_node status message xray_version node_version db1
        = Return db_node db2
     /\ nodes (committed db2) !! db_node = Some n2
     /\ Node.uplink n2 = 0 /\ Node.downlink n2 = 0 /\ Node.status n2 = status)
  /\ (exists db1 db2 n2,
        update_node_status true db_node NodeStatus.limited message xray_version
                           node_version db
        = Return db_node db1
        /\ reset_node_usage true now db_node db1 = Return db_node db2
        /\ nodes (committed db2) !! db_node = Some n2
        /\ Node.status n2 = NodeStatus.connecting
        /\ Node.uplink n2 = 0 /\ Node.downlink n2 = 0
        /\ node_usage_reset_logs (committed db2)
           = node_usage_reset_logs (working db)
             ++ [NodeUsageResetLogs.make db_node (Node.uplink n) (Node.downlink n) now]).
Proof.
  intros Hn. split.
  - rewrite (reset_node_usage_run true now db_node db n Hn). cbv zeta.
    eexists _, _, _. split; [reflexivity|].
    rewrite update_node_status_run
      by (simpl; rewrite lookup_insert_eq; by eexists).
    cbv zeta. split; [reflexivity|].
    simpl. rewrite lookup_alter, decide_True, lookup_insert_eq by done. simpl.
    split; [reflexivity|]. simpl.
    destruct (reset_fields_zeroed n) as (-> & -> & _). by repeat split.
  - rewrite update_node_status_run by (by eexists). cbv zeta.
    eexists _, _, _. split; [reflexivity|].
    rewrite (reset_node_usage_run true now db_node _
               (status_values NodeStatus.limited message xray_version
                  node_version n))
      by (simpl; by rewrite lookup_alter, decide_True, Hn).
    cbv zeta. split; [reflexivity|].
    simpl. rewrite lookup_insert_eq. split; [reflexivity|].
    by repeat split.
Qed.

Lemma reset_and_status_update_compose_witness :
  (exists db1 db2 n2,
     reset_node_usage true (utc 2024 1 2 1 0 5) 2 example_fleet = Return 2 db1
     /\ update_node_status true 2 NodeStatus.error "timeout" "1.8.0" "0.1.0" db1
        = Return 2 db2
     /\ nodes (committed db2) !! 2 = Some n2
     /\ Node.uplink n2 = 0 /\ Node.downlink n2 = 0
     /\ Node.status n2 = NodeStatus.error)
  /\ (exists db1 db2 n2,
        update_node_status true 2 NodeStatus.limited "timeout" "1.8.0" "0.1.0"
                           example_fleet
        = Return 2 db1
        /\ reset_node_usage true (utc 2024 1 2 1 0 5) 2 db1 = Return 2 db2
        /\ nodes (committed db2) !! 2 = Some n2
        /\ Node.status n2 = NodeStatus.connecting
        /\ Node.uplink n2 = 0 /\ Node.downlink n2 = 0
        /\ node_usage_reset_logs (committed db2)
           = [] ++ [NodeUsageResetLogs.make 2 1000 2000 (utc 2024 1 2 1 0 5)]).
Proof.
  apply (reset_and_status_update_compose (utc 2024 1 2 1 0 5) 2 NodeStatus.error
           "timeout" "1.8.0" "0.1.0" example_fleet
           (example_node NodeStatus.connected DataLimitResetStrategy.week 262800
              (utc 2024 1 1 0 0 0))).
  reflexivity.
Defined.

Lemma status_values_twice (s1 s2 : NodeStatus.t) (m1 x1 v1 m2 x2 v2 : string)
    (n : Node.t) :
  status_values s2 m2 x2 v2 (status_values s1 m1 x1 v1 n)
  = status_values s2 m2 x2 v2 n.
Proof. reflexivity. Qed.

(** The loop of the bulk status update is a fold over the working copy. *)
Lemma for_each_status_update_fold (updates : list StatusUpdate) :
  forall db : AsyncSession,
    for_each updates
      (fun upd =>
         execute (update_node_where_id (su_node_id upd)
                    (status_values (su_status upd) (su_message upd)
                       (su_xray_version upd) (su_node_version upd)))) db
    = Return tt
        {| committed := committed db;
           working :=
             foldl (fun d upd =>
                      update_node_where_id (su_node_id upd)
                        (status_values (su_status upd) (su_message upd)
                           (su_xray_version upd) (su_node_version upd)) d)
                   (working db) updates |}.
Proof.
  induction updates as [|upd updates IH]; intros db; simpl.
  - by destruct db.
  - rewrite io_bind_run. unfold execute at 1. by rewrite IH.
Qed.

Lemma foldl_status_update_logs (updates : list StatusUpdate) :
  forall d : Database,
    node_usage_reset_logs
      (foldl (fun d upd =>
                update_node_where_id (su_node_id upd)
                  (status_values (su_status upd) (su_message upd)
                     (su_xray_version upd) (su_node_version upd)) d)
             d updates)
    = node_usage_reset_logs d.
Proof.
  induction updates as [|upd updates IH]; intros d; simpl; [done|].
  by rewrite IH.
Qed.

Lemma foldl_status_update_lookup (updates : list StatusUpdate) :
  forall (d : Database) (j : Z),
    nodes
      (foldl (fun d upd =>
                update_node_where_id (su_node_id upd)
                  (status_values (su_status upd) (su_message upd)
                     (su_xray_version upd) (su_node_version upd)) d)
             d updates) !! j
    = match last_update_for j updates with
      | Some upd =>
          status_values (su_status upd) (su_message upd)
                        (su_xray_version upd) (su_node_version upd)
          <$> nodes d !! j
      | None => nodes d !! j
      end.
Proof.
  induction updates as [|upd updates IH]; intros d j; [reflexivity|].
  cbn [foldl]. rewrite IH. unfold last_update_for.
  rewrite filter_cons. simpl. rewrite lookup_alter.
  destruct (decide (su_node_id upd = j)) as [Heq|Hne].
  - rewrite Heq, last_cons.
    destruct (last (filter (fun upd0 => su_node_id upd0 = j) updates));
      destruct (nodes d !! j); reflexivity.
  - reflexivity.
Qed.

(** X7. [bulk_update_node_status] on a non-empty list, the commit going
    through: a node addressed by several dictionaries ends with the
    status, message and versions of the last of them; a node addressed by
    none is unchanged; an id without a row is skipped without error and
    creates no row; counters, reset policy and the log table are as
    before. *)
Theorem bulk_update_node_status_last_wins (updates : list StatusUpdate)
    (db : AsyncSession) :
  updates <> [] ->
  exists db',
    bulk_update_node_status true updates db = Return tt db'
    /\ committed db' = working db'
    /\ node_usage_reset_logs (working db') = node_usage_reset_logs (working db)
    /\ forall j,
         match nodes (working db) !! j, last_update_for j updates with
         | Some n, Some upd =>
             exists n', nodes (working db') !! j = Some n'
                        /\ Node.status n' = su_status upd
                        /\ Node.message n' = Some (su_message upd)
                        /\ Node.xray_version n' = Some (su_xray_version upd)
                        /\ Node.node_version n' = Some (su_node_version upd)
                        /\ only_status_report_changed n n'
         | Some n, None => nodes (working db') !! j = Some n
         | None, _ => nodes (working db') !! j = None
         end.
Proof.
  intros Hne. unfold bulk_update_node_status.
  destruct updates as [|upd0 updates0]; [done|].
  set (updates := upd0 :: updates0).
  rewrite io_bind_run, for_each_status_update_fold. unfold commit.
  eexists. split; [reflexivity|]. simpl. split; [reflexivity|].
  split; [apply (foldl_status_update_logs updates)|].
  intros j.
  pose proof (foldl_status_update_lookup updates (working db) j) as Hlookup.
  simpl in Hlookup. rewrite Hlookup.
  destruct (nodes (working db) !! j) as [n|];
    destruct (last_update_for j updates) as [upd|]; simpl; try reflexivity.
  eexists. split; [reflexivity|]. by repeat split.
Qed.

Lemma bulk_update_node_status_last_wins_witness :
  exists db',
    bulk_update_node_status true
      [Build_StatusUpdate 2 NodeStatus.error "timeout" "" "";
       Build_StatusUpdate 7 NodeStatus.connected "" "1.8.0" "0.1.0";
       Build_StatusUpdate 2 NodeStatus.connected "" "1.8.0" "0.1.0"]
      example_fleet
    = Return tt db'
    /\ committed db' = working db'
    /\ node_usage_reset_logs (working db')
       = node_usage_reset_logs (working example_fleet)
    /\ forall j,
         match nodes (working example_fleet) !! j,
               last_update_for j
                 [Build_StatusUpdate 2 NodeStatus.error "timeout" "" "";
                  Build_StatusUpdate 7 NodeStatus.connected "" "1.8.0" "0.1.0";
                  Build_StatusUpdate 2 NodeStatus.connected "" "1.8.0" "0.1.0"]
         with
         | Some n, Some upd =>
             exists n', nodes (working db') !! j = Some n'
                        /\ Node.status n' = su_status upd
                        /\ Node.message n' = Some (su_message upd)
                        /\ Node.xray_version n' = Some (su_xray_version upd)
                        /\ Node.node_version n' = Some (su_node_version upd)
                        /\ only_status_report_changed n n'
         | Some n, None => nodes (working db') !! j = Some n
         | None, _ => nodes (working db') !! j = None
         end.
Proof.
  apply (bulk_update_node_status_last_wins
           [Build_StatusUpdate 2 NodeStatus.error "timeout" "" "";
            Build_StatusUpdate 7 NodeStatus.connected "" "1.8.0" "0.1.0";
            Build_StatusUpdate 2 NodeStatus.connected "" "1.8.0" "0.1.0"]
           example_fleet).
  discriminate.
Defined.

Lemma remove_node_run (store_accepts : bool) (db_node : Z) (db : AsyncSession) :
  remove_node store_accepts db_node db
  = let after :=
      delete_node_where_id db_node
        (delete_logs_where_node_id db_node (working db)) in
    if store_accepts
    then Return tt {| committed := after; working := after |}
    else Raise OperationalError {| committed := committed db; working := after |}.
Proof. by destruct store_accepts. Qed.

Lemma usage_logs_delete_logs_ne (d : Database) (removed j : Z) :
  j <> removed ->
  usage_logs (delete_logs_where_node_id removed d) j = usage_logs d j.
Proof.
  intros Hne. unfold usage_logs, delete_logs_where_node_id. simpl.
  induction (node_usage_reset_logs d) as [|log logs IH]; [done|].
  rewrite !filter_cons.
  destruct (decide (NodeUsageResetLogs.node_id log <> removed)) as [Hkeep|Hdrop].
  - rewrite filter_cons. destruct (decide (NodeUsageResetLogs.node_id log = j));
      by rewrite IH.
  - rewrite decide_False by (intros Hj; apply Hdrop; congruence). exact IH.
Qed.

(** X8. [remove_node], the commit going through, leaves no row for the
    node and no log row with its id; every other node row is untouched,
    and the log rows of every other node are kept, in their order.  It
    needs no row to exist: removing an absent node changes nothing but
    commits. *)
Theorem remove_node_removes_exactly_one_node (db_node : Z) (db : AsyncSession) :
  exists db',
    remove_node true db_node db = Return tt db'
    /\ committed db' = working db'
    /\ nodes (working db') !! db_node = None
    /\ usage_logs (working db') db_node = []
    /\ (forall j, j <> db_node ->
          nodes (working db') !! j = nodes (working db) !! j
          /\ usage_logs (working db') j = usage_logs (working db) j)
    /\ (nodes (working db) !! db_node = None ->
        usage_logs (working db) db_node = [] ->
        working db' = working db).
Proof.
  rewrite remove_node_run. cbv zeta. eexists. split; [reflexivity|]. simpl.
  split; [reflexivity|]. split; [apply lookup_delete_eq|].
  split; [|split].
  - unfold usage_logs. simpl.
    induction (node_usage_reset_logs (working db)) as [|log logs IH]; [done|].
    rewrite filter_cons.
    destruct (decide (NodeUsageResetLogs.node_id log <> db_node)) as [Hkeep|Hdrop];
      [|exact IH].
    rewrite filter_cons, decide_False by done. exact IH.
  - intros j Hj. split; [by rewrite lookup_delete_ne|].
    exact (usage_logs_delete_logs_ne (working db) db_node j Hj).
  - intros Habsent Hnologs. destruct (working db) as [rows logs]. simpl in *.
    unfold delete_node_where_id, delete_logs_where_node_id. simpl. f_equal.
    + by apply delete_id.
    + unfold usage_logs in Hnologs. simpl in Hnologs.
      induction logs as [|log logs IH]; [done|].
      rewrite filter_cons in Hnologs. rewrite filter_cons.
      destruct (decide (NodeUsageResetLogs.node_id log = db_node)) as [Heq|Hne];
        [discriminate|].
      rewrite decide_True by done. by rewrite IH.
Qed.

(** * Beyond the claims: selection and the operations that write *)

(** Selection with the clock standing at [now]. *)
Lemma selected_const (sql_now now : datetime.t) (db : AsyncSession) (j : Z) :
  j ∈ get_nodes_to_reset_usage sql_now (fun _ => now) db <->
  exists n,
    nodes (working db) !! j = Some n
    /\ stmt_where sql_now (working db) j n = true
    /\ (Node.reset_time n = -1
        \/ should_reset (Node.data_limit_reset_strategy n) (Node.reset_time n)
             now (last_reset_of (working db) j n) = true).
Proof.
  unfold get_nodes_to_reset_usage. rewrite elem_of_filter_nodes_const. split.
  - intros (n & Hin & Hkeep). apply elem_of_execute_stmt in Hin as [Hn Hwhere].
    by exists n.
  - intros (n & Hn & Hwhere & Hkeep). exists n.
    split; [by apply elem_of_execute_stmt|exact Hkeep].
Qed.

(** A selected node has a row, whatever the clock reads. *)
Lemma selected_is_Some (sql_now : datetime.t) (clock : nat -> datetime.t)
    (db : AsyncSession) (j : Z) :
  j ∈ get_nodes_to_reset_usage sql_now clock db ->
  exists n, nodes (working db) !! j = Some n
            /\ stmt_where sql_now (working db) j n = true.
Proof.
  intros Hin. unfold get_nodes_to_reset_usage in Hin.
  apply elem_of_filter_nodes_row in Hin as [n Hin].
  apply elem_of_execute_stmt in Hin. by exists n.
Qed.

Lemma last_reset_of_usage_logs (d d' : Database) (j : Z) (n : Node.t) :
  usage_logs d j = usage_logs d' j ->
  last_reset_of d j n = last_reset_of d' j n.
Proof. unfold last_reset_of. by intros ->. Qed.

Lemma stmt_where_usage_logs (sql_now : datetime.t) (d d' : Database) (j : Z)
    (n : Node.t) :
  usage_logs d j = usage_logs d' j ->
  stmt_where sql_now d j n = stmt_where sql_now d' j n.
Proof.
  intros Hlogs. unfold stmt_where, interval_case.
  by rewrite !last_reset_time_of, (last_reset_of_usage_logs d d' j n Hlogs).
Qed.

(** Selection of a node reads its row and its own log rows only. *)
Lemma selected_same_row_same_logs (sql_now now : datetime.t)
    (db db' : AsyncSession) (j : Z) :
  nodes (working db) !! j = nodes (working db') !! j ->
  usage_logs (working db) j = usage_logs (working db') j ->
  j ∈ get_nodes_to_reset_usage sql_now (fun _ => now) db <->
  j ∈ get_nodes_to_reset_usage sql_now (fun _ => now) db'.
Proof.
  intros Hrow Hlogs. rewrite !selected_const.
  split; intros (n & Hn & Hwhere & Hkeep); exists n.
  - rewrite <- Hrow, <- (stmt_where_usage_logs sql_now _ _ j n Hlogs),
      <- (last_reset_of_usage_logs _ _ j n Hlogs). done.
  - rewrite Hrow, (stmt_where_usage_logs sql_now _ _ j n Hlogs),
      (last_reset_of_usage_logs _ _ j n Hlogs). done.
Qed.

Lemma usage_logs_reset_in_ne (now : datetime.t) (d : Database) (i j : Z) :
  i <> j -> usage_logs (reset_in now d i) j = usage_logs d j.
Proof.
  intros Hne. unfold reset_in. destruct (nodes d !! i); [|done].
  unfold usage_logs. simpl. rewrite filter_app, filter_cons. simpl.
  rewrite decide_False by done. by rewrite filter_nil, app_nil_r.
Qed.

(** X9. Operations on one node do not move the due-ness of another: with
    the clock standing still, a node other than the one reset, removed or
    reported on is selected after the operation exactly when it was
    selected before. *)
Theorem selection_of_other_nodes_unchanged (sql_now now reset_at : datetime.t)
    (db : AsyncSession) (db_node j : Z) (status : NodeStatus.t)
    (message xray_version node_version : string) :
  is_Some (nodes (working db) !! db_node) ->
  j <> db_node ->
  (exists db',
     reset_node_usage true reset_at db_node db = Return db_node db'
     /\ (j ∈ get_nodes_to_reset_usage sql_now (fun _ => now) db' <->
         j ∈ get_nodes_to_reset_usage sql_now (fun _ => now) db))
  /\ (exists db',
        remove_node true db_node db = Return tt db'
        /\ (j ∈ get_nodes_to_reset_usage sql_now (fun _ => now) db' <->
            j ∈ get_nodes_to_reset_usage sql_now (fun _ => now) db))
  /\ (exists db',
        update_node_status true db_node status message xray_version
                           node_version db = Return db_node db'
        /\ (j ∈ get_nodes_to_reset_usage sql_now (fun _ => now) db' <->
            j ∈ get_nodes_to_reset_usage sql_now (fun _ => now) db)).
Proof.
  intros Hattached Hne. split; [|split].
  - rewrite reset_node_usage_reset_in by done.
    eexists. split; [reflexivity|].
    apply selected_same_row_same_logs; simpl.
    + by rewrite reset_in_lookup, decide_False.
    + by apply usage_logs_reset_in_ne.
  - rewrite remove_node_run. cbv zeta. eexists. split; [reflexivity|].
    apply selected_same_row_same_logs; simpl.
    + by rewrite lookup_delete_ne.
    + exact (usage_logs_delete_logs_ne (working db) db_node j Hne).
  - rewrite update_node_status_run by done. cbv zeta.
    eexists. split; [reflexivity|].
    apply selected_same_row_same_logs; simpl.
    + by rewrite lookup_alter, decide_False.
    + reflexivity.
Qed.

Lemma selection_of_other_nodes_unchanged_witness :
  (exists db',
     reset_node_usage true (utc 2024 1 11 2 0 0) 1 example_fleet = Return 1 db'
     /\ (2 ∈ get_nodes_to_reset_usage (utc 2024 1 11 2 0 0)
               (fun _ => utc 2024 1 11 2 0 0) db' <->
         2 ∈ get_nodes_to_reset_usage (utc 2024 1 11 2 0 0)
               (fun _ => utc 2024 1 11 2 0 0) example_fleet))
  /\ (exists db',
        remove_node true 1 example_fleet = Return tt db'
        /\ (2 ∈ get_nodes_to_reset_usage (utc 2024 1 11 2 0 0)
                  (fun _ => utc 2024 1 11 2 0 0) db' <->
            2 ∈ get_nodes_to_reset_usage (utc 2024 1 11 2 0 0)
                  (fun _ => utc 2024 1 11 2 0 0) example_fleet))
  /\ (exists db',
        update_node_status true 1 NodeStatus.error "timeout" "" "" example_fleet
        = Return 1 db'
        /\ (2 ∈ get_nodes_to_reset_usage (utc 2024 1 11 2 0 0)
                  (fun _ => utc 2024 1 11 2 0 0) db' <->
            2 ∈ get_nodes_to_reset_usage (utc 2024 1 11 2 0 0)
                  (fun _ => utc 2024 1 11 2 0 0) example_fleet)).
Proof.
  apply (selection_of_other_nodes_unchanged (utc 2024 1 11 2 0 0)
           (utc 2024 1 11 2 0 0) (utc 2024 1 11 2 0 0) example_fleet 1 2
           NodeStatus.error "timeout" "" "").
  - by eexists.
  - discriminate.
Defined.

(** X10. A node that was removed, or whose status was reported as
    disabled, is not selected for a reset afterwards, whatever its
    strategy, its reset time and the clocks. *)
Theorem removed_or_disabled_node_not_selected (sql_now : datetime.t)
    (clock : nat -> datetime.t) (db : AsyncSession) (db_node : Z)
    (message xray_version node_version : string) :
  (exists db',
     remove_node true db_node db = Return tt db'
     /\ db_node ∉ get_nodes_to_reset_usage sql_now clock db')
  /\ (is_Some (nodes (working db) !! db_node) ->
      exists db',
        update_node_status true db_node NodeStatus.disabled message
                           xray_version node_version db = Return db_node db'
        /\ db_node ∉ get_nodes_to_reset_usage sql_now clock db').
Proof.
  split.
  - rewrite remove_node_run. cbv zeta. eexists. split; [reflexivity|].
    intros Hin. apply selected_is_Some in Hin as (n & Hn & _).
    simpl in Hn. by rewrite lookup_delete_eq in Hn.
  - intros [n Hn]. rewrite update_node_status_run by (by eexists). cbv zeta.
    eexists. split; [reflexivity|].
    intros Hin. apply selected_is_Some in Hin as (n' & Hn' & Hwhere).
    simpl in Hn'. rewrite lookup_alter, decide_True, Hn in Hn' by done.
    simpl in Hn'. inversion Hn'; subst n'. clear Hn'.
    unfold stmt_where in Hwhere.
    apply andb_true_iff in Hwhere as [Hwhere _].
    apply andb_true_iff in Hwhere as [Hstatus _].
    apply bool_decide_eq_true_1 in Hstatus.
    rewrite !elem_of_cons, elem_of_nil in Hstatus.
    destruct Hstatus as [?|[?|[?|[?|[]]]]]; discriminate.
Qed.

(** * Beyond the claims: the last reset and the next one *)

Ltac gt_to_prop :=
  unfold datetime.gt, date.gt, datetime.date in *; simpl in *;
  repeat match goal with
         | H : _ = true |- _ => revert H
         | H : _ = false |- _ => revert H
         end;
  rewrite <- ?not_true_iff_false;
  repeat first [ rewrite andb_true_iff | rewrite orb_true_iff
               | rewrite Z.leb_le | rewrite Z.ltb_lt | rewrite Z.eqb_eq ].

Lemma datetime_gt_irrefl (a : datetime.t) : datetime.gt a a = false.
Proof. apply not_true_iff_false. destruct a. gt_to_prop. lia. Qed.

Lemma datetime_gt_trans (a b c : datetime.t) :
  datetime.gt a b = true -> datetime.gt b c = true -> datetime.gt a c = true.
Proof. destruct a, b, c. intros H1 H2. gt_to_prop. lia. Qed.

Lemma datetime_gt_total (a b : datetime.t) :
  datetime.gt a b = false -> datetime.gt b a = false -> a = b.
Proof.
  destruct a, b. intros H1 H2. gt_to_prop. intros H1 H2.
  assert (year = year0 /\ month = month0 /\ day = day0 /\ hour = hour0
          /\ minute = minute0 /\ second = second0 /\ microsecond = microsecond0)
    as (-> & -> & -> & -> & -> & -> & ->) by lia.
  reflexivity.
Qed.

(** [max] returns an item of the iterable that no item exceeds. *)
Lemma max_of_greatest (others : list datetime.t) :
  forall first : datetime.t,
    datetime.max_of first others ∈ first :: others
    /\ forall x, x ∈ first :: others ->
                 datetime.gt x (datetime.max_of first others) = false.
Proof.
  unfold datetime.max_of.
  induction others as [|item others IH]; intros first; simpl.
  - split; [left|]. intros x Hx. apply list_elem_of_singleton in Hx as ->.
    apply datetime_gt_irrefl.
  - destruct (IH (if datetime.gt item first then item else first)) as [Hin Hmax].
    set (r := fold_left _ others _) in *.
    split.
    + apply elem_of_cons in Hin as [Hr|Hin]; [|by do 2 right].
      rewrite Hr. destruct (datetime.gt item first); [right; left|left].
    + assert (datetime.gt first r = false /\ datetime.gt item r = false)
        as [Hfirst Hitem].
      { destruct (datetime.gt item first) eqn:Hcmp.
        - split; [|apply Hmax; left].
          destruct (datetime.gt first r) eqn:Hfr; [|done].
          rewrite <- (Hmax item); [|left]. symmetry.
          by apply (datetime_gt_trans item first r).
        - split; [apply Hmax; left|].
          destruct (datetime.gt item r) eqn:Hir; [|done].
          destruct (datetime.gt r first) eqn:Hrf.
          + rewrite <- Hcmp. symmetry. by apply (datetime_gt_trans item r first).
          + assert (first = r) as Heq
              by (apply datetime_gt_total; [apply Hmax; left|exact Hrf]).
            rewrite <- Hcmp, Heq. by symmetry. }
      intros x Hx. apply elem_of_cons in Hx as [->|Hx]; [exact Hfirst|].
      apply elem_of_cons in Hx as [->|Hx]; [exact Hitem|].
      apply Hmax. by right.
Qed.

Lemma max_of_is (now first : datetime.t) (others : list datetime.t) :
  now ∈ first :: others ->
  (forall x, x ∈ first :: others -> datetime.gt x now = false) ->
  datetime.max_of first others = now.
Proof.
  intros Hnow Hle. destruct (max_of_greatest others first) as [Hin Hmax].
  apply datetime_gt_total; [by apply Hle|by apply Hmax].
Qed.

Lemma elem_of_usage_logs (d : Database) (j : Z) (log : NodeUsageResetLogs.t) :
  log ∈ usage_logs d j <->
  log ∈ node_usage_reset_logs d /\ NodeUsageResetLogs.node_id log = j.
Proof. unfold usage_logs. rewrite list_elem_of_filter. tauto. Qed.

(** X11. The last reset that the evaluator uses for a node is the
    creation time of the node when the node has no log row; otherwise it
    is the creation time of one of the node's own log rows, and no log row
    of the node is later than it.  Log rows of other nodes play no part. *)
Theorem last_reset_of_is_latest_log (d : Database) (j : Z) (n : Node.t) :
  (usage_logs d j = [] -> last_reset_of d j n = Node.created_at n)
  /\ (usage_logs d j <> [] ->
      exists log, log ∈ node_usage_reset_logs d
                  /\ NodeUsageResetLogs.node_id log = j
                  /\ last_reset_of d j n = NodeUsageResetLogs.created_at log)
  /\ (forall log, log ∈ node_usage_reset_logs d ->
                  NodeUsageResetLogs.node_id log = j ->
                  datetime.gt (NodeUsageResetLogs.created_at log)
                              (last_reset_of d j n) = false)
  /\ (forall d' : Database,
        usage_logs d' j = usage_logs d j ->
        last_reset_of d' j n = last_reset_of d j n).
Proof.
  split; [|split; [|split]].
  - unfold last_reset_of. by intros ->.
  - intros Hne. unfold last_reset_of.
    destruct (usage_logs d j) as [|log0 logs0] eqn:Hlogs; [done|].
    cbn [fmap list_fmap].
    destruct (max_of_greatest (NodeUsageResetLogs.created_at <$> logs0)
                (NodeUsageResetLogs.created_at log0)) as [Hin _].
    change (datetime.max_of (NodeUsageResetLogs.created_at log0)
              (NodeUsageResetLogs.created_at <$> logs0)
            ∈ NodeUsageResetLogs.created_at <$> (log0 :: logs0)) in Hin.
    apply list_elem_of_fmap in Hin as (log & Heq & Hlog).
    rewrite <- Hlogs in Hlog. apply elem_of_usage_logs in Hlog as [Hlog Hid].
    by exists log.
  - intros log Hlog Hid.
    assert (log ∈ usage_logs d j) as Hin by (by apply elem_of_usage_logs).
    unfold last_reset_of.
    destruct (usage_logs d j) as [|log0 logs0] eqn:Hlogs;
      [by apply elem_of_nil in Hin|].
    cbn [fmap list_fmap].
    destruct (max_of_greatest (NodeUsageResetLogs.created_at <$> logs0)
                (NodeUsageResetLogs.created_at log0)) as [_ Hmax].
    apply Hmax.
    change (NodeUsageResetLogs.created_at log
            ∈ NodeUsageResetLogs.created_at <$> (log0 :: logs0)).
    apply list_elem_of_fmap. by exists log.
  - intros d' Hlogs. by apply last_reset_of_usage_logs.
Qed.

Lemma date_gt_irrefl (d : date.t) : date.gt d d = false.
Proof.
  unfold date.gt. rewrite !Z.ltb_irrefl, !Z.eqb_refl. reflexivity.
Qed.

(** At the instant of the last reset itself no absolute rule fires. *)
Lemma should_reset_at_last_reset (strategy : DataLimitResetStrategy.t)
    (reset_time : Z) (now : datetime.t) :
  should_reset strategy reset_time now now = false.
Proof.
  apply not_true_iff_false.
  destruct strategy; simpl; [discriminate|..].
  - unfold should_reset_day. rewrite date_gt_irrefl.
    rewrite !andb_true_iff, !orb_true_iff, Z.leb_le, Z.ltb_lt.
    intros [? [?|?]]; [discriminate|lia].
  - unfold should_reset_week, date.sub_days. rewrite Z.sub_diag.
    intros H. discriminate H.
  - unfold should_reset_month. bool_to_prop. lia.
  - unfold should_reset_year. bool_to_prop. lia.
Qed.

Lemma last_reset_of_now (d : Database) (j : Z) (n : Node.t) (now : datetime.t) :
  (forall log, log ∈ usage_logs d j ->
               datetime.gt (NodeUsageResetLogs.created_at log) now = false) ->
  (exists log, log ∈ usage_logs d j /\ NodeUsageResetLogs.created_at log = now) ->
  last_reset_of d j n = now.
Proof.
  intros Hle (log & Hlog & Hnow). unfold last_reset_of.
  destruct (usage_logs d j) as [|log0 logs0] eqn:Hlogs;
    [by apply elem_of_nil in Hlog|].
  cbn [fmap list_fmap]. apply max_of_is.
  - change (now ∈ NodeUsageResetLogs.created_at <$> (log0 :: logs0)).
    apply list_elem_of_fmap. by exists log.
  - intros x Hx.
    change (x ∈ NodeUsageResetLogs.created_at <$> (log0 :: logs0)) in Hx.
    apply list_elem_of_fmap in Hx as (log' & -> & Hlog'). by apply Hle.
Qed.

(** A node whose last reset is [now] is not selected at [now]. *)
Lemma not_selected_at_last_reset (now : datetime.t) (db : AsyncSession)
    (j : Z) (n : Node.t) :
  nodes (working db) !! j = Some n ->
  last_reset_of (working db) j n = now ->
  j ∉ get_nodes_to_reset_usage now (fun _ => now) db.
Proof.
  intros Hn Hlast Hin. apply selected_const in Hin as (n' & Hn' & Hwhere & Hkeep).
  assert (n' = n) as -> by congruence.
  destruct Hkeep as [Hrt|Hdue].
  - unfold stmt_where, interval_case in Hwhere.
    rewrite Hrt, last_reset_time_of, Hlast in Hwhere. simpl in Hwhere.
    rewrite DateDiff_same in Hwhere.
    apply andb_true_iff in Hwhere as [_ Hcase].
    destruct (Node.data_limit_reset_strategy n); simpl in Hcase; discriminate.
  - rewrite Hlast, should_reset_at_last_reset in Hdue. discriminate.
Qed.

Lemma usage_logs_reset_in_eq (now : datetime.t) (d : Database) (j : Z)
    (n : Node.t) :
  nodes d !! j = Some n ->
  usage_logs (reset_in now d j) j
  = usage_logs d j
    ++ [NodeUsageResetLogs.make j (Node.uplink n) (Node.downlink n) now].
Proof.
  intros Hn. unfold reset_in. rewrite Hn. unfold usage_logs. simpl.
  rewrite filter_app, filter_cons. simpl. rewrite decide_True by done.
  by rewrite filter_nil.
Qed.

Lemma reset_in_logs_cases (now : datetime.t) (d : Database) (i : Z)
    (log : NodeUsageResetLogs.t) :
  log ∈ node_usage_reset_logs (reset_in now d i) ->
  log ∈ node_usage_reset_logs d \/ NodeUsageResetLogs.created_at log = now.
Proof.
  unfold reset_in. destruct (nodes d !! i); simpl; [|by left].
  rewrite elem_of_app, list_elem_of_singleton. intros [? | ->]; [by left|by right].
Qed.

Lemma foldl_reset_in_logs_cases (now : datetime.t) (l : list Z) :
  forall (d : Database) (log : NodeUsageResetLogs.t),
    log ∈ node_usage_reset_logs (foldl (reset_in now) d l) ->
    log ∈ node_usage_reset_logs d \/ NodeUsageResetLogs.created_at log = now.
Proof.
  induction l as [|i l IH]; intros d log Hlog; simpl in Hlog; [by left|].
  apply IH in Hlog as [Hlog|Hnow]; [|by right].
  by apply reset_in_logs_cases in Hlog.
Qed.

Lemma reset_in_logs_mono (now : datetime.t) (d : Database) (i : Z)
    (log : NodeUsageResetLogs.t) :
  log ∈ node_usage_reset_logs d -> log ∈ node_usage_reset_logs (reset_in now d i).
Proof.
  unfold reset_in. destruct (nodes d !! i); simpl; [|done].
  intros Hlog. apply elem_of_app. by left.
Qed.

Lemma foldl_reset_in_logs_mono (now : datetime.t) (l : list Z) :
  forall (d : Database) (log : NodeUsageResetLogs.t),
    log ∈ node_usage_reset_logs d ->
    log ∈ node_usage_reset_logs (foldl (reset_in now) d l).
Proof.
  induction l as [|i l IH]; intros d log Hlog; simpl; [done|].
  apply IH. by apply reset_in_logs_mono.
Qed.

Lemma foldl_reset_in_logs_new (now : datetime.t) (l : list Z) :
  forall (d : Database) (j : Z),
    j ∈ l -> is_Some (nodes d !! j) ->
    exists log, log ∈ node_usage_reset_logs (foldl (reset_in now) d l)
                /\ NodeUsageResetLogs.node_id log = j
                /\ NodeUsageResetLogs.created_at log = now.
Proof.
  induction l as [|i l IH]; intros d j Hj [n Hn]; [by apply elem_of_nil in Hj|].
  simpl. apply elem_of_cons in Hj as [->|Hj].
  - exists (NodeUsageResetLogs.make i (Node.uplink n) (Node.downlink n) now).
    split; [|done]. apply foldl_reset_in_logs_mono.
    unfold reset_in. rewrite Hn. simpl. apply elem_of_app. right. left.
  - apply IH; [done|]. apply reset_in_is_Some. by eexists.
Qed.

Lemma foldl_reset_in_usage_logs_notin (now : datetime.t) (l : list Z) :
  forall (d : Database) (j : Z),
    j ∉ l -> usage_logs (foldl (reset_in now) d l) j = usage_logs d j.
Proof.
  induction l as [|i l IH]; intros d j Hj; simpl; [done|].
  apply not_elem_of_cons in Hj as [Hne Hj].
  rewrite IH by done. by apply usage_logs_reset_in_ne.
Qed.

(** The loop keeps a sub-list of the primary keys it is given. *)
Lemma filter_nodes_sublist (clock : nat -> datetime.t) (d : Database)
    (rows : list (Z * Node.t)) :
  forall k, filter_nodes clock k d rows `sublist_of` rows.*1.
Proof.
  induction rows as [|[i m] rows IH]; intros k; simpl; [constructor|].
  destruct (Node.reset_time m =? -1); [by apply sublist_skip|].
  destruct (should_reset _ _ _ _); [by apply sublist_skip|by apply sublist_cons].
Qed.

Lemma get_nodes_to_reset_usage_NoDup (sql_now : datetime.t)
    (clock : nat -> datetime.t) (db : AsyncSession) :
  NoDup (get_nodes_to_reset_usage sql_now clock db).
Proof.
  unfold get_nodes_to_reset_usage.
  eapply sublist_NoDup; [|apply filter_nodes_sublist].
  eapply sublist_NoDup; [apply (NoDup_fst_map_to_list (nodes (working db)))|].
  unfold execute_stmt. apply fmap_sublist, sublist_filter.
Qed.

(** After a committed reset at [now] the last reset of the node is [now],
    provided no log row of the node is later. *)
Lemma reset_node_usage_last_reset (now : datetime.t) (db : AsyncSession)
    (db_node : Z) (n : Node.t) :
  nodes (working db) !! db_node = Some n ->
  (forall log, log ∈ node_usage_reset_logs (working db) ->
               NodeUsageResetLogs.node_id log = db_node ->
               datetime.gt (NodeUsageResetLogs.created_at log) now = false) ->
  exists db',
    reset_node_usage true now db_node db = Return db_node db'
    /\ nodes (working db') !! db_node = Some (reset_fields n)
    /\ last_reset_of (working db') db_node (reset_fields n) = now.
Proof.
  intros Hn Hle. rewrite reset_node_usage_reset_in by (by eexists).
  eexists. split; [reflexivity|]. simpl.
  split; [by rewrite reset_in_lookup, decide_True, Hn|].
  apply last_reset_of_now.
  - intros log Hlog. rewrite (usage_logs_reset_in_eq now _ _ n Hn) in Hlog.
    apply elem_of_app in Hlog as [Hlog|Hlog].
    + apply elem_of_usage_logs in Hlog as [Hlog Hid]. by apply Hle.
    + apply list_elem_of_singleton in Hlog as ->. apply datetime_gt_irrefl.
  - eexists. rewrite (usage_logs_reset_in_eq now _ _ n Hn).
    split; [apply elem_of_app; right; left|reflexivity].
Qed.

(** X12. A node that has just been reset is not due at the instant of
    that reset: when no log row of the node is later than [now], after a
    committed [reset_node_usage] at [now] the last reset of the node is
    [now] and the selector, run at [now], does not return the node,
    whatever its strategy and reset time. *)
Theorem just_reset_node_is_not_due (now : datetime.t) (db : AsyncSession)
    (db_node : Z) (n : Node.t) :
  nodes (working db) !! db_node = Some n ->
  (forall log, log ∈ node_usage_reset_logs (working db) ->
               NodeUsageResetLogs.node_id log = db_node ->
               datetime.gt (NodeUsageResetLogs.created_at log) now = false) ->
  exists db' n',
    reset_node_usage true now db_node db = Return db_node db'
    /\ nodes (working db') !! db_node = Some n'
    /\ last_reset_of (working db') db_node n' = now
    /\ db_node ∉ get_nodes_to_reset_usage now (fun _ => now) db'.
Proof.
  intros Hn Hle.
  destruct (reset_node_usage_last_reset now db db_node n Hn Hle)
    as (db' & Hrun & Hrow & Hlast).
  exists db', (reset_fields n). split; [exact Hrun|].
  split; [exact Hrow|]. split; [exact Hlast|].
  by apply (not_selected_at_last_reset now db' db_node (reset_fields n)).
Qed.

Lemma just_reset_node_is_not_due_witness :
  exists db' n',
    reset_node_usage true (utc 2024 1 2 1 0 5) 1 example_fleet = Return 1 db'
    /\ nodes (working db') !! 1 = Some n'
    /\ last_reset_of (working db') 1 n' = utc 2024 1 2 1 0 5
    /\ 1 ∉ get_nodes_to_reset_usage (utc 2024 1 2 1 0 5)
             (fun _ => utc 2024 1 2 1 0 5) db'.
Proof.
  apply (just_reset_node_is_not_due (utc 2024 1 2 1 0 5) example_fleet 1
           (example_node NodeStatus.limited DataLimitResetStrategy.day 3600
              (utc 2024 1 1 0 0 0))).
  - reflexivity.
  - intros log Hlog. by apply elem_of_nil in Hlog.
Defined.

(** X13. One tick of the pipeline: the bulk reset of what the selector
    returns always goes through when the store accepts the commit; no node
    is selected twice, so the log table grows by exactly one row per
    selected node, carrying its counters from before; a node that is not
    selected keeps its row, and in particular every disabled node and
    every no_reset node is left untouched. *)
Theorem tick_resets_exactly_the_selected (sql_now now : datetime.t)
    (clock : nat -> datetime.t) (db : AsyncSession) :
  exists db',
    bulk_reset_node_usage true now (get_nodes_to_reset_usage sql_now clock db) db
    = Return (get_nodes_to_reset_usage sql_now clock db) db'
    /\ NoDup (get_nodes_to_reset_usage sql_now clock db)
    /\ node_usage_reset_logs (committed db')
       = node_usage_reset_logs (working db)
         ++ omap (pre_reset_log now (working db))
                 (get_nodes_to_reset_usage sql_now clock db)
    /\ length (omap (pre_reset_log now (working db))
                    (get_nodes_to_reset_usage sql_now clock db))
       = length (get_nodes_to_reset_usage sql_now clock db)
    /\ (forall j, j ∉ get_nodes_to_reset_usage sql_now clock db ->
          nodes (committed db') !! j = nodes (working db) !! j)
    /\ (forall j n, nodes (working db) !! j = Some n ->
          Node.status n = NodeStatus.disabled
          \/ Node.data_limit_reset_strategy n = DataLimitResetStrategy.no_reset ->
          nodes (committed db') !! j = Some n).
Proof.
  set (selected := get_nodes_to_reset_usage sql_now clock db).
  assert (forall i, i ∈ selected -> is_Some (nodes (working db) !! i)) as Hattached.
  { intros i Hi. apply selected_is_Some in Hi as (n & Hn & _). by eexists. }
  assert (NoDup selected) as Hnodup by apply get_nodes_to_reset_usage_NoDup.
  rewrite (bulk_reset_node_usage_fold now selected db Hattached).
  eexists. split; [reflexivity|]. simpl. split; [exact Hnodup|].
  split; [by apply foldl_reset_in_logs_NoDup|].
  split; [|split].
  - pose proof (foldl_reset_in_logs_length now selected (working db) Hattached)
      as Hlen.
    rewrite (foldl_reset_in_logs_NoDup now selected (working db) Hnodup),
      length_app in Hlen. lia.
  - intros j Hj. by apply foldl_reset_in_lookup_notin.
  - intros j n Hn Hout. rewrite foldl_reset_in_lookup_notin; [exact Hn|].
    intros Hin. apply selected_is_Some in Hin as (n' & Hn' & Hwhere).
    assert (n' = n) as -> by congruence.
    unfold stmt_where in Hwhere.
    apply andb_true_iff in Hwhere as [Hwhere _].
    apply andb_true_iff in Hwhere as [Hstatus Hstrategy].
    apply bool_decide_eq_true_1 in Hstatus, Hstrategy.
    destruct Hout as [Hdis|Hno]; [|done].
    rewrite Hdis, !elem_of_cons, elem_of_nil in Hstatus.
    destruct Hstatus as [?|[?|[?|[?|[]]]]]; discriminate.
Qed.

(** X14. A second tick at the same instant finds nothing to do: when no
    log row is later than [now], after the bulk reset at [now] of the nodes
    selected at [now], the selector run again at [now] returns the empty
    list. *)
Theorem second_tick_selects_nothing (now : datetime.t) (db : AsyncSession) :
  (forall log, log ∈ node_usage_reset_logs (working db) ->
               datetime.gt (NodeUsageResetLogs.created_at log) now = false) ->
  exists db',
    bulk_reset_node_usage true now
      (get_nodes_to_reset_usage now (fun _ => now) db) db
    = Return (get_nodes_to_reset_usage now (fun _ => now) db) db'
    /\ get_nodes_to_reset_usage now (fun _ => now) db' = [].
Proof.
  intros Hle.
  set (selected := get_nodes_to_reset_usage now (fun _ => now) db).
  assert (forall i, i ∈ selected -> is_Some (nodes (working db) !! i)) as Hattached.
  { intros i Hi. apply selected_is_Some in Hi as (n & Hn & _). by eexists. }
  rewrite (bulk_reset_node_usage_fold now selected db Hattached).
  eexists. split; [reflexivity|].
  set (after := foldl (reset_in now) (working db) selected).
  apply elem_of_nil_inv. intros j Hin.
  destruct (decide (j ∈ selected)) as [Hsel|Hnot].
  - destruct (Hattached j Hsel) as [n Hn].
    revert Hin.
    apply (not_selected_at_last_reset now _ j (reset_fields n)); simpl.
    + fold after. subst after. by rewrite foldl_reset_in_lookup_in, Hn.
    + fold after. apply last_reset_of_now.
      * intros log Hlog. apply elem_of_usage_logs in Hlog as [Hlog _].
        apply foldl_reset_in_logs_cases in Hlog as [Hold| ->];
          [by apply Hle|apply datetime_gt_irrefl].
      * destruct (foldl_reset_in_logs_new now selected (working db) j Hsel)
          as (log & Hlog & Hid & Hnow); [by eexists|].
        exists log. split; [by apply elem_of_usage_logs|exact Hnow].
  - apply Hnot. subst selected.
    apply (selected_same_row_same_logs now now db
             {| committed := after; working := after |} j); [| |exact Hin]; simpl.
    + subst after. by rewrite foldl_reset_in_lookup_notin.
    + subst after. by rewrite foldl_reset_in_usage_logs_notin.
Qed.

Lemma second_tick_selects_nothing_witness :
  exists db',
    bulk_reset_node_usage true (utc 2024 1 11 2 0 0)
      (get_nodes_to_reset_usage (utc 2024 1 11 2 0 0)
         (fun _ => utc 2024 1 11 2 0 0) example_fleet) example_fleet
    = Return (get_nodes_to_reset_usage (utc 2024 1 11 2 0 0)
                (fun _ => utc 2024 1 11 2 0 0) example_fleet) db'
    /\ get_nodes_to_reset_usage (utc 2024 1 11 2 0 0)
         (fun _ => utc 2024 1 11 2 0 0) db' = [].
Proof.
  apply (second_tick_selects_nothing (utc 2024 1 11 2 0 0) example_fleet).
  intros log Hlog. by apply elem_of_nil in Hlog.
Defined.

(** X16. A week-strategy node in absolute mode that the pipeline resets
    when it is due is not due again during the next seven calendar days:
    if the node is selected at [now] and reset at [now], no log row of it
    being later than [now], then it is not selected at any instant whose
    date is at most 7 days after the date of [now].  The next weekly reset
    comes 8 calendar days later at the earliest. *)
Theorem week_reset_not_due_for_seven_days (sql_now now sql_later later : datetime.t)
    (db : AsyncSession) (j : Z) (n : Node.t) :
  nodes (working db) !! j = Some n ->
  Node.data_limit_reset_strategy n = DataLimitResetStrategy.week ->
  Node.reset_time n <> -1 ->
  (forall log, log ∈ node_usage_reset_logs (working db) ->
               NodeUsageResetLogs.node_id log = j ->
               datetime.gt (NodeUsageResetLogs.created_at log) now = false) ->
  j ∈ get_nodes_to_reset_usage sql_now (fun _ => now) db ->
  date.sub_days (datetime.date later) (datetime.date now) <= 7 ->
  exists db',
    reset_node_usage true now j db = Return j db'
    /\ j ∉ get_nodes_to_reset_usage sql_later (fun _ => later) db'.
Proof.
  intros Hn Hweek Hrt Hle Hdue Hsoon.
  destruct (reset_node_usage_last_reset now db j n Hn Hle)
    as (db' & Hrun & Hn' & Hlast).
  exists db'. split; [exact Hrun|].
  destruct (reset_fields_frame n) as (_ & _ & _ & _ & _ & _ & _ & Hs & Hr & _).
  apply selected_const in Hdue as (n0 & Hn0 & _ & [Hcontra|Hdue]);
    assert (n0 = n) as -> by congruence; [done|].
  rewrite Hweek in Hdue. simpl in Hdue.
  intros Hin. apply selected_const in Hin as (n1 & Hn1 & _ & [Hcontra|Hagain]);
    assert (n1 = reset_fields n) as -> by congruence;
    [rewrite Hr in Hcontra; done|].
  rewrite Hlast, Hs, Hr, Hweek in Hagain. simpl in Hagain.
  unfold should_reset_week in Hdue, Hagain.
  revert Hdue Hagain. bool_to_prop. lia.
Qed.

Lemma week_reset_not_due_for_seven_days_witness :
  exists db',
    reset_node_usage true (utc 2024 1 11 2 0 0) 2 example_fleet = Return 2 db'
    /\ 2 ∉ get_nodes_to_reset_usage (utc 2024 1 18 23 0 0)
             (fun _ => utc 2024 1 18 23 0 0) db'.
Proof.
  apply (week_reset_not_due_for_seven_days (utc 2024 1 11 2 0 0)
           (utc 2024 1 11 2 0 0) (utc 2024 1 18 23 0 0) (utc 2024 1 18 23 0 0)
           example_fleet 2
           (example_node NodeStatus.connected DataLimitResetStrategy.week 262800
              (utc 2024 1 1 0 0 0))).
  - reflexivity.
  - reflexivity.
  - discriminate.
  - intros log Hlog. by apply elem_of_nil in Hlog.
  - vm_compute. first [ left | right; left ].
  - vm_compute. discriminate.
Defined.

(** X17. The two clocks do not mix: whether an interval-mode node is
    selected does not depend on the readings of the process clock, and
    whether an absolute-mode node is selected, the process clock standing
    at [now], does not depend on the store's clock. *)
Theorem selection_reads_one_clock (sql_now sql_now' now : datetime.t)
    (clock clock' : nat -> datetime.t) (db : AsyncSession) (j : Z) (n : Node.t) :
  nodes (working db) !! j = Some n ->
  (Node.reset_time n = -1 ->
   (j ∈ get_nodes_to_reset_usage sql_now clock db <->
    j ∈ get_nodes_to_reset_usage sql_now clock' db))
  /\ (Node.reset_time n <> -1 ->
      (j ∈ get_nodes_to_reset_usage sql_now (fun _ => now) db <->
       j ∈ get_nodes_to_reset_usage sql_now' (fun _ => now) db)).
Proof.
  intros Hn. split.
  - intros Hrt. by rewrite !(selected_interval _ _ db j n Hn Hrt).
  - intros Hrt. rewrite !selected_const.
    assert (stmt_where sql_now (working db) j n
            = stmt_where sql_now' (working db) j n) as Hwhere.
    { unfold stmt_where, interval_case. apply Z.eqb_neq in Hrt. by rewrite Hrt. }
    split; intros (n' & Hn' & Hw & Hkeep);
      assert (n' = n) as -> by congruence; exists n;
      (split; [exact Hn|split; [congruence|exact Hkeep]]).
Qed.

Lemma selection_reads_one_clock_witness :
  ((-1) = -1 ->
   (1 ∈ get_nodes_to_reset_usage (utc 2024 1 3 0 0 0) (fun _ => utc 2024 1 3 0 0 5)
          (example_single DataLimitResetStrategy.day (-1) (utc 2024 1 1 23 0 0)) <->
    1 ∈ get_nodes_to_reset_usage (utc 2024 1 3 0 0 0) (fun _ => utc 1999 1 1 0 0 0)
          (example_single DataLimitResetStrategy.day (-1) (utc 2024 1 1 23 0 0))))
  /\ ((-1) <> -1 ->
      (1 ∈ get_nodes_to_reset_usage (utc 2024 1 3 0 0 0) (fun _ => utc 2024 1 3 0 0 5)
             (example_single DataLimitResetStrategy.day (-1) (utc 2024 1 1 23 0 0)) <->
       1 ∈ get_nodes_to_reset_usage (utc 1999 1 1 0 0 0) (fun _ => utc 2024 1 3 0 0 5)
             (example_single DataLimitResetStrategy.day (-1) (utc 2024 1 1 23 0 0)))).
Proof.
  apply (selection_reads_one_clock (utc 2024 1 3 0 0 0) (utc 1999 1 1 0 0 0)
           (utc 2024 1 3 0 0 5) (fun _ => utc 2024 1 3 0 0 5)
           (fun _ => utc 1999 1 1 0 0 0)
           (example_single DataLimitResetStrategy.day (-1) (utc 2024 1 1 23 0 0))
           1
           (example_node NodeStatus.connected DataLimitResetStrategy.day (-1)
              (utc 2024 1 1 23 0 0))).
  reflexivity.
Defined.

(** * Beyond the claims: modification and lookup *)

Lemma getattr_at {A : Type} (c : Database) (base : gmap Z Node.t)
    (logs : list NodeUsageResetLogs.t) (db_node : Z) (n : Node.t)
    (field : Node.t -> A) :
  getattr db_node field
    {| committed := c;
       working := {| nodes := <[db_node := n]> base;
                     node_usage_reset_logs := logs |} |}
  = Return (field n)
      {| committed := c;
         working := {| nodes := <[db_node := n]> base;
                       node_usage_reset_logs := logs |} |}.
Proof. unfold getattr. simpl. by rewrite lookup_insert_eq. Qed.

Lemma setattr_at (c : Database) (base : gmap Z Node.t)
    (logs : list NodeUsageResetLogs.t) (db_node : Z) (n : Node.t)
    (assign : Node.t -> Node.t) :
  setattr db_node assign
    {| committed := c;
       working := {| nodes := <[db_node := n]> base;
                     node_usage_reset_logs := logs |} |}
  = Return tt
      {| committed := c;
         working := {| nodes := <[db_node := assign n]> base;
                       node_usage_reset_logs := logs |} |}.
Proof. unfold setattr. simpl. by rewrite lookup_insert_eq, insert_insert_eq. Qed.

Lemma setattr_dumped_at {A : Type} (c : Database) (base : gmap Z Node.t)
    (logs : list NodeUsageResetLogs.t) (db_node : Z) (n : Node.t)
    (value : option A) (assign : A -> Node.t -> Node.t) :
  setattr_dumped db_node value assign
    {| committed := c;
       working := {| nodes := <[db_node := n]> base;
                     node_usage_reset_logs := logs |} |}
  = Return tt
      {| committed := c;
         working := {| nodes := <[db_node := dumped value assign n]> base;
                       node_usage_reset_logs := logs |} |}.
Proof.
  destruct value as [v|]; simpl; [apply setattr_at|reflexivity].
Qed.

Lemma modify_node_run (used_traffic : Node.t -> Z) (store_accepts : bool)
    (db_node : Z) (modify : NodeModify) (db : AsyncSession) (n : Node.t) :
  nodes (working db) !! db_node = Some n ->
  modify_node used_traffic store_accepts db_node modify db
  = let after :=
      {| nodes := <[db_node := modify_fields used_traffic modify n]>
                    (nodes (working db));
         node_usage_reset_logs := node_usage_reset_logs (working db) |} in
    if store_accepts
    then Return db_node {| committed := after; working := after |}
    else Raise OperationalError {| committed := committed db; working := after |}.
Proof.
  intros Hn. destruct db as [c [rows logs]]. simpl in Hn. simpl.
  rewrite <- (insert_id rows db_node n Hn) at 1.
  unfold modify_node, modify_fields, assigned_fields.
  repeat (rewrite io_bind_run;
          first [ rewrite setattr_dumped_at | rewrite setattr_at
                | rewrite getattr_at ]).
  cbv zeta.
  set (m := set_node_version None (set_message None (set_xray_version None _))).
  rewrite io_bind_run.
  destruct (bool_decide (Node.status m = NodeStatus.limited)
            && (used_traffic m <? Node.data_limit m)).
  - rewrite setattr_at, io_bind_run. unfold commit at 1.
    destruct store_accepts; [|reflexivity].
    rewrite io_bind_run. unfold refresh at 1. simpl.
    by rewrite lookup_insert_eq.
  - destruct (negb (bool_decide (Node.status m
                                 ∈ [NodeStatus.disabled; NodeStatus.limited]))).
    + rewrite setattr_at, io_bind_run. unfold commit at 1.
      destruct store_accepts; [|reflexivity].
      rewrite io_bind_run. unfold refresh at 1. simpl.
      by rewrite lookup_insert_eq.
    + unfold mret at 1, io_ret at 1. rewrite io_bind_run. unfold commit at 1.
      destruct store_accepts; [|reflexivity].
      rewrite io_bind_run. unfold refresh at 1. simpl.
      by rewrite lookup_insert_eq.
Qed.

Lemma assigned_fields_spec (modify : NodeModify) (n : Node.t) :
  let m := assigned_fields modify n in
  Node.name m = default (Node.name n) (nm_name modify)
  /\ Node.address m = default (Node.address n) (nm_address modify)
  /\ Node.port m = default (Node.port n) (nm_port modify)
  /\ Node.status m = default (Node.status n) (nm_status modify)
  /\ Node.data_limit m = default (Node.data_limit n) (nm_data_limit modify)
  /\ Node.data_limit_reset_strategy m
     = default (Node.data_limit_reset_strategy n)
               (nm_data_limit_reset_strategy modify)
  /\ Node.reset_time m = default (Node.reset_time n) (nm_reset_time modify)
  /\ Node.message m = None /\ Node.xray_version m = None
  /\ Node.node_version m = None
  /\ Node.uplink m = Node.uplink n /\ Node.downlink m = Node.downlink n
  /\ Node.created_at m = Node.created_at n.
Proof.
  destruct modify as [[?|] [?|] [?|] [?|] [?|] [?|] [?|]]; simpl;
    by repeat split.
Qed.

(** X18. [modify_node] on a node of the session, the commit going
    through: the fields that the modification carries are assigned and the
    others kept; message and both versions are cleared; the counters and
    the creation time are kept.  The status ends as connecting, disabled
    or limited, never connected or error: a node that is neither disabled
    nor limited after the assignments is sent back to connecting, a
    disabled node stays disabled, and a limited node stays limited only if
    its data limit does not exceed its used traffic. *)
Theorem modify_node_status_after (used_traffic : Node.t -> Z) (db_node : Z)
    (modify : NodeModify) (db : AsyncSession) (n : Node.t) :
  nodes (working db) !! db_node = Some n ->
  exists db' n',
    modify_node used_traffic true db_node modify db = Return db_node db'
    /\ committed db' = working db'
    /\ nodes (working db') !! db_node = Some n'
    /\ Node.name n' = default (Node.name n) (nm_name modify)
    /\ Node.address n' = default (Node.address n) (nm_address modify)
    /\ Node.port n' = default (Node.port n) (nm_port modify)
    /\ Node.data_limit n' = default (Node.data_limit n) (nm_data_limit modify)
    /\ Node.data_limit_reset_strategy n'
       = default (Node.data_limit_reset_strategy n)
                 (nm_data_limit_reset_strategy modify)
    /\ Node.reset_time n' = default (Node.reset_time n) (nm_reset_time modify)
    /\ Node.message n' = None /\ Node.xray_version n' = None
    /\ Node.node_version n' = None
    /\ Node.uplink n' = Node.uplink n /\ Node.downlink n' = Node.downlink n
    /\ Node.created_at n' = Node.created_at n
    /\ Node.status n' ∈ [NodeStatus.connecting; NodeStatus.disabled;
                         NodeStatus.limited]
    /\ (default (Node.status n) (nm_status modify) = NodeStatus.disabled ->
        Node.status n' = NodeStatus.disabled)
    /\ (default (Node.status n) (nm_status modify)
        ∈ [NodeStatus.connecting; NodeStatus.connected; NodeStatus.error] ->
        Node.status n' = NodeStatus.connecting)
    /\ (Node.status n' = NodeStatus.limited ->
        default (Node.status n) (nm_status modify) = NodeStatus.limited
        /\ Node.data_limit n' <= used_traffic n')
    /\ (forall j, j <> db_node ->
          nodes (working db') !! j = nodes (working db) !! j)
    /\ node_usage_reset_logs (working db') = node_usage_reset_logs (working db).
Proof.
  intros Hn. rewrite (modify_node_run used_traffic true db_node modify db n Hn).
  cbv zeta. eexists _, (modify_fields used_traffic modify n).
  split; [reflexivity|]. simpl. split; [reflexivity|].
  rewrite lookup_insert_eq. split; [reflexivity|].
  destruct (assigned_fields_spec modify n)
    as (Hname & Haddr & Hport & Hstatus & Hlimit & Hstrategy & Hrt
        & Hmsg & Hxray & Hver & Hup & Hdown & Hcreated).
  unfold modify_fields. cbv zeta.
  remember (assigned_fields modify n) as m eqn:Heqm. clear Heqm.
  rewrite <- Hname, <- Haddr, <- Hport, <- Hstatus, <- Hlimit, <- Hstrategy,
    <- Hrt, <- Hup, <- Hdown, <- Hcreated.
  clear Hname Haddr Hport Hstatus Hlimit Hstrategy Hrt Hup Hdown Hcreated.
  assert (forall j, j <> db_node ->
            forall x, <[db_node := x]> (nodes (working db)) !! j
                      = nodes (working db) !! j) as Hother
    by (intros j Hj x; by rewrite lookup_insert_ne).
  destruct m as [mname maddr mport mstatus mmsg mxray mver mup mdown mlimit
                 mstrategy mrt mcreated].
  simpl in Hmsg, Hxray, Hver. subst mmsg mxray mver.
  destruct mstatus; simpl;
    try (destruct (used_traffic _ <? mlimit) eqn:Hused; simpl);
    repeat split; try reflexivity; try discriminate;
    try (intros j Hj; apply Hother; exact Hj);
    try (rewrite !elem_of_cons; tauto);
    try (rewrite !elem_of_cons, elem_of_nil;
         intros [?|[?|[?|[]]]]; discriminate);
    try (apply Z.ltb_ge in Hused; exact Hused).
Qed.

Lemma modify_node_status_after_witness :
  exists db' n',
    modify_node (fun n => Node.uplink n + Node.downlink n) true 1
      (Build_NodeModify None None None None (Some 5000) None None) example_fleet
    = Return 1 db'
    /\ committed db' = working db'
    /\ nodes (working db') !! 1 = Some n'
    /\ Node.name n' = "node"%string
    /\ Node.address n' = "node.example.com"%string
    /\ Node.port n' = 62050
    /\ Node.data_limit n' = 5000
    /\ Node.data_limit_reset_strategy n' = DataLimitResetStrategy.day
    /\ Node.reset_time n' = 3600
    /\ Node.message n' = None /\ Node.xray_version n' = None
    /\ Node.node_version n' = None
    /\ Node.uplink n' = 1000 /\ Node.downlink n' = 2000
    /\ Node.created_at n' = utc 2024 1 1 0 0 0
    /\ Node.status n' ∈ [NodeStatus.connecting; NodeStatus.disabled;
                         NodeStatus.limited]
    /\ (NodeStatus.limited = NodeStatus.disabled ->
        Node.status n' = NodeStatus.disabled)
    /\ (NodeStatus.limited
        ∈ [NodeStatus.connecting; NodeStatus.connected; NodeStatus.error] ->
        Node.status n' = NodeStatus.connecting)
    /\ (Node.status n' = NodeStatus.limited ->
        NodeStatus.limited = NodeStatus.limited
        /\ Node.data_limit n' <= Node.uplink n' + Node.downlink n')
    /\ (forall j, j <> 1 ->
          nodes (working db') !! j = nodes (working example_fleet) !! j)
    /\ node_usage_reset_logs (working db') = [].
Proof.
  apply (modify_node_status_after (fun n => Node.uplink n + Node.downlink n) 1
           (Build_NodeModify None None None None (Some 5000) None None)
           example_fleet
           (example_node NodeStatus.limited DataLimitResetStrategy.day 3600
              (utc 2024 1 1 0 0 0))).
  reflexivity.
Defined.

Lemma filter_key_map_to_list (m : gmap Z Node.t) (node_id : Z) :
  filter (fun row : Z * Node.t => row.1 = node_id) (map_to_list m)
  = match m !! node_id with
    | Some n => [(node_id, n)]
    | None => []
    end.
Proof.
  destruct (m !! node_id) as [n|] eqn:Hn.
  - apply Permutation_singleton_r.
    rewrite <- (map_to_list_delete m node_id n Hn).
    rewrite filter_cons, decide_True by done.
    assert (filter (fun row : Z * Node.t => row.1 = node_id)
                   (map_to_list (delete node_id m)) = []) as ->; [|done].
    apply elem_of_nil_inv. intros [i x] Hin.
    apply list_elem_of_filter in Hin as [Hkey Hin]. simpl in Hkey. subst i.
    apply elem_of_map_to_list in Hin. by rewrite lookup_delete_eq in Hin.
  - apply elem_of_nil_inv. intros [i x] Hin.
    apply list_elem_of_filter in Hin as [Hkey Hin]. simpl in Hkey. subst i.
    apply elem_of_map_to_list in Hin. congruence.
Qed.

(** X19. [get_node_by_id] never raises: it returns the node exactly when
    the id has a row and [None] otherwise.  So it finds a node after its
    reset and finds nothing after its removal. *)
Theorem get_node_by_id_is_lookup (node_id : Z) (now : datetime.t)
    (db : AsyncSession) :
  get_node_by_id node_id db
  = match nodes (working db) !! node_id with
    | Some _ => One node_id
    | None => NoResult
    end
  /\ (forall db', remove_node true node_id db = Return tt db' ->
                  get_node_by_id node_id db' = NoResult)
  /\ (forall db', reset_node_usage true now node_id db = Return node_id db' ->
                  get_node_by_id node_id db' = One node_id).
Proof.
  assert (forall s : AsyncSession,
            get_node_by_id node_id s
            = match nodes (working s) !! node_id with
              | Some _ => One node_id
              | None => NoResult
              end)
    as Hlookup.
  { intros s. unfold get_node_by_id. rewrite filter_key_map_to_list.
    by destruct (nodes (working s) !! node_id). }
  split; [apply Hlookup|]. split.
  - intros db' Hrun. rewrite remove_node_run in Hrun. cbv zeta in Hrun.
    inversion Hrun; subst db'. rewrite Hlookup. simpl.
    by rewrite lookup_delete_eq.
  - intros db' Hrun. rewrite Hlookup.
    destruct (nodes (working db) !! node_id) as [n|] eqn:Hn.
    + rewrite (reset_node_usage_run true now node_id db n Hn) in Hrun.
      cbv zeta in Hrun. inversion Hrun; subst db'. simpl.
      by rewrite lookup_insert_eq.
    + unfold reset_node_usage in Hrun. rewrite io_bind_run in Hrun.
      unfold getattr in Hrun. rewrite Hn in Hrun. discriminate.
Qed.

(** X20. [get_node] by name returns a node only if that node's name is
    the one asked for; it returns [None] exactly when no node has the
    name; and it raises, instead of choosing, exactly when two different
    nodes have it. *)
Theorem get_node_by_name (name : string) (db : AsyncSession) :
  (forall node_id,
     get_node name db = One node_id ->
     exists n, nodes (working db) !! node_id = Some n /\ Node.name n = name)
  /\ (get_node name db = NoResult <->
      forall node_id n, nodes (working db) !! node_id = Some n ->
                        Node.name n <> name)
  /\ (get_node name db = MultipleResultsFound <->
      exists i j n m,
        i <> j
        /\ nodes (working db) !! i = Some n /\ Node.name n = name
        /\ nodes (working db) !! j = Some m /\ Node.name m = name).
Proof.
  unfold get_node.
  set (found := filter (fun row : Z * Node.t => Node.name row.2 = name)
                       (map_to_list (nodes (working db)))).
  assert (forall i x, (i, x) ∈ found <->
                      nodes (working db) !! i = Some x /\ Node.name x = name)
    as Hfound.
  { intros i x. subst found. rewrite list_elem_of_filter, elem_of_map_to_list.
    simpl. tauto. }
  assert (NoDup found.*1) as Hnodup.
  { eapply sublist_NoDup; [apply (NoDup_fst_map_to_list (nodes (working db)))|].
    subst found. apply fmap_sublist, sublist_filter. }
  split; [|split].
  - intros node_id Hone.
    destruct found as [|[i x] [|? ?]] eqn:Hf; simpl in Hone; try discriminate.
    inversion Hone; subst i. exists x. apply Hfound. left.
  - split.
    + intros Hnone node_id n Hn Hname.
      assert ((node_id, n) ∈ found) as Hin by (by apply Hfound).
      destruct found as [|? [|? ?]]; simpl in Hnone; try discriminate.
      by apply elem_of_nil in Hin.
    + intros Hno. assert (found = []) as ->; [|done].
      apply elem_of_nil_inv. intros [i x] Hin. apply Hfound in Hin as [Hn Hname].
      by apply (Hno i x).
  - split.
    + intros Hmany.
      destruct found as [|[i x] [|[j y] rest]] eqn:Hf; simpl in Hmany;
        try discriminate.
      exists i, j, x, y.
      assert ((i, x) ∈ (i, x) :: (j, y) :: rest) as Hi by left.
      assert ((j, y) ∈ (i, x) :: (j, y) :: rest) as Hj by (right; left).
      apply Hfound in Hi as [? ?]. apply Hfound in Hj as [? ?].
      split; [|done]. simpl in Hnodup. apply NoDup_cons in Hnodup as [Hnotin _].
      intros ->. apply Hnotin. left.
    + intros (i & j & n & m & Hne & Hi & Hni & Hj & Hmj).
      assert ((i, n) ∈ found) as Hin1 by (by apply Hfound).
      assert ((j, m) ∈ found) as Hin2 by (by apply Hfound).
      destruct found as [|[a x] [|? ?]]; [by apply elem_of_nil in Hin1| |done].
      apply list_elem_of_singleton in Hin1, Hin2. congruence.
Qed.

(** * Beyond the claims: the validators of [models/node.py] *)

(** X21. [validate_port] accepts exactly 0 and the ports 1 to 65535, and
    hands an accepted value back unchanged; every negative port and every
    port above 65535 is refused.  Port 0 passes because a falsy value
    returns before the range test. *)
Theorem validate_port_accepts (v : Z) :
  (validate_port v = Valid v <-> v = 0 \/ 1 <= v <= 65535)
  /\ ((exists message, validate_port v = Invalid message) <-> v < 0 \/ 65535 < v)
  /\ (forall v', validate_port v = Valid v' -> v' = v).
Proof.
  unfold validate_port.
  destruct (Z.eqb_spec v 0) as [->|Hv].
  - split; [|split].
    + split; [by left|done].
    + split; [intros [? ?]; discriminate|lia].
    + intros v' Hv'. congruence.
  - destruct (Z.leb_spec 1 v), (Z.leb_spec v 65535); simpl;
      (split; [|split];
       [ split; [intros ?; first [discriminate|lia] | intros ?; first [reflexivity|lia]]
       | split; [intros [? ?]; first [discriminate|lia]
                | intros ?; first [by eexists|lia]]
       | intros v' Hv'; congruence ]).
Qed.

(** X22. On a [NodeModify] the inherited validator agrees with the one of
    [NodeCreate] whenever a reset time is given; when a strategy other
    than no_reset is given without a reset time, it raises a [TypeError]
    instead of accepting or rejecting; without a strategy, or with
    no_reset, it accepts whatever the reset time. *)
Theorem validate_reset_time_on_modify (self : NodeModify) :
  (forall reset_time,
     nm_reset_time self = Some reset_time ->
     match validate_reset_time_for_strategy
             {| nc_data_limit_reset_strategy := nm_data_limit_reset_strategy self;
                nc_reset_time := reset_time |} with
     | Accepted _ => validate_reset_time_for_strategy_modify self = ModifyAccepted
     | ValueError max_value strategy got =>
         validate_reset_time_for_strategy_modify self
         = ModifyValueError max_value strategy got
     end)
  /\ (validate_reset_time_for_strategy_modify self = ModifyTypeError <->
      nm_reset_time self = None
      /\ exists strategy,
           nm_data_limit_reset_strategy self = Some strategy
           /\ strategy <> DataLimitResetStrategy.no_reset)
  /\ (nm_data_limit_reset_strategy self = None
      \/ nm_data_limit_reset_strategy self = Some DataLimitResetStrategy.no_reset ->
      validate_reset_time_for_strategy_modify self = ModifyAccepted).
Proof.
  unfold validate_reset_time_for_strategy_modify, validate_reset_time_for_strategy,
    max_values, SECONDS_IN_DAY, SECONDS_IN_WEEK, SECONDS_IN_MONTH, SECONDS_IN_YEAR.
  destruct self as [? ? ? ? ? [strategy|] [rt|]]; simpl.
  - split; [|split].
    + intros reset_time Heq. inversion Heq; subst rt.
      destruct strategy; simpl;
        destruct (reset_time =? -1); simpl; try reflexivity;
        match goal with
        | |- context [?m <=? reset_time] => destruct (m <=? reset_time)
        end; reflexivity.
    + split.
      * destruct strategy; simpl; destruct (rt =? -1); simpl;
          try discriminate;
          match goal with
          | |- context [?m <=? rt] => destruct (m <=? rt)
          end; discriminate.
      * intros [Hnone _]. discriminate.
    + intros [Hnone|Hno]; [discriminate|]. inversion Hno. reflexivity.
  - split; [|split].
    + intros reset_time Heq. discriminate.
    + split.
      * intros Hte. split; [reflexivity|]. exists strategy. split; [reflexivity|].
        intros ->. discriminate.
      * intros [_ (s & Hs & Hne)]. inversion Hs; subst s.
        destruct strategy; simpl; try reflexivity. by destruct Hne.
    + intros [Hnone|Hno]; [discriminate|]. inversion Hno. reflexivity.
  - split; [|split].
    + intros reset_time Heq. inversion Heq. reflexivity.
    + split; [discriminate|]. intros [Hnone _]. discriminate.
    + reflexivity.
  - split; [|split].
    + intros reset_time Heq. discriminate.
    + split; [discriminate|]. intros [_ (s & Hs & _)]. discriminate.
    + reflexivity.
Qed.

(** * Beyond the claims: the list of links of [StandardLinks] *)

Section StandardLinksFacts.

Variables SubscriptionInboundData Settings : Type.
Variable protocol : SubscriptionInboundData -> string.
Variables build_vmess build_vless build_trojan build_shadowsocks :
  string -> string -> SubscriptionInboundData -> Settings -> string.

Lemma protocol_handlers_lookup (p : string) :
  StandardLinks.protocol_handlers SubscriptionInboundData Settings
    build_vmess build_vless build_trojan build_shadowsocks !! p
  = if decide ("vmess"%string = p) then Some build_vmess
    else if decide ("vless"%string = p) then Some build_vless
    else if decide ("trojan"%string = p) then Some build_trojan
    else if decide ("shadowsocks"%string = p) then Some build_shadowsocks
    else None.
Proof.
  unfold StandardLinks.protocol_handlers. simpl.
  rewrite !lookup_insert, lookup_empty.
  repeat case_decide; reflexivity.
Qed.

(** X23. [add] never disturbs the links already there: the result is the
    old list, or the old list followed by one new link.  With a protocol
    other than vmess, vless, trojan and shadowsocks nothing is added; each
    of the four names calls its own builder, and the builder's link is
    appended unless it is empty. *)
Theorem add_appends_at_most_one_link (remark address : string)
    (inbound : SubscriptionInboundData) (settings : Settings)
    (links : list string) :
  let add :=
    StandardLinks.add SubscriptionInboundData Settings protocol
      build_vmess build_vless build_trojan build_shadowsocks
      remark address inbound settings in
  let appended (link : string) :=
    if bool_decide (link <> EmptyString) then links ++ [link] else links in
  (add links = links \/ exists link, link <> EmptyString /\ add links = links ++ [link])
  /\ (protocol inbound <> "vmess"%string -> protocol inbound <> "vless"%string ->
      protocol inbound <> "trojan"%string ->
      protocol inbound <> "shadowsocks"%string ->
      add links = links)
  /\ (protocol inbound = "vmess"%string ->
      add links = appended (build_vmess remark address inbound settings))
  /\ (protocol inbound = "vless"%string ->
      add links = appended (build_vless remark address inbound settings))
  /\ (protocol inbound = "trojan"%string ->
      add links = appended (build_trojan remark address inbound settings))
  /\ (protocol inbound = "shadowsocks"%string ->
      add links = appended (build_shadowsocks remark address inbound settings)).
Proof.
  cbv zeta. unfold StandardLinks.add, StandardLinks.add_link.
  rewrite protocol_handlers_lookup.
  split; [|split; [|split; [|split; [|split]]]].
  - repeat case_decide; try (by left);
      case_bool_decide; try (by left); right; by eexists.
  - intros H1 H2 H3 H4. by rewrite !decide_False.
  - intros ->. reflexivity.
  - intros ->. reflexivity.
  - intros ->. reflexivity.
  - intros ->. reflexivity.
Qed.

(** X24. [render] changes the stored list, so it is not repeatable.  With
    a non-empty EXTERNAL_CONFIG every call appends it once more: a second
    plain call renders it twice, and a second reversed call renders it at
    both ends around the links in their original order.  With an empty
    EXTERNAL_CONFIG a plain call leaves the list alone, while two reversed
    calls flip it twice, so the second one returns the text of a plain
    call. *)
Theorem render_changes_the_stored_links (EXTERNAL_CONFIG : string)
    (links : list string) :
  (EXTERNAL_CONFIG <> EmptyString ->
   (StandardLinks.render EXTERNAL_CONFIG false links).2
   = links ++ [EXTERNAL_CONFIG]
   /\ StandardLinks.render EXTERNAL_CONFIG false
        (StandardLinks.render EXTERNAL_CONFIG false links).2
      = (String.concat StandardLinks.line_feed
           (links ++ [EXTERNAL_CONFIG; EXTERNAL_CONFIG]),
         links ++ [EXTERNAL_CONFIG; EXTERNAL_CONFIG])
   /\ (StandardLinks.render EXTERNAL_CONFIG true links).2
      = EXTERNAL_CONFIG :: rev links
   /\ (StandardLinks.render EXTERNAL_CONFIG true
         (StandardLinks.render EXTERNAL_CONFIG true links).2).2
      = EXTERNAL_CONFIG :: links ++ [EXTERNAL_CONFIG])
  /\ (EXTERNAL_CONFIG = EmptyString ->
      StandardLinks.render EXTERNAL_CONFIG false links
      = (String.concat StandardLinks.line_feed links, links)
      /\ (StandardLinks.render EXTERNAL_CONFIG true links).2 = rev links
      /\ StandardLinks.render EXTERNAL_CONFIG true
           (StandardLinks.render EXTERNAL_CONFIG true links).2
         = StandardLinks.render EXTERNAL_CONFIG false links).
Proof.
  unfold StandardLinks.render. split.
  - intros Hext. rewrite !bool_decide_eq_true_2 by done. simpl.
    split; [reflexivity|]. rewrite <- app_assoc. simpl.
    split; [reflexivity|]. rewrite rev_app_distr. simpl.
    split; [reflexivity|]. rewrite rev_app_distr. simpl.
    by rewrite rev_involutive.
  - intros ->. simpl. split; [reflexivity|]. split; [reflexivity|].
    by rewrite rev_involutive.
Qed.

End StandardLinksFacts.

(** * Beyond the claims: the validator and the evaluator together *)

(** X25. A reset time that the validator accepts for an absolute schedule
    names a point that every cycle reaches.  At 23:59:59 the node is due:
    for day, on any day, if the last reset was on an earlier date; for
    week, on a Sunday, if more than 7 calendar days have passed since the
    last reset; for month, on the 28th, if the last reset was in an
    earlier year or in a month of lower number; for year, on day 365 or
    later of the year, if the last reset was in an earlier year. *)
Theorem validated_schedule_fires_by_end_of_cycle
    (strategy : DataLimitResetStrategy.t) (reset_time : Z)
    (now last_reset : datetime.t) :
  validate_reset_time_for_strategy
    {| nc_data_limit_reset_strategy := Some strategy;
       nc_reset_time := reset_time |}
  = Accepted {| nc_data_limit_reset_strategy := Some strategy;
                nc_reset_time := reset_time |} ->
  reset_time <> -1 ->
  datetime.hour now = 23 -> datetime.minute now = 59 -> datetime.second now = 59 ->
  match strategy with
  | DataLimitResetStrategy.no_reset => True
  | DataLimitResetStrategy.day =>
      date.gt (datetime.date now) (datetime.date last_reset) = true ->
      should_reset strategy reset_time now last_reset = true
  | DataLimitResetStrategy.week =>
      datetime.weekday now = 6 ->
      7 < date.sub_days (datetime.date now) (datetime.date last_reset) ->
      should_reset strategy reset_time now last_reset = true
  | DataLimitResetStrategy.month =>
      datetime.day now = 28 ->
      datetime.year last_reset < datetime.year now
      \/ datetime.month last_reset < datetime.month now ->
      should_reset strategy reset_time now last_reset = true
  | DataLimitResetStrategy.year =>
      365 <= datetime.tm_yday now ->
      datetime.year last_reset < datetime.year now ->
      should_reset strategy reset_time now last_reset = true
  end.
Proof.
  unfold validate_reset_time_for_strategy, max_values, SECONDS_IN_DAY,
    SECONDS_IN_WEEK, SECONDS_IN_MONTH, SECONDS_IN_YEAR.
  cbn [nc_data_limit_reset_strategy nc_reset_time].
  intros Hvalid Hrt Hh Hm Hs. apply Z.eqb_neq in Hrt as Hrtb.
  destruct strategy; [exact I|..]; simpl in Hvalid; rewrite Hrtb in Hvalid;
    simpl in Hvalid;
    match type of Hvalid with
    | context [?m <=? reset_time] =>
        destruct (Z.leb_spec m reset_time) as [Hle|Hlt]; [discriminate|]
    end; clear Hvalid; simpl.
  - intros Hgt. unfold should_reset_day. rewrite Hh, Hm, Hs, Hgt. simpl.
    rewrite andb_true_r. apply Z.leb_le. lia.
  - intros Hsunday Hgap. unfold should_reset_week.
    rewrite Hh, Hm, Hs, Hsunday. bool_to_prop. lia.
  - intros H28 Hearlier. unfold should_reset_month. rewrite Hh, Hm, Hs, H28.
    assert (0 <= reset_time mod 86400 < 86400) by (apply Z.mod_pos_bound; lia).
    bool_to_prop. lia.
  - intros Hlate Hearlier. unfold should_reset_year. rewrite Hh, Hm, Hs.
    assert (0 <= reset_time mod 86400 < 86400) by (apply Z.mod_pos_bound; lia).
    assert (reset_time / 86400 < 365)
      by (apply Z.div_lt_upper_bound; lia).
    bool_to_prop. lia.
Qed.

Lemma validated_schedule_fires_by_end_of_cycle_witness :
  should_reset DataLimitResetStrategy.day 3600 (utc 2024 2 28 23 59 59)
    (utc 2024 2 27 12 0 0) = true
  /\ should_reset DataLimitResetStrategy.week 176400 (utc 2024 3 3 23 59 59)
       (utc 2024 2 20 12 0 0) = true
  /\ should_reset DataLimitResetStrategy.month 2595600 (utc 2024 2 28 23 59 59)
       (utc 2024 1 31 0 0 0) = true
  /\ should_reset DataLimitResetStrategy.year 867600 (utc 2023 12 31 23 59 59)
       (utc 2022 6 1 0 0 0) = true.
Proof.
  split; [|split; [|split]].
  - apply (validated_schedule_fires_by_end_of_cycle DataLimitResetStrategy.day
             3600 (utc 2024 2 28 23 59 59) (utc 2024 2 27 12 0 0));
      first [reflexivity | discriminate].
  - apply (validated_schedule_fires_by_end_of_cycle DataLimitResetStrategy.week
             176400 (utc 2024 3 3 23 59 59) (utc 2024 2 20 12 0 0));
      first [reflexivity | discriminate].
  - apply (validated_schedule_fires_by_end_of_cycle DataLimitResetStrategy.month
             2595600 (utc 2024 2 28 23 59 59) (utc 2024 1 31 0 0 0));
      first [reflexivity | discriminate | right; simpl; lia].
  - apply (validated_schedule_fires_by_end_of_cycle DataLimitResetStrategy.year
             867600 (utc 2023 12 31 23 59 59) (utc 2022 6 1 0 0 0));
      first [reflexivity | discriminate | vm_compute; discriminate].
Defined.

(** * The selector and the executor: claim C8 *)

(** C8, as the claim states it, fails in its last part: the executor
    resets a disabled node, and a no_reset node, that it is handed.  Node
    3 of the example fleet is disabled and is not selected, yet
    [reset_node_usage] zeroes its counters and logs them; the single
    no_reset node is not selected, yet [bulk_reset_node_usage] resets
    it. *)
Lemma executor_resets_disabled_and_no_reset_nodes :
  (Node.status <$> nodes (working example_fleet) !! 3 = Some NodeStatus.disabled
   /\ Node.uplink <$> nodes (working example_fleet) !! 3 = Some 1000
   /\ (3 ∉ get_nodes_to_reset_usage (utc 2024 1 11 2 0 0)
             (fun _ => utc 2024 1 11 2 0 0) example_fleet)
   /\ exists db',
        reset_node_usage true (utc 2024 1 11 2 0 0) 3 example_fleet = Return 3 db'
        /\ Node.uplink <$> nodes (committed db') !! 3 = Some 0
        /\ Node.downlink <$> nodes (committed db') !! 3 = Some 0
        /\ node_usage_reset_logs (committed db')
           = [NodeUsageResetLogs.make 3 1000 2000 (utc 2024 1 11 2 0 0)])
  /\ (Node.data_limit_reset_strategy
        <$> nodes (working (example_single DataLimitResetStrategy.no_reset (-1)
                             (utc 2024 1 1 0 0 0))) !! 1
      = Some DataLimitResetStrategy.no_reset
      /\ (1 ∉ get_nodes_to_reset_usage (utc 2024 1 11 2 0 0)
                (fun _ => utc 2024 1 11 2 0 0)
                (example_single DataLimitResetStrategy.no_reset (-1)
                   (utc 2024 1 1 0 0 0)))
      /\ exists db',
           bulk_reset_node_usage true (utc 2024 1 11 2 0 0) [1]
             (example_single DataLimitResetStrategy.no_reset (-1)
                (utc 2024 1 1 0 0 0))
           = Return [1] db'
           /\ Node.uplink <$> nodes (committed db') !! 1 = Some 0
           /\ Node.downlink <$> nodes (committed db') !! 1 = Some 0
           /\ node_usage_reset_logs (committed db')
              = [NodeUsageResetLogs.make 1 1000 2000 (utc 2024 1 11 2 0 0)]).
Proof.
  split.
  - split; [reflexivity|]. split; [reflexivity|]. split.
    + vm_compute. intros Hin.
      repeat (apply elem_of_cons in Hin as [Hin|Hin]; [discriminate|]).
      by apply elem_of_nil in Hin.
    + eexists. split; [vm_compute; reflexivity|]. by vm_compute.
  - split; [reflexivity|]. split.
    + vm_compute. intros Hin. by apply elem_of_nil in Hin.
    + eexists. split; [vm_compute; reflexivity|]. by vm_compute.
Qed.

(** C8, amended. Every node that [get_nodes_to_reset_usage] returns is a
    node of the session whose status is one of connecting, connected,
    error and limited and whose strategy is not no_reset: a disabled node
    is never selected, whatever its strategy and reset time, and a
    no_reset node is never selected, whatever its status.  So a tick that
    hands the selection to [bulk_reset_node_usage] never resets such a
    node: its row is as before and no log row is written for it.  The
    executor by itself applies no such filter. *)
Theorem selected_nodes_are_candidates_and_tick_spares_the_rest
    (sql_now now : datetime.t) (clock : nat -> datetime.t) (db : AsyncSession) :
  (forall node_id,
     node_id ∈ get_nodes_to_reset_usage sql_now clock db ->
     exists n,
       nodes (working db) !! node_id = Some n
       /\ Node.status n ∈ [NodeStatus.connecting; NodeStatus.connected;
                           NodeStatus.error; NodeStatus.limited]
       /\ Node.status n <> NodeStatus.disabled
       /\ Node.data_limit_reset_strategy n <> DataLimitResetStrategy.no_reset)
  /\ (forall node_id n,
        nodes (working db) !! node_id = Some n ->
        Node.status n = NodeStatus.disabled
        \/ Node.data_limit_reset_strategy n = DataLimitResetStrategy.no_reset ->
        node_id ∉ get_nodes_to_reset_usage sql_now clock db)
  /\ exists db',
       bulk_reset_node_usage true now (get_nodes_to_reset_usage sql_now clock db) db
       = Return (get_nodes_to_reset_usage sql_now clock db) db'
       /\ forall node_id n,
            nodes (working db) !! node_id = Some n ->
            Node.status n = NodeStatus.disabled
            \/ Node.data_limit_reset_strategy n = DataLimitResetStrategy.no_reset ->
            nodes (committed db') !! node_id = Some n
            /\ usage_logs (committed db') node_id = usage_logs (working db) node_id.
Proof.
  assert (forall node_id,
            node_id ∈ get_nodes_to_reset_usage sql_now clock db ->
            exists n,
              nodes (working db) !! node_id = Some n
              /\ Node.status n ∈ [NodeStatus.connecting; NodeStatus.connected;
                                  NodeStatus.error; NodeStatus.limited]
              /\ Node.status n <> NodeStatus.disabled
              /\ Node.data_limit_reset_strategy n <> DataLimitResetStrategy.no_reset)
    as Hcandidates.
  { intros node_id Hin. apply selected_is_Some in Hin as (n & Hn & Hwhere).
    exists n. split; [exact Hn|].
    unfold stmt_where in Hwhere.
    apply andb_true_iff in Hwhere as [Hwhere _].
    apply andb_true_iff in Hwhere as [Hstatus Hstrategy].
    apply bool_decide_eq_true_1 in Hstatus, Hstrategy.
    rewrite !elem_of_cons, elem_of_nil in Hstatus.
    split; [|split; [|exact Hstrategy]].
    - rewrite !elem_of_cons. tauto.
    - intros Hdis. rewrite Hdis in Hstatus.
      destruct Hstatus as [?|[?|[?|[?|[]]]]]; discriminate. }
  assert (forall node_id n,
            nodes (working db) !! node_id = Some n ->
            Node.status n = NodeStatus.disabled
            \/ Node.data_limit_reset_strategy n = DataLimitResetStrategy.no_reset ->
            node_id ∉ get_nodes_to_reset_usage sql_now clock db) as Hspared.
  { intros node_id n Hn Hout Hin.
    destruct (Hcandidates node_id Hin) as (n' & Hn' & _ & Hdis & Hno).
    assert (n' = n) as -> by congruence. by destruct Hout. }
  split; [exact Hcandidates|]. split; [exact Hspared|].
  rewrite bulk_reset_node_usage_fold.
  - eexists. split; [reflexivity|]. simpl.
    intros node_id n Hn Hout. pose proof (Hspared node_id n Hn Hout) as Hnot.
    split.
    + by rewrite foldl_reset_in_lookup_notin.
    + by apply foldl_reset_in_usage_logs_notin.
  - intros i Hi. destruct (Hcandidates i Hi) as (n & Hn & _). by eexists.
Qed.
